(** * Ollama model manager: definition validation, create-or-replace, backups,
      network isolation and the single create worker.

    A shallow embedding of [ollama_api.py] (class [OllamaAPI]) and of
    [fix_ollama_manager.py] (class [OllamaManagerGUI]).

    A Python [str] is modelled as a [string] that holds the octets of its
    UTF-8 encoding; the white space of [str.strip] and of [\s] is the whole
    set [str.isspace] holds for, each character by its octets.
    Calls that leave the process (the [ollama] command line, the daemon's HTTP
    interface, files, dialogs, PowerShell) are calls of a small free monad
    [Prog]; a handler gives them a meaning, and every run records the calls
    it made together with their replies. *)

From Stdlib Require Import ZArith Ascii String List Bool Lia.
From stdpp Require Import base option list gmap strings pretty.
Import ListNotations.

Local Open Scope string_scope.
Local Open Scope Z_scope.

(** ** Python string methods *)

Module Py.

(** [c.isspace()] for a character of the ASCII range, which is one octet:
    TAB..CR, FS..US, space. *)
Definition isspace (c : ascii) : bool :=
  let n := nat_of_ascii c in
  ((9 <=? n)%nat && (n <=? 13)%nat) || ((28 <=? n)%nat && (n <=? 32)%nat).

(** The other characters [str.isspace] holds for, by the octets of their
    encoding. Two octets: U+0085 and U+00A0. *)
Definition isspace2 (c d : ascii) : bool :=
  (nat_of_ascii c =? 194)%nat &&
  ((nat_of_ascii d =? 133)%nat || (nat_of_ascii d =? 160)%nat).

(** The last octet of U+2000..U+200A, U+2028, U+2029 and U+202F, which share
    their first two. *)
Definition general_punctuation_space (e : ascii) : bool :=
  let n := nat_of_ascii e in
  ((128 <=? n)%nat && (n <=? 138)%nat) ||
  (n =? 168)%nat || (n =? 169)%nat || (n =? 175)%nat.

(** Three octets: U+1680, U+2000..U+200A, U+2028, U+2029, U+202F, U+205F and
    U+3000. *)
Definition isspace3 (c d e : ascii) : bool :=
  let x := nat_of_ascii c in
  let y := nat_of_ascii d in
  let z := nat_of_ascii e in
  ((x =? 225)%nat && (y =? 154)%nat && (z =? 128)%nat) ||
  ((x =? 226)%nat && (y =? 128)%nat && general_punctuation_space e) ||
  ((x =? 226)%nat && (y =? 129)%nat && (z =? 159)%nat) ||
  ((x =? 227)%nat && (y =? 128)%nat && (z =? 128)%nat).

(** The text is one white-space character. *)
Definition space_char (s : string) : bool :=
  match s with
  | String c EmptyString => isspace c
  | String c (String d EmptyString) => isspace2 c d
  | String c (String d (String e EmptyString)) => isspace3 c d e
  | _ => false
  end.

Definition newline : ascii := "010"%char.
Definition nl : string := String newline EmptyString.
Definition dquote : string := String "034"%char EmptyString.

(** [s.lstrip()]: the white-space characters at the start are passed, of one,
    two or three octets each. *)
Fixpoint lstrip (s : string) : string :=
  match s with
  | EmptyString => EmptyString
  | String c s1 =>
      if isspace c then lstrip s1
      else
        match s1 with
        | EmptyString => s
        | String d s2 =>
            if isspace2 c d then lstrip s2
            else
              match s2 with
              | EmptyString => s
              | String e s3 => if isspace3 c d e then lstrip s3 else s
              end
        end
  end.

(** [s.rstrip()]: from the end, what is left of the text is dropped as long
    as it is one white-space character. *)
Fixpoint rstrip (s : string) : string :=
  match s with
  | EmptyString => EmptyString
  | String c s' =>
      let t := String c (rstrip s') in
      if space_char t then EmptyString else t
  end.

(** [s.strip()] *)
Definition strip (s : string) : string := lstrip (rstrip s).

(** [s.startswith(p)] *)
Fixpoint startswith (s p : string) : bool :=
  match p, s with
  | EmptyString, _ => true
  | String a p', String b s' => Ascii.eqb a b && startswith s' p'
  | String _ _, EmptyString => false
  end.

(** [needle in hay] on strings. *)
Fixpoint contains (needle hay : string) : bool :=
  startswith hay needle ||
  match hay with
  | EmptyString => false
  | String _ hay' => contains needle hay'
  end.

(** [s.split('\n')]: never empty; the empty string splits to one empty line. *)
Fixpoint split_nl (s : string) : list string :=
  match s with
  | EmptyString => [EmptyString]
  | String c s' =>
      if Ascii.eqb c newline then EmptyString :: split_nl s'
      else match split_nl s' with
           | l :: ls => String c l :: ls
           | [] => [String c EmptyString]
           end
  end.

(** ["\n".join(l)] *)
Fixpoint join_nl (l : list string) : string :=
  match l with
  | [] => EmptyString
  | [x] => x
  | x :: rest => x +:+ nl +:+ join_nl rest
  end.

(** Truth value of a string: [bool(s)]. *)
Definition truthy (s : string) : bool :=
  match s with EmptyString => false | _ => true end.

(** All suffixes of [s], the longest first, the empty one last. *)
Fixpoint suffixes (s : string) : list string :=
  s :: match s with
       | EmptyString => []
       | String _ s' => suffixes s'
       end.

(** [s[:-1]] when [s] ends with a newline. *)
Fixpoint chop_final_newline (s : string) : option string :=
  match s with
  | EmptyString => None
  | String c EmptyString => if Ascii.eqb c newline then Some EmptyString else None
  | String c s' => option_map (String c) (chop_final_newline s')
  end.

Definition carriage_return : ascii := "013"%char.

(** What a file opened in text mode for writing stores: every newline is
    written as [linesep], the line separator of the system. *)
Fixpoint write_newlines (linesep s : string) : string :=
  match s with
  | EmptyString => EmptyString
  | String c s' =>
      if Ascii.eqb c newline then linesep +:+ write_newlines linesep s'
      else String c (write_newlines linesep s')
  end.

(** What a file opened in text mode for reading gives: a carriage return
    with the newline after it, and a carriage return alone, are read as one
    newline. *)
Fixpoint read_newlines (s : string) : string :=
  match s with
  | EmptyString => EmptyString
  | String c s' =>
      if Ascii.eqb c carriage_return then
        match s' with
        | String d s'' =>
            if Ascii.eqb d newline then String newline (read_newlines s'')
            else String newline (read_newlines s')
        | EmptyString => String newline EmptyString
        end
      else String c (read_newlines s')
  end.

End Py.

(** ** Regular expressions of the [re] module

    Only the existence of a match is used by the program, so a pattern is
    modelled by its language, decided by derivatives. *)

Module Re.

Inductive regex : Type :=
| Void
| Eps
| Class (p : ascii -> bool)
| Seq (r1 r2 : regex)
| Alt (r1 r2 : regex)
| Star (r : regex).

Definition Plus (r : regex) : regex := Seq r (Star r).
Definition Opt (r : regex) : regex := Alt r Eps.
Definition Chr (c : ascii) : regex := Class (Ascii.eqb c).

Fixpoint Lit (s : string) : regex :=
  match s with
  | EmptyString => Eps
  | String c s' => Seq (Chr c) (Lit s')
  end.

Fixpoint nullable (r : regex) : bool :=
  match r with
  | Void => false
  | Eps => true
  | Class _ => false
  | Seq r1 r2 => nullable r1 && nullable r2
  | Alt r1 r2 => nullable r1 || nullable r2
  | Star _ => true
  end.

Fixpoint deriv (c : ascii) (r : regex) : regex :=
  match r with
  | Void => Void
  | Eps => Void
  | Class p => if p c then Eps else Void
  | Seq r1 r2 =>
      if nullable r1 then Alt (Seq (deriv c r1) r2) (deriv c r2)
      else Seq (deriv c r1) r2
  | Alt r1 r2 => Alt (deriv c r1) (deriv c r2)
  | Star r1 => Seq (deriv c r1) (Star r1)
  end.

(** The whole of [s] is a word of [r]. *)
Fixpoint fullmatch (r : regex) (s : string) : bool :=
  match s with
  | EmptyString => nullable r
  | String c s' => fullmatch (deriv c r) s'
  end.

(** A pattern [r$] matched from the start of [s]: [$] stands at the end of the
    string or just before a newline that ends the string. *)
Definition match_to_end (r : regex) (s : string) : bool :=
  fullmatch r s ||
  match Py.chop_final_newline s with
  | Some s' => fullmatch r s'
  | None => false
  end.

(** [re.match(r'^r$', s)] is not [None]. *)
Definition re_match (r : regex) (s : string) : bool := match_to_end r s.

(** [re.search(r'r$', s)] is not [None]: some suffix matches to the end. *)
Definition re_search (r : regex) (s : string) : bool :=
  existsb (match_to_end r) (Py.suffixes s).

(** [[a-zA-Z0-9._-]] *)
Definition name_char (c : ascii) : bool :=
  let n := nat_of_ascii c in
  ((97 <=? n)%nat && (n <=? 122)%nat) ||
  ((65 <=? n)%nat && (n <=? 90)%nat) ||
  ((48 <=? n)%nat && (n <=? 57)%nat) ||
  Ascii.eqb c "." || Ascii.eqb c "_" || Ascii.eqb c "-".

(** [[a-zA-Z0-9._-]+], the pattern of [re.match(r'^[a-zA-Z0-9._-]+$', model_name)]. *)
Definition MODEL_NAME : regex := Plus (Class name_char).

(** [[a-zA-Z0-9._-]+(?::[a-zA-Z0-9._-]+)?] *)
Definition NAME_TAG : regex :=
  Seq (Plus (Class name_char)) (Opt (Seq (Chr ":") (Plus (Class name_char)))).

Definition octet (n : nat) : regex := Chr (ascii_of_nat n).

(** [\s] of a [str] pattern: one white-space character, by its octets. *)
Definition SPACE : regex :=
  Alt (Class Py.isspace)
    (Alt (Seq (octet 194) (Alt (octet 133) (octet 160)))
       (Alt (Seq (octet 225) (Seq (octet 154) (octet 128)))
          (Alt (Seq (octet 226) (Seq (octet 128) (Class Py.general_punctuation_space)))
             (Alt (Seq (octet 226) (Seq (octet 129) (octet 159)))
                (Seq (octet 227) (Seq (octet 128) (octet 128))))))).

(** [FROM\s+[a-zA-Z0-9._-]+(?::[a-zA-Z0-9._-]+)?], searched with a final [$]. *)
Definition FROM_DIRECTIVE : regex :=
  Seq (Lit "FROM") (Seq (Plus SPACE) NAME_TAG).

End Re.

(** ** The FROM directive of a Modelfile
    ([OllamaManagerGUI._ensure_valid_from_directive], the parts without dialogs) *)

(** The scanning loop over [lines]: comment lines are skipped; a line whose
    stripped text starts with ['FROM '] decides (by [re.search]) and ends the
    loop; any other non-blank line ends the loop with no valid directive; blank
    lines are passed over. The result is the flag [has_valid_from]. *)
Fixpoint scan_from (lines : list string) : bool :=
  match lines with
  | [] => false
  | line :: rest =>
      if Py.startswith (Py.strip line) "#" then scan_from rest
      else if Py.startswith (Py.strip line) "FROM " then
        Re.re_search Re.FROM_DIRECTIVE (Py.strip line)
      else if Py.truthy (Py.strip line) && negb (Py.startswith (Py.strip line) "#") then false
      else scan_from rest
  end.

(** [lines = modelfile_content.strip().split('\n')] *)
Definition lines_of (modelfile_content : string) : list string :=
  Py.split_nl (Py.strip modelfile_content).

(** The value of [has_valid_from] after the loop, for a non-empty content; an
    empty content returns [None] before the loop. *)
Definition has_valid_from (modelfile_content : string) : bool :=
  Py.truthy modelfile_content && scan_from (lines_of modelfile_content).

(** The second loop: [user_content] collects, by [append], every line whose
    stripped text does not start with ['FROM ']. *)
Definition keep_line (line : string) : bool :=
  negb (Py.startswith (Py.strip line) "FROM ").

Definition user_content (lines : list string) : list string :=
  fold_left (fun acc line => if keep_line line then (acc ++ [line])%list else acc) lines [].

(** [new_content = [f"FROM {model_name}"]; new_content.extend(user_content)] *)
Definition new_content (model_name : string) (lines : list string) : list string :=
  ("FROM " +:+ model_name) :: user_content lines.

(** The text returned after the user chose [model_name]. *)
Definition rebuild (modelfile_content model_name : string) : string :=
  Py.join_nl (new_content model_name (lines_of modelfile_content)).

(** *** The validity of a definition as the specification words it

    The first line that is neither blank nor a comment must be a base
    directive: [FROM], white space, and an argument that as a whole is a name
    with an optional tag. *)
Fixpoint first_substantive_line (lines : list string) : option string :=
  match lines with
  | [] => None
  | line :: rest =>
      if negb (Py.truthy (Py.strip line)) || Py.startswith (Py.strip line) "#"
      then first_substantive_line rest
      else Some (Py.strip line)
  end.

Definition directive_argument (line : string) : string :=
  Py.lstrip (String.substring 4 (String.length line - 4) line).

Definition spec_base_directive (line : string) : bool :=
  Py.startswith line "FROM " && Re.fullmatch Re.NAME_TAG (directive_argument line).

Definition spec_valid (D : string) : bool :=
  match first_substantive_line (Py.split_nl D) with
  | Some line => spec_base_directive line
  | None => false
  end.

(** The rebuilt document as the specification words it: the chosen base
    directive, then every original line but the original base directive. Only
    the first line that is neither blank nor a comment can be that directive. *)
Fixpoint remove_base_directive (lines : list string) : list string :=
  match lines with
  | [] => []
  | line :: rest =>
      if negb (Py.truthy (Py.strip line)) || Py.startswith (Py.strip line) "#"
      then line :: remove_base_directive rest
      else if Py.startswith (Py.strip line) "FROM " then rest
      else line :: rest
  end.

Definition spec_rebuild (modelfile_content model_name : string) : list string :=
  ("FROM " +:+ model_name) :: remove_base_directive (lines_of modelfile_content).

(** ** Calls that leave the process *)

(** The [ollama] command lines built by [OllamaAPI.create_model]. *)
Inductive Cmd : Type :=
| ollama_list_findstr (model_name : string)
| ollama_create (model_name modelfile_path : string)
| ollama_rm (model_name : string)
| ollama_cp (source target : string).

(** The text handed to the shell. *)
Definition cmdline (c : Cmd) : string :=
  match c with
  | ollama_list_findstr n => "ollama list | findstr " +:+ Py.dquote +:+ n +:+ Py.dquote
  | ollama_create n p => "ollama create " +:+ n +:+ " -f " +:+ Py.dquote +:+ p +:+ Py.dquote
  | ollama_rm n => "ollama rm " +:+ n
  | ollama_cp s t => "ollama cp " +:+ s +:+ " " +:+ t
  end.

Inductive Direction : Type := Outbound | Inbound.

(** The PowerShell commands of the firewall methods. *)
Inductive PSCmd : Type :=
| Get_NetFirewallRule (DisplayName : string)
| New_NetFirewallRule (DisplayName : string) (direction : Direction) (Program : string)
| Remove_NetFirewallRule (DisplayName : string).

(** What [subprocess.run] returns. *)
Record CompletedProcess : Type := { returncode : Z; stdout : string }.

(** Titles of the message boxes the modelled methods show. *)
Inductive Warning : Type :=
| W_in_progress            (* creation of another model is in progress *)
| W_invalid_model_name     (* the model name has a character outside letters, digits, . _ - *)
| W_no_model_list          (* the list of base models cannot be fetched *)
| W_invalid_modelfile      (* check_only: no valid FROM directive *)
| W_select_model_first     (* save: no model is selected *)
| W_no_backup              (* no backup under this name *)
| W_restore_failed         (* reading the backup raised *)
| W_ollama_not_found       (* the Ollama executable cannot be located *)
| W_operation_failed.      (* setting the security mode raised *)

Inductive Information : Type :=
| I_modelfile_updated | I_security_mode_on | I_security_mode_off.

Inductive Question : Type :=
| Q_confirm_modelfile | Q_confirm_rebuild | Q_confirm_restore | Q_confirm_create.

Inductive Call : Type :=
(* ollama_api.py *)
| NamedTemporaryFile (content : string)
| subprocess_run (c : Cmd)
| os_system (c : Cmd)
| time_time
| os_path_exists (path : string)
| os_unlink (path : string)
(* the daemon's HTTP interface, through self.api *)
| api_list_models
| api_get_modelfile (model_name : string)
(* the create thread *)
| CreateModelThread_start (model_name modelfile_content : string)
| QThread_isRunning (thread : nat)
(* dialogs *)
| QMessageBox_warning (w : Warning)
| QMessageBox_information (i : Information)
| QMessageBox_question (q : Question)
| QInputDialog_getItem (items : list string)
| QInputDialog_getText
(* backup files *)
| open_write (path content : string)
| open_read (path : string)
| time_strftime
(* firewall *)
| powershell (c : PSCmd)
| where_ollama.

(** The type of the value a call gives back. [None] stands for a raised
    exception where the caller has an [except] clause for it. *)
Definition reply (c : Call) : Type :=
  match c with
  | NamedTemporaryFile _ => option string          (* the file's name *)
  | subprocess_run _ => option CompletedProcess
  | os_system _ => Z
  | time_time => Z                                 (* int(time.time()) *)
  | os_path_exists _ => bool
  | os_unlink _ => bool                            (* false: raised *)
  | api_list_models => list string                 (* model.get('name', '') of each entry *)
  | api_get_modelfile _ => option string
  | CreateModelThread_start _ _ => nat             (* the thread object *)
  | QThread_isRunning _ => bool
  | QMessageBox_warning _ => unit
  | QMessageBox_information _ => unit
  | QMessageBox_question _ => bool                 (* true: Yes *)
  | QInputDialog_getItem _ => string * bool        (* (item, ok) *)
  | QInputDialog_getText => string * bool
  | open_write _ _ => bool                         (* false: raised *)
  | open_read _ => option string
  | time_strftime => string
  | powershell _ => option Z                       (* the return code *)
  | where_ollama => option CompletedProcess        (* subprocess.run("where ollama", ...) *)
  end.

Record Event : Type := Ev { ev_call : Call; ev_reply : reply ev_call }.

(** Programs: a result, or a call and the rest of the program for each reply. *)
Inductive Prog (A : Type) : Type :=
| Ret (a : A)
| Vis (c : Call) (k : reply c -> Prog A).
Arguments Ret {A} a.
Arguments Vis {A} c k.

Fixpoint bind {A B : Type} (p : Prog A) (f : A -> Prog B) : Prog B :=
  match p with
  | Ret a => f a
  | Vis c k => Vis c (fun r => bind (k r) f)
  end.

Definition call (c : Call) : Prog (reply c) := Vis c Ret.

#[export] Instance Prog_ret : MRet Prog := @Ret.
#[export] Instance Prog_bind : MBind Prog := fun A B f p => bind p f.

(** A handler answers every call and moves its world on. *)
Definition Handler (World : Type) : Type := forall c : Call, World -> reply c * World.

(** Running a program: its result, the final world, the calls made in order. *)
Fixpoint exec {World A : Type} (h : Handler World) (p : Prog A) (w : World)
  : A * World * list Event :=
  match p with
  | Ret a => (a, w, [])
  | Vis c k =>
      let rw := h c w in
      let res := exec h (k (fst rw)) (snd rw) in
      (fst (fst res), snd (fst res), Ev c (fst rw) :: snd res)
  end.

Definition result {World A : Type} (x : A * World * list Event) : A := fst (fst x).
Definition world {World A : Type} (x : A * World * list Event) : World := snd (fst x).
Definition trace {World A : Type} (x : A * World * list Event) : list Event := snd x.
Arguments result {World A} x /.
Arguments world {World A} x /.
Arguments trace {World A} x /.

(** The [ollama] command of an event, if it ran one. *)
Definition ev_cmd (e : Event) : option Cmd :=
  match ev_call e with
  | subprocess_run c => Some c
  | os_system c => Some c
  | _ => None
  end.

(** The return code an event's command ended with; [None] when the event is
    no command or the command raised. *)
Definition ev_returncode (e : Event) : option Z :=
  match e with
  | Ev (subprocess_run _) (Some cp) => Some (returncode cp)
  | Ev (os_system _) rc => Some rc
  | _ => None
  end.

(** The event is a command's run that did not end with return code 0. *)
Definition ev_failed (e : Event) : bool :=
  match ev_cmd e, ev_returncode e with
  | Some _, Some rc => negb (rc =? 0)
  | Some _, None => true
  | None, _ => false
  end.

(** Calls that reach the daemon: an [ollama] command, a request to its HTTP
    interface, or the start of the thread that runs [create_model]. *)
Definition daemon_call (c : Call) : bool :=
  match c with
  | subprocess_run _ | os_system _ | api_list_models | api_get_modelfile _
  | CreateModelThread_start _ _ => true
  | _ => false
  end.

(** ** [OllamaAPI.create_model] *)

Module OllamaAPI.

(** The [except Exception] clause of [create_model]: remove the temporary file
    if there is one, return [False]. *)
Definition except_handler (temp_file : option string) : Prog bool :=
  match temp_file with
  | None => mret false
  | Some f =>
      ex ← call (os_path_exists f);
      if ex : bool then _ ← call (os_unlink f); mret false else mret false
  end.

(** [subprocess.run] inside the [try] block: a raised exception goes to the
    [except] clause. *)
Definition run (temp_file : option string) (c : Cmd)
    (k : CompletedProcess -> Prog bool) : Prog bool :=
  r ← call (subprocess_run c);
  match r with
  | Some cp => k cp
  | None => except_handler temp_file
  end.

(** [f"{model_name}_temp_{int(time.time())}"] *)
Definition temp_model_name (model_name : string) (t : Z) : string :=
  model_name +:+ "_temp_" +:+ pretty t.

(** The end of the [try] block: the temporary file is removed, then a
    successful build is checked against the listing. *)
Definition finish (model_name modelfile_path : string) (success : bool) : Prog bool :=
  ex ← call (os_path_exists modelfile_path);
  _ ← (if ex : bool then _ ← call (os_unlink modelfile_path); mret tt else mret tt);
  if success then
    run (Some modelfile_path) (ollama_list_findstr model_name) (fun verify_result =>
      if negb (Py.contains model_name (stdout verify_result)) then mret false
      else mret true)
  else mret false.

(** An existing model on win32: build under a temporary name, remove the
    original, copy the temporary model to the name, remove the temporary one. *)
Definition replace_win32 (model_name modelfile_path : string) : Prog bool :=
  t ← call time_time;
  let temp_model_name := temp_model_name model_name t in
  run (Some modelfile_path) (ollama_create temp_model_name modelfile_path) (fun result1 =>
    if negb (returncode result1 =? 0) then mret false
    else
      run (Some modelfile_path) (ollama_rm model_name) (fun result2 =>
      run (Some modelfile_path) (ollama_cp temp_model_name model_name) (fun result3 =>
      run (Some modelfile_path) (ollama_rm temp_model_name) (fun _ =>
      finish model_name modelfile_path (returncode result3 =? 0))))).

Definition create_model (platform model_name modelfile_content : string) : Prog bool :=
  if negb (Py.truthy modelfile_content)
     || negb (Py.startswith (Py.strip modelfile_content) "FROM")
  then mret false
  else
    f ← call (NamedTemporaryFile modelfile_content);
    match f with
    | None => except_handler None
    | Some modelfile_path =>
        r ← call (subprocess_run (ollama_list_findstr model_name));
        let existing_model :=
          match r with
          | Some result => Py.contains model_name (stdout result)
          | None => false
          end in
        if existing_model then
          if String.eqb platform "win32" then
            replace_win32 model_name modelfile_path
          else
            run (Some modelfile_path) (ollama_create model_name modelfile_path) (fun result =>
              finish model_name modelfile_path (returncode result =? 0))
        else
          if String.eqb platform "win32" then
            run (Some modelfile_path) (ollama_create model_name modelfile_path) (fun result =>
              finish model_name modelfile_path (returncode result =? 0))
          else
            result ← call (os_system (ollama_create model_name modelfile_path));
            finish model_name modelfile_path (result =? 0)
    end.

End OllamaAPI.

(** ** [OllamaManagerGUI] *)

(** An entry of [self.model_backups]. *)
Record Backup : Type := { path : string; time : string; content : option string }.

Inductive StatusMessage : Type :=
| S_none
| S_security_on            (* security mode is on, Ollama cannot reach the network *)
| S_security_off           (* security mode is off, Ollama can reach the network *)
| S_check_failed           (* checking the firewall rules raised *)
| S_backed_up (backup_path : string)
| S_creating (model_name : string).

(** The attributes of the window the modelled methods read or write. A thread
    object is a number; whether it runs is asked with [QThread_isRunning]. *)
Record Gui : Type := {
  current_operation : option string;
  create_thread : option nat;
  model_backups : gmap string Backup;
  current_item : option string;          (* self.model_list.currentItem().text() *)
  editor_content : string;               (* modelfile_editor.get_content() *)
  security_mode_checkbox : bool;
  statusBar : StatusMessage
}.

Definition set_current_operation (g : Gui) (op : option string) : Gui :=
  {| current_operation := op; create_thread := create_thread g;
     model_backups := model_backups g; current_item := current_item g;
     editor_content := editor_content g;
     security_mode_checkbox := security_mode_checkbox g; statusBar := statusBar g |}.

Definition set_create_thread (g : Gui) (t : nat) (msg : StatusMessage) : Gui :=
  {| current_operation := current_operation g; create_thread := Some t;
     model_backups := model_backups g; current_item := current_item g;
     editor_content := editor_content g;
     security_mode_checkbox := security_mode_checkbox g; statusBar := msg |}.

Definition set_backup (g : Gui) (model_name : string) (b : Backup) : Gui :=
  {| current_operation := current_operation g; create_thread := create_thread g;
     model_backups := <[model_name := b]> (model_backups g);
     current_item := current_item g; editor_content := editor_content g;
     security_mode_checkbox := security_mode_checkbox g;
     statusBar := S_backed_up (path b) |}.

Definition set_content (g : Gui) (text : string) : Gui :=
  {| current_operation := current_operation g; create_thread := create_thread g;
     model_backups := model_backups g; current_item := current_item g;
     editor_content := text;
     security_mode_checkbox := security_mode_checkbox g; statusBar := statusBar g |}.

Definition set_security (g : Gui) (checked : bool) (msg : StatusMessage) : Gui :=
  {| current_operation := current_operation g; create_thread := create_thread g;
     model_backups := model_backups g; current_item := current_item g;
     editor_content := editor_content g;
     security_mode_checkbox := checked; statusBar := msg |}.

(** [self.__init__]: no operation, no thread, no backups. *)
Definition init_gui : Gui :=
  {| current_operation := None; create_thread := None; model_backups := ∅;
     current_item := None; editor_content := EmptyString;
     security_mode_checkbox := false; statusBar := S_none |}.

Definition firewall_rule_name_out : string := "OllamaSecurityOut".
Definition firewall_rule_name_in : string := "OllamaSecurityIn".

(** [_ensure_valid_from_directive]: the content itself when its FROM directive
    is valid; otherwise the user picks a base model among the daemon's models
    and the content is rebuilt; [None] when nothing can be returned. *)
Definition _ensure_valid_from_directive (modelfile_content : string) (check_only : bool)
  : Prog (option string) :=
  if negb (Py.truthy modelfile_content) then mret None
  else if scan_from (lines_of modelfile_content) then mret (Some modelfile_content)
  else if check_only then
    _ ← call (QMessageBox_warning W_invalid_modelfile); mret None
  else
    models ← call api_list_models;
    match models with
    | [] => _ ← call (QMessageBox_warning W_no_model_list); mret None
    | _ =>
        let model_names := List.filter Py.truthy models in
        choice ← call (QInputDialog_getItem model_names);
        let model_name := fst choice in
        let ok := snd choice in
        if negb ok || negb (Py.truthy model_name) then mret None
        else mret (Some (rebuild modelfile_content model_name))
    end.

(** [self.current_operation != "save"] *)
Definition not_save (g : Gui) : bool :=
  match current_operation g with
  | Some op => negb (String.eqb op "save")
  | None => true
  end.

(** [self.create_thread and self.create_thread.isRunning()] *)
Definition thread_is_running (g : Gui) : Prog bool :=
  match create_thread g with
  | Some t => call (QThread_isRunning t)
  | None => mret false
  end.

(** [_create_model_with_thread]. [ensure_utf8_encoding] returns a [str]
    argument as it is, so the content reaches the thread unchanged. *)
Definition _create_model_with_thread (g : Gui) (model_name modelfile_content : string)
  : Prog Gui :=
  running ← thread_is_running g;
  if running : bool then
    _ ← call (QMessageBox_warning W_in_progress); mret g
  else if not_save g
          && (negb (Py.truthy model_name) || negb (Re.re_match Re.MODEL_NAME model_name))
  then
    _ ← call (QMessageBox_warning W_invalid_model_name); mret g
  else
    fixed ← (if not_save g then _ensure_valid_from_directive modelfile_content false
             else mret (Some modelfile_content));
    match fixed with
    | None => mret g
    | Some fixed_content =>
        t ← call (CreateModelThread_start model_name fixed_content);
        mret (set_create_thread g t (S_creating model_name))
    end.

(** [_ask_model_name_and_create]: the save button while a create or a clone is
    pending. *)
Definition _ask_model_name_and_create (g : Gui) : Prog Gui :=
  let modelfile_content := editor_content g in
  fixed ← _ensure_valid_from_directive modelfile_content false;
  match fixed with
  | None => mret g
  | Some fixed_content =>
      g1 ← (if negb (String.eqb fixed_content modelfile_content)
            then _ ← call (QMessageBox_information I_modelfile_updated);
                 mret (set_content g fixed_content)
            else mret g);
      answer ← call QInputDialog_getText;
      let model_name := fst answer in
      let ok := snd answer in
      if negb (ok && Py.truthy model_name) then mret g1
      else if negb (Re.re_match Re.MODEL_NAME model_name) then
        _ ← call (QMessageBox_warning W_invalid_model_name); mret g1
      else
        yes ← call (QMessageBox_question Q_confirm_create);
        if yes : bool then _create_model_with_thread g1 model_name fixed_content
        else mret g1
  end.

Section Backups.

(** [tempfile.gettempdir()], with the separator [os.path.join] puts after it. *)
Variable tempdir : string.

(** [os.path.join(tempfile.gettempdir(), f"{model_name}_backup.modelfile")] *)
Definition backup_path (model_name : string) : string :=
  tempdir +:+ model_name +:+ "_backup.modelfile".

(** The [try] block of [save_modelfile] that backs the original Modelfile up:
    the daemon's current Modelfile is written to the backup file and recorded
    in [model_backups]; when writing raises, nothing is recorded. *)
Definition backup_original (g : Gui) (model_name : string) : Prog Gui :=
  original_modelfile ← call (api_get_modelfile model_name);
  let text := match original_modelfile with
              | Some s => s          (* [original_modelfile or ""] *)
              | None => EmptyString
              end in
  written ← call (open_write (backup_path model_name) text);
  if written : bool then
    now ← call time_strftime;
    mret (set_backup g model_name
            {| path := backup_path model_name; time := now; content := original_modelfile |})
  else mret g.

Definition save_modelfile (g : Gui) : Prog Gui :=
  match current_item g with
  | None => _ ← call (QMessageBox_warning W_select_model_first); mret g
  | Some model_name =>
      let modelfile_content := editor_content g in
      fixed ← _ensure_valid_from_directive modelfile_content false;
      match fixed with
      | None => mret g
      | Some fixed_content =>
          g1 ← (if negb (String.eqb fixed_content modelfile_content)
                then _ ← call (QMessageBox_information I_modelfile_updated);
                     mret (set_content g fixed_content)
                else mret g);
          confirmed ← call (QMessageBox_question Q_confirm_modelfile);
          if negb confirmed then mret g1
          else
            g2 ← backup_original g1 model_name;
            yes ← call (QMessageBox_question Q_confirm_rebuild);
            if yes : bool then
              _create_model_with_thread (set_current_operation g2 (Some "save"))
                model_name fixed_content
            else mret g2
      end
  end.

End Backups.

(** [_restore_from_backup] *)
Definition _restore_from_backup (g : Gui) (model_name : string) : Prog Gui :=
  match model_backups g !! model_name with
  | None => _ ← call (QMessageBox_warning W_no_backup); mret g
  | Some backup_info =>
      yes ← call (QMessageBox_question Q_confirm_restore);
      if negb yes then mret g
      else
        r ← call (open_read (path backup_info));
        match r with
        | None => _ ← call (QMessageBox_warning W_restore_failed); mret g
        | Some backup_content => _create_model_with_thread g model_name backup_content
        end
  end.

(** *** Security mode: the two firewall rules *)

(** [subprocess.run(cmd, check=True)]: a return code other than 0 raises. *)
Definition run_checked (c : PSCmd) : Prog bool :=
  r ← call (powershell c);
  match r with
  | Some rc => mret (rc =? 0)
  | None => mret false
  end.

(** [enable_security_mode]: [None] when the method raises. *)
Definition enable_security_mode (g : Gui) (ollama_path : string) : Prog (option Gui) :=
  ok_out ← run_checked (New_NetFirewallRule firewall_rule_name_out Outbound ollama_path);
  if ok_out : bool then
    ok_in ← run_checked (New_NetFirewallRule firewall_rule_name_in Inbound ollama_path);
    if ok_in : bool then
      _ ← call (QMessageBox_information I_security_mode_on);
      mret (Some (set_security g (security_mode_checkbox g) S_security_on))
    else mret None
  else mret None.

(** [disable_security_mode]: [None] when the method raises. *)
Definition disable_security_mode (g : Gui) : Prog (option Gui) :=
  ok_out ← run_checked (Remove_NetFirewallRule firewall_rule_name_out);
  if ok_out : bool then
    ok_in ← run_checked (Remove_NetFirewallRule firewall_rule_name_in);
    if ok_in : bool then
      _ ← call (QMessageBox_information I_security_mode_off);
      mret (Some (set_security g (security_mode_checkbox g) S_security_off))
    else mret None
  else mret None.

(** The three places [find_ollama_path] looks at after the [where] command;
    [home] is what [os.path.expanduser] puts for the tilde. *)
Definition potential_paths (home : string) : list string :=
  [home +:+ "\AppData\Local\Programs\Ollama\ollama.exe";
   "C:\Program Files\Ollama\ollama.exe";
   "C:\Ollama\ollama.exe"].

(** The loop of [find_ollama_path] over the potential paths. *)
Fixpoint first_existing (paths : list string) : Prog (option string) :=
  match paths with
  | [] => mret None
  | path :: rest =>
      found ← call (os_path_exists path);
      if found : bool then mret (Some path) else first_existing rest
  end.

(** [find_ollama_path], with its calls. *)
Definition find_ollama_path_calls (home : string) : Prog (option string) :=
  result ← call where_ollama;
  match result with
  | Some r =>
      if returncode r =? 0 then mret (Some (Py.strip (stdout r)))
      else first_existing (potential_paths home)
  | None => first_existing (potential_paths home)
  end.

(** The box of the security mode is connected to [toggle_security_mode]
    (signal [stateChanged], in [setup_ui]): whenever [setChecked] changes the
    state of the box, the slot runs before [setChecked] returns. The slot
    calls [setChecked] and [check_firewall_rules] in turn, so the three are
    defined together, the slot by the depth to which it is followed: [None]
    is a nesting deeper than that. *)
Section Slot.

(** The slot: [toggle_security_mode] on a window, with [state == Qt.Checked]. *)
Variable slot : Gui -> bool -> Prog (option Gui).

(** [self.security_mode_checkbox.setChecked(b)] *)
Definition setChecked (g : Gui) (b : bool) : Prog (option Gui) :=
  if Bool.eqb (security_mode_checkbox g) b then mret (Some g)
  else slot (set_security g b (statusBar g)) b.

(** [self.statusBar.showMessage(msg)] once [setChecked] has returned. *)
Definition then_showMessage (p : Prog (option Gui)) (msg : StatusMessage)
  : Prog (option Gui) :=
  g ← p;
  mret (match g with
        | Some g' => Some (set_security g' (security_mode_checkbox g') msg)
        | None => None
        end).

(** [check_firewall_rules]: both rules are looked up by display name; the box
    is set checked when both lookups end with return code 0, unchecked
    otherwise, and the status bar tells the same; when a lookup raises, the
    status bar tells so and the box is set unchecked. *)
Definition check_firewall_rules (g : Gui) : Prog (option Gui) :=
  let failed :=
    setChecked (set_security g (security_mode_checkbox g) S_check_failed) false in
  result_out ← call (powershell (Get_NetFirewallRule firewall_rule_name_out));
  match result_out with
  | None => failed
  | Some rc_out =>
      result_in ← call (powershell (Get_NetFirewallRule firewall_rule_name_in));
      match result_in with
      | None => failed
      | Some rc_in =>
          if (rc_out =? 0) && (rc_in =? 0)
          then then_showMessage (setChecked g true) S_security_on
          else then_showMessage (setChecked g false) S_security_off
      end
  end.

(** The body of [toggle_security_mode]. *)
Definition toggle_body (home : string) (g : Gui) (checked : bool) : Prog (option Gui) :=
  ollama_path ← find_ollama_path_calls home;
  match ollama_path with
  | Some p =>
      if Py.truthy p then
        switched ← (if checked then enable_security_mode g p
                    else disable_security_mode g);
        match switched with
        | Some g' => mret (Some g')
        | None =>
            (* except Exception: the warning, then the box is read back *)
            _ ← call (QMessageBox_warning W_operation_failed);
            check_firewall_rules g
        end
      else _ ← call (QMessageBox_warning W_ollama_not_found); setChecked g false
  | None => _ ← call (QMessageBox_warning W_ollama_not_found); setChecked g false
  end.

End Slot.

(** [toggle_security_mode], the slot followed to depth [depth]. *)
Fixpoint toggle_security_mode (depth : nat) (home : string) (g : Gui) (checked : bool)
  : Prog (option Gui) :=
  match depth with
  | O => mret None
  | S depth' => toggle_body (toggle_security_mode depth' home) home g checked
  end.

(** The three states the specification gives to the isolation controller. *)
Inductive IsolationState : Type := on | off | inconsistent.

(** What [check_firewall_rules] reports: the box is checked or it is not. *)
Definition reported_state (g : Gui) : IsolationState :=
  if security_mode_checkbox g then on else off.


(** ** A reference machine

    One concrete world behind the calls: the daemon's catalog, a file system,
    the firewall's rules, the create threads, a clock, and the choices the
    surroundings make (whether the daemon answers, whether a build succeeds,
    whether the process may change firewall rules, what the user answers,
    what [where ollama] gives). Backup files and the temporary Modelfile are
    text-mode files: newlines are written as the line separator of the
    system and read back by the universal-newlines rule. *)

Record Thread : Type := {
  thread_model_name : string; thread_modelfile : string; isRunning : bool }.

Record FirewallRule : Type := {
  DisplayName : string; rule_direction : Direction; rule_program : string }.

Record Machine : Type := {
  catalog : gmap string string;        (* model name -> Modelfile *)
  files : gmap string string;          (* file name -> text *)
  firewall : list FirewallRule;
  threads : list Thread;
  clock : Z;
  daemon_up : bool;
  build_ok : bool;
  disk_ok : bool;
  elevated : bool;
  remove_absent_rc : Z;                (* return code of removing a rule that is absent *)
  user_yes : bool;
  user_text : string;
  where_ollama_result : option CompletedProcess;   (* what "where ollama" gives; None: it raises *)
  linesep : string                          (* os.linesep *)
}.

Definition with_catalog (m : Machine) (c : gmap string string) : Machine :=
  {| catalog := c; files := files m; firewall := firewall m; threads := threads m;
     clock := clock m; daemon_up := daemon_up m; build_ok := build_ok m;
     disk_ok := disk_ok m; elevated := elevated m;
     remove_absent_rc := remove_absent_rc m;
     user_yes := user_yes m; user_text := user_text m;
     where_ollama_result := where_ollama_result m; linesep := linesep m |}.

Definition with_files (m : Machine) (f : gmap string string) : Machine :=
  {| catalog := catalog m; files := f; firewall := firewall m; threads := threads m;
     clock := clock m; daemon_up := daemon_up m; build_ok := build_ok m;
     disk_ok := disk_ok m; elevated := elevated m;
     remove_absent_rc := remove_absent_rc m;
     user_yes := user_yes m; user_text := user_text m;
     where_ollama_result := where_ollama_result m; linesep := linesep m |}.

Definition with_firewall (m : Machine) (f : list FirewallRule) : Machine :=
  {| catalog := catalog m; files := files m; firewall := f; threads := threads m;
     clock := clock m; daemon_up := daemon_up m; build_ok := build_ok m;
     disk_ok := disk_ok m; elevated := elevated m;
     remove_absent_rc := remove_absent_rc m;
     user_yes := user_yes m; user_text := user_text m;
     where_ollama_result := where_ollama_result m; linesep := linesep m |}.

Definition with_threads (m : Machine) (t : list Thread) : Machine :=
  {| catalog := catalog m; files := files m; firewall := firewall m; threads := t;
     clock := clock m; daemon_up := daemon_up m; build_ok := build_ok m;
     disk_ok := disk_ok m; elevated := elevated m;
     remove_absent_rc := remove_absent_rc m;
     user_yes := user_yes m; user_text := user_text m;
     where_ollama_result := where_ollama_result m; linesep := linesep m |}.

(** The lines of [ollama list] that [findstr] lets through. *)
Definition listing (m : Machine) (needle : string) : list string :=
  List.filter (Py.contains needle) (map fst (map_to_list (catalog m))).

Definition rule_present (m : Machine) (name : string) : bool :=
  existsb (fun r => String.eqb (DisplayName r) name) (firewall m).

(** An [ollama] command on the machine: its return code, its output, the next
    machine. *)
Definition run_cmd (c : Cmd) (m : Machine) : CompletedProcess * Machine :=
  match c with
  | ollama_list_findstr n =>
      let found := listing m n in
      ({| returncode := if found is [] then 1 else 0;
          stdout := Py.join_nl found |}, m)
  | ollama_create n p =>
      match build_ok m, files m !! p with
      | true, Some text =>
          ({| returncode := 0; stdout := EmptyString |},
           with_catalog m (<[n := text]> (catalog m)))
      | _, _ => ({| returncode := 1; stdout := EmptyString |}, m)
      end
  | ollama_rm n =>
      match catalog m !! n with
      | Some _ => ({| returncode := 0; stdout := EmptyString |},
                   with_catalog m (delete n (catalog m)))
      | None => ({| returncode := 1; stdout := EmptyString |}, m)
      end
  | ollama_cp s t =>
      match catalog m !! s with
      | Some text => ({| returncode := 0; stdout := EmptyString |},
                      with_catalog m (<[t := text]> (catalog m)))
      | None => ({| returncode := 1; stdout := EmptyString |}, m)
      end
  end.

Definition run_ps (c : PSCmd) (m : Machine) : Z * Machine :=
  match c with
  | Get_NetFirewallRule n => (if rule_present m n then 0 else 1, m)
  | New_NetFirewallRule n d p =>
      if elevated m
      then (0, with_firewall m (firewall m ++
                 [{| DisplayName := n; rule_direction := d; rule_program := p |}])%list)
      else (1, m)
  | Remove_NetFirewallRule n =>
      if elevated m then
        if rule_present m n
        then (0, with_firewall m
                   (List.filter (fun r => negb (String.eqb (DisplayName r) n)) (firewall m)))
        else (remove_absent_rc m, m)
      else (1, m)
  end.

Definition temp_path (m : Machine) : string :=
  "tmp" +:+ pretty (clock m) +:+ ".modelfile".

Definition machine : Handler Machine := fun c =>
  match c as c0 return Machine -> reply c0 * Machine with
  | NamedTemporaryFile text => fun m =>
      if disk_ok m
      then (Some (temp_path m),
            with_files m (<[temp_path m := Py.write_newlines (linesep m) text]> (files m)))
      else (None, m)
  | subprocess_run c => fun m => let r := run_cmd c m in (Some (fst r), snd r)
  | os_system c => fun m => let r := run_cmd c m in (returncode (fst r), snd r)
  | time_time => fun m => (clock m, m)
  | os_path_exists p => fun m => (bool_decide (is_Some (files m !! p)), m)
  | os_unlink p => fun m => (true, with_files m (delete p (files m)))
  | api_list_models => fun m =>
      (if daemon_up m then map fst (map_to_list (catalog m)) else [], m)
  | api_get_modelfile n => fun m => (if daemon_up m then catalog m !! n else None, m)
  | CreateModelThread_start n text => fun m =>
      (length (threads m),
       with_threads m (threads m ++
         [{| thread_model_name := n; thread_modelfile := text; isRunning := true |}])%list)
  | QThread_isRunning t => fun m =>
      (match threads m !! t with Some th => isRunning th | None => false end, m)
  | QMessageBox_warning _ => fun m => (tt, m)
  | QMessageBox_information _ => fun m => (tt, m)
  | QMessageBox_question _ => fun m => (user_yes m, m)
  | QInputDialog_getItem _ => fun m => ((user_text m, user_yes m), m)
  | QInputDialog_getText => fun m => ((user_text m, user_yes m), m)
  | open_write p text => fun m =>
      if disk_ok m
      then (true, with_files m (<[p := Py.write_newlines (linesep m) text]> (files m)))
      else (false, m)
  | open_read p => fun m => (Py.read_newlines <$> files m !! p, m)
  | time_strftime => fun m => (pretty (clock m), m)
  | powershell c => fun m => let r := run_ps c m in (Some (fst r), snd r)
  | where_ollama => fun m => (where_ollama_result m, m)
  end.

(** A machine with nothing in it, where every choice is favourable. *)
Definition empty_machine : Machine :=
  {| catalog := ∅; files := ∅; firewall := []; threads := []; clock := 1700000000;
     daemon_up := true; build_ok := true; disk_ok := true; elevated := true;
     remove_absent_rc := 1; user_yes := true; user_text := EmptyString;
     where_ollama_result := Some {| returncode := 1; stdout := EmptyString |};
     linesep := Py.nl |}.

(** ** Runs and what can be read off their traces *)

(** [wp p Q]: [Q] holds of the result and the trace of every run of [p],
    whatever the calls reply. *)
Fixpoint wp {A : Type} (p : Prog A) (Q : A -> list Event -> Prop) : Prop :=
  match p with
  | Ret a => Q a []
  | Vis c k => forall r : reply c, wp (k r) (fun a tr => Q a (Ev c r :: tr))
  end.

(** The last event of a run, when it is a completed [ollama list | findstr]:
    the name looked for and the output. *)
Definition final_listing (tr : list Event) : option (string * string) :=
  match last tr with
  | Some (Ev (subprocess_run (ollama_list_findstr n)) (Some cp)) => Some (n, stdout cp)
  | _ => None
  end.

Definition is_listing (c : Cmd) : bool :=
  match c with ollama_list_findstr _ => true | _ => false end.

(** The [ollama] commands of a run that build, remove or copy, in order. *)
Definition mutations (tr : list Event) : list Cmd :=
  List.filter (fun c => negb (is_listing c)) (omap ev_cmd tr).

(** The command creates, removes or overwrites the model [N]. *)
Definition targets (N : string) (c : Cmd) : bool :=
  match c with
  | ollama_list_findstr _ => false
  | ollama_create n _ => String.eqb n N
  | ollama_rm n => String.eqb n N
  | ollama_cp _ t => String.eqb t N
  end.

Definition mutates (N : string) (c : Call) : bool :=
  match c with
  | subprocess_run c => targets N c
  | os_system c => targets N c
  | _ => false
  end.

(** The run built a model under a temporary name of [N] and the build did not
    end with return code 0. *)
Definition temp_build_failed (N : string) (tr : list Event) : Prop :=
  exists e t p,
    In e tr /\
    ev_call e = subprocess_run (ollama_create (OllamaAPI.temp_model_name N t) p) /\
    ev_failed e = true.

(** What the daemon answers when asked for the Modelfile of [N]. *)
Definition fetch {World : Type} (h : Handler World) (N : string) (w : World)
  : option string :=
  fst (h (api_get_modelfile N) w).

(** A daemon whose answer about [N] changes only through commands that
    create, remove or overwrite [N]. *)
Definition frame {World : Type} (h : Handler World) (N : string) : Prop :=
  forall (c : Call) (w : World),
    mutates N c = false -> fetch h N (snd (h c w)) = fetch h N w.

(** The claimed sequence for an existing model, as the build, remove and copy
    commands of a run. *)
Definition replace_sequence (N : string) (cmds : list Cmd) : Prop :=
  exists t p,
    cmds = [ollama_create (OllamaAPI.temp_model_name N t) p;
            ollama_rm N;
            ollama_cp (OllamaAPI.temp_model_name N t) N;
            ollama_rm (OllamaAPI.temp_model_name N t)].

(** A machine whose catalog holds the model foo. *)
Definition machine_with_foo : Machine :=
  with_catalog empty_machine {[ "foo" := "FROM llama2" ]}.

(** The same machine when no build succeeds. *)
Definition machine_build_fails : Machine :=
  {| catalog := {[ "foo" := "FROM llama2" ]}; files := ∅; firewall := []; threads := [];
     clock := 1700000000; daemon_up := true; build_ok := false; disk_ok := true;
     elevated := true; remove_absent_rc := 1; user_yes := true;
     user_text := EmptyString;
     where_ollama_result := Some {| returncode := 1; stdout := EmptyString |};
     linesep := Py.nl |}.

(** No [ollama] command of the trace raised an exception. *)
Definition no_exception (tr : list Event) : bool :=
  forallb (fun e => match ev_cmd e, ev_returncode e with
                    | Some _, None => false
                    | _, _ => true
                    end) tr.

(** The verdict of the listing that ends a trace: the name occurs in it. *)
Definition listed_finally (N : string) (tr : list Event) : bool :=
  match final_listing tr with
  | Some (_, out) => Py.contains N out
  | None => false
  end.

(** [existing_model] as [create_model] computes it from the first listing. *)
Definition existing_model (model_name : string) (listed : option CompletedProcess) : bool :=
  match listed with
  | Some result => Py.contains model_name (stdout result)
  | None => false
  end.

(** The shape of a run of [create_model] after the temporary file [p] was
    written and the first listing answered [listed]. *)
Definition replace_protocol (platform N p : string) (listed : option CompletedProcess)
    (rest : list Event) (returned : bool) : Prop :=
  if existing_model N listed && String.eqb platform "win32" then
    exists t result1,
      let temp := OllamaAPI.temp_model_name N t in
      (returncode result1 <> 0 /\
       rest = [Ev time_time t;
               Ev (subprocess_run (ollama_create temp p)) (Some result1)] /\
       returned = false)
      \/
      (returncode result1 = 0 /\
       exists result2 result3 result4 tail,
         rest = Ev time_time t
                :: Ev (subprocess_run (ollama_create temp p)) (Some result1)
                :: Ev (subprocess_run (ollama_rm N)) (Some result2)
                :: Ev (subprocess_run (ollama_cp temp N)) (Some result3)
                :: Ev (subprocess_run (ollama_rm temp)) (Some result4)
                :: tail /\
         mutations tail = [] /\
         returned = (returncode result3 =? 0) && listed_finally N tail)
  else
    mutations rest = [ollama_create N p].

(** A machine whose daemon serves two models and whose user picks mistral. *)
Definition machine_two_models : Machine :=
  {| catalog := {[ "llama2" := "FROM llama2"; "mistral" := "FROM mistral" ]};
     files := ∅; firewall := []; threads := [];
     clock := 1700000000; daemon_up := true; build_ok := true; disk_ok := true;
     elevated := true; remove_absent_rc := 1; user_yes := true;
     user_text := "mistral";
     where_ollama_result := Some {| returncode := 1; stdout := EmptyString |};
     linesep := Py.nl |}.

(** Three double quotes, the delimiter of a multi-line text in a Modelfile. *)
Definition triple_quote : string := Py.dquote +:+ Py.dquote +:+ Py.dquote.

(** A definition with no base directive and a system prompt of two lines, the
    second of which begins with the word FROM. *)
Definition prompt_line_1 : string := "SYSTEM " +:+ triple_quote +:+ "You are a guide.".
Definition prompt_line_2 : string := "FROM now on, answer in French." +:+ triple_quote.
Definition parameter_line : string := "PARAMETER temperature 0.7".
Definition definition_with_FROM_in_prompt : string :=
  prompt_line_1 +:+ Py.nl +:+ prompt_line_2 +:+ Py.nl +:+ parameter_line.

(** A base directive that names a file under a directory called
    [FROM llama2]. *)
Definition definition_with_path : string := "FROM /models/FROM llama2".

(** The text holds no newline character. *)
Fixpoint no_newline (s : string) : bool :=
  match s with
  | EmptyString => true
  | String c s' => negb (Ascii.eqb c Py.newline) && no_newline s'
  end.

(** The line, stripped, begins with [keyword]. *)
Definition directive_line (keyword line : string) : bool :=
  Py.startswith (Py.strip line) keyword.

(** The window right after [save_modelfile] set the pending operation. *)
Definition gui_saving : Gui := set_current_operation init_gui (Some "save").

(** A call of the trace reached the daemon. *)
Definition reached_daemon (tr : list Event) : bool :=
  existsb (fun e => daemon_call (ev_call e)) tr.

(** The name is empty or has a character outside [[a-zA-Z0-9._-]]. *)
Definition invalid_model_name (model_name : string) : bool :=
  negb (Py.truthy model_name) || negb (Re.re_match Re.MODEL_NAME model_name).

(** A window that holds a backup of llama2:latest while no save is pending,
    and a machine that holds the backup file. *)
Definition gui_with_backup : Gui :=
  set_backup init_gui "llama2:latest"
    {| path := "llama2:latest_backup.modelfile"; time := "2026-01-01 00:00:00";
       content := Some "FROM llama2" |}.

Definition machine_with_backup_file : Machine :=
  with_files empty_machine {[ "llama2:latest_backup.modelfile" := "FROM llama2" ]}.

(** ** The window and the machine as one system *)

(** The number of create threads that run. *)
Definition running_threads (m : Machine) : nat :=
  length (List.filter isRunning (threads m)).

Definition finished (th : Thread) : Thread :=
  {| thread_model_name := thread_model_name th;
     thread_modelfile := thread_modelfile th; isRunning := false |}.

(** One step of the system: a request to create or replace a model reaches
    [_create_model_with_thread]; a thread finishes; another method of the
    window changes attributes other than [create_thread]; the surroundings
    change anything but the threads. *)
Inductive step : Gui * Machine -> Gui * Machine -> Prop :=
| step_request (g : Gui) (m : Machine) (model_name modelfile_content : string) :
    step (g, m)
         (result (exec machine (_create_model_with_thread g model_name modelfile_content) m),
          world (exec machine (_create_model_with_thread g model_name modelfile_content) m))
| step_finish (g : Gui) (m : Machine) (i : nat) (th : Thread) :
    threads m !! i = Some th ->
    step (g, m) (g, with_threads m (<[i := finished th]> (threads m)))
| step_window (g g' : Gui) (m : Machine) :
    create_thread g' = create_thread g -> step (g, m) (g', m)
| step_surroundings (g : Gui) (m m' : Machine) :
    threads m' = threads m -> step (g, m) (g, m').

(** The states the system can be in, from a fresh window and no thread. *)
Inductive reachable : Gui * Machine -> Prop :=
| reachable_init (m : Machine) : threads m = [] -> reachable (init_gui, m)
| reachable_step (s s' : Gui * Machine) : reachable s -> step s s' -> reachable s'.

(** Every thread that runs is the one the window refers to. *)
Definition only_current_runs (s : Gui * Machine) : Prop :=
  forall (i : nat) (th : Thread),
    threads (snd s) !! i = Some th -> isRunning th = true ->
    create_thread (fst s) = Some i.

(** Running a program on a handler, with the final world in view. *)
Fixpoint wpw {World A : Type} (h : Handler World) (p : Prog A) (w : World)
    (Q : A -> World -> Prop) : Prop :=
  match p with
  | Ret a => Q a w
  | Vis c k => wpw h (k (fst (h c w))) (snd (h c w)) Q
  end.


(** ** The language of a pattern *)

(** [Matches r s]: the string [s] is a word of the pattern [r]. *)
Inductive Matches : Re.regex -> string -> Prop :=
| M_eps : Matches Re.Eps EmptyString
| M_class (p : ascii -> bool) (c : ascii) :
    p c = true -> Matches (Re.Class p) (String c EmptyString)
| M_seq (r1 r2 : Re.regex) (s1 s2 : string) :
    Matches r1 s1 -> Matches r2 s2 -> Matches (Re.Seq r1 r2) (s1 +:+ s2)
| M_alt_l (r1 r2 : Re.regex) (s : string) : Matches r1 s -> Matches (Re.Alt r1 r2) s
| M_alt_r (r1 r2 : Re.regex) (s : string) : Matches r2 s -> Matches (Re.Alt r1 r2) s
| M_star_nil (r : Re.regex) : Matches (Re.Star r) EmptyString
| M_star_cons (r : Re.regex) (s1 s2 : string) :
    Matches r s1 -> Matches (Re.Star r) s2 -> Matches (Re.Star r) (s1 +:+ s2).

(** The run built a model under a temporary name of [N] and the build ended
    with a return code other than 0. *)
Definition temp_build_returned_failure (N : string) (tr : list Event) : Prop :=
  exists e t p rc,
    In e tr /\
    ev_call e = subprocess_run (ollama_create (OllamaAPI.temp_model_name N t) p) /\
    ev_returncode e = Some rc /\ rc <> 0.

(** The run removed a file. *)
Definition removed_a_file (tr : list Event) : bool :=
  existsb (fun e => match ev_call e with os_unlink _ => true | _ => false end) tr.

(** The run showed the warning [w]. *)
Definition warned (w : Warning) (tr : list Event) : Prop :=
  exists e, In e tr /\ ev_call e = QMessageBox_warning w.

(** The run asked the daemon for the Modelfile of [N]. *)
Definition fetched (N : string) (tr : list Event) : bool :=
  existsb (fun e => match ev_call e with
                    | api_get_modelfile n => String.eqb n N
                    | _ => false
                    end) tr.

(** ** [CreateModelThread.run] *)

(** The third argument of the [finished] signal. *)
Inductive FinishedMessage : Type :=
| M_none                   (* the empty text, on success *)
| M_invalid_modelfile      (* the content is invalid, it must hold a FROM directive *)
| M_create_failed.         (* creating the model failed, see the log *)

(** The loop of [run] over the stripped lines: comments are skipped, a line
    that starts with ['FROM '] sets [has_from], any other non-blank line ends
    the loop. *)
Fixpoint has_from_loop (lines : list string) : bool :=
  match lines with
  | [] => false
  | line :: rest =>
      if Py.startswith (Py.strip line) "#" then has_from_loop rest
      else if Py.startswith (Py.strip line) "FROM " then true
      else if Py.truthy (Py.strip line) then false
      else has_from_loop rest
  end.

(** [has_from] after the loop over [modelfile_content.strip().split('\n')]. *)
Definition has_from (modelfile_content : string) : bool :=
  has_from_loop (lines_of modelfile_content).

(** [run]: the arguments of the one [finished] signal it emits. The
    [progress] signals carry text for the dialog only and are left out;
    [ensure_utf8_encoding] gives a [str] back as it is. *)
Definition CreateModelThread_run (platform model_name modelfile_content : string)
  : Prog (bool * string * FinishedMessage) :=
  if negb (has_from modelfile_content) then
    mret (false, model_name, M_invalid_modelfile)
  else
    success ← OllamaAPI.create_model platform model_name modelfile_content;
    if success : bool then mret (true, model_name, M_none)
    else mret (false, model_name, M_create_failed).

(** ** [ensure_utf8_encoding] *)

(** The values the function tells apart: [None], a [str] (its code points),
    [bytes] (its octets), and any other object (with the text [str] gives). *)
Inductive PyValue : Type :=
| PyNone
| PyStr (code_points : list N)
| PyBytes (octets : list N)
| PyOther (as_str : list N).

Section Encoding.

(** [bytes.decode('utf-8')], [None] when it raises [UnicodeDecodeError]; and
    [str(b)] for a [bytes] object. Both belong to Python, not to the program. *)
Variable decode_utf8 : list N -> option (list N).
Variable str_of_bytes : list N -> list N.

(** [text.encode('latin1')]: every code point must be below 256. *)
Definition encode_latin1 (s : list N) : option (list N) :=
  if forallb (fun c => (c <=? 255)%N) s then Some s else None.

(** [bytes.decode('latin1')]: every octet is a code point. *)
Definition decode_latin1 (b : list N) : option (list N) := Some b.

(** [text.encode('latin1').decode('utf-8')], [None] when either raises. *)
Definition latin1_as_utf8 (s : list N) : option (list N) :=
  match encode_latin1 s with
  | Some b => decode_utf8 b
  | None => None
  end.

Definition ensure_utf8_encoding (text : PyValue) : PyValue :=
  match text with
  | PyNone => PyNone
  | PyStr s =>
      if existsb (fun c => (65535 <? c)%N) s then
        match latin1_as_utf8 s with
        | Some repaired => PyStr repaired
        | None =>
            (* except (UnicodeEncodeError, UnicodeDecodeError): the same again *)
            match latin1_as_utf8 s with
            | Some repaired => PyStr repaired
            | None => PyStr s
            end
        end
      else PyStr s
  | PyBytes b =>
      match decode_utf8 b with
      | Some s => PyStr s
      | None =>
          match decode_latin1 b with
          | Some s => PyStr s
          | None => PyStr (str_of_bytes b)
          end
      end
  | PyOther s => PyStr s
  end.

End Encoding.

(** ** Characters of the words of a pattern *)

(** Every character of [s] satisfies [P]. *)
Fixpoint string_forall (P : ascii -> bool) (s : string) : bool :=
  match s with
  | EmptyString => true
  | String c s' => P c && string_forall P s'
  end.

(** Every character class of the pattern lies inside [P]. *)
Fixpoint classes_within (P : ascii -> bool) (r : Re.regex) : Prop :=
  match r with
  | Re.Void | Re.Eps => True
  | Re.Class p => forall c, p c = true -> P c = true
  | Re.Seq r1 r2 | Re.Alt r1 r2 => classes_within P r1 /\ classes_within P r2
  | Re.Star r1 => classes_within P r1
  end.

(** The first octet of a white-space character of two or three octets. *)
Definition space_lead (c : ascii) : bool :=
  let n := nat_of_ascii c in
  (n =? 194)%nat || (n =? 225)%nat || (n =? 226)%nat || (n =? 227)%nat.

(** An octet of the ASCII range: a character by itself. *)
Definition ascii_octet (c : ascii) : bool := (nat_of_ascii c <? 128)%nat.

(** Two white-space characters outside ASCII, each by its octets: the
    no-break space U+00A0 and the ideographic space U+3000; and a letter,
    a with a grave accent U+00E0, whose second octet is that of U+00A0. *)
Definition no_break_space : string :=
  String (ascii_of_nat 194) (String (ascii_of_nat 160) EmptyString).

Definition ideographic_space : string :=
  String (ascii_of_nat 227) (String (ascii_of_nat 128) (String (ascii_of_nat 128) EmptyString)).

Definition a_grave : string :=
  String (ascii_of_nat 195) (String (ascii_of_nat 160) EmptyString).

(** An octet that is no white space, begins none, and is no newline. *)
Definition plain_char (c : ascii) : bool :=
  negb (Py.isspace c) && negb (space_lead c) && negb (Ascii.eqb c Py.newline).

(** ** Reading a trace *)

(** The answer an event gave to a yes/no question. *)
Definition ev_answer (e : Event) : option (Question * bool) :=
  match e with
  | Ev (QMessageBox_question q) yes => Some (q, yes)
  | _ => None
  end.

(** The question [q] was answered [yes] in the run. *)
Definition answered (q : Question) (yes : bool) (tr : list Event) : Prop :=
  exists e, In e tr /\ ev_answer e = Some (q, yes).

(** The threads the run started: name and content of each, in order. *)
Definition started (tr : list Event) : list (string * string) :=
  omap (fun e => match ev_call e with
                 | CreateModelThread_start n text => Some (n, text)
                 | _ => None
                 end) tr.

(** The files the run read. *)
Definition files_read (tr : list Event) : list string :=
  omap (fun e => match ev_call e with open_read p => Some p | _ => None end) tr.

(** The PowerShell commands of the run, each with its return code
    ([None]: running it raised). *)
Definition ev_powershell (e : Event) : option (PSCmd * option Z) :=
  match e with
  | Ev (powershell c) rc => Some (c, rc)
  | _ => None
  end.

Definition ps_commands (tr : list Event) : list (PSCmd * option Z) :=
  omap ev_powershell tr.

(** A machine whose user types the name newmodel and confirms. *)
Definition machine_typing_name : Machine :=
  {| catalog := {[ "llama2" := "FROM llama2" ]}; files := ∅; firewall := []; threads := [];
     clock := 1700000000; daemon_up := true; build_ok := true; disk_ok := true;
     elevated := true; remove_absent_rc := 1; user_yes := true;
     user_text := "newmodel";
     where_ollama_result := Some {| returncode := 1; stdout := EmptyString |};
     linesep := Py.nl |}.

(** ** [find_ollama_path] *)


(** ** [_restore_specific_model] *)

(** How [_restore_specific_model] went on. The run modelled below ends with
    the choice of a way to restore; what the method does after that choice is
    told by the outcome and is not part of the run. *)
Inductive RestoreOutcome : Type :=
| Restore_declined                  (* the first question was answered No *)
| Restore_from_backup (g : Gui)     (* the backup went to _create_model_with_thread *)
| Restore_cancelled                 (* the choice of a way to restore was cancelled *)
| Restore_pull                      (* next: a note, then a console that runs ollama pull *)
| Restore_create_new                (* next: self.create_new_model() *)
| Restore_failed.                   (* ollama rm raised: the warning of the except clause *)

(** The three ways the method offers once the model has been removed. *)
Definition restore_by_pull : string := "重新拉取(下载)模型".
Definition restore_by_hand : string := "手动创建新模型".
Definition restore_cancel : string := "取消".
Definition restore_options : list string :=
  [restore_by_pull; restore_by_hand; restore_cancel].

Section RestoreSpecific.

Variable tempdir : string.

(** [_restore_specific_model]. [confirm] answers the first question (restore
    this model?), [use_backup] the second (use the backup that was found?),
    which is asked only when the backup file holds a text that starts with
    FROM. *)
Definition _restore_specific_model (g : Gui) (model_name : string)
    (confirm use_backup : bool) : Prog RestoreOutcome :=
  if negb confirm then mret Restore_declined
  else
    found ← call (os_path_exists (backup_path tempdir model_name));
    usable ← (if found : bool then
                read ← call (open_read (backup_path tempdir model_name));
                mret (match read with
                      | Some backup_content =>
                          if Py.truthy backup_content
                             && Py.startswith (Py.strip backup_content) "FROM"
                             && use_backup
                          then Some backup_content else None
                      | None => None
                      end)
              else mret None);
    match usable with
    | Some backup_content =>
        g' ← _create_model_with_thread g model_name backup_content;
        mret (Restore_from_backup g')
    | None =>
        removed ← call (subprocess_run (ollama_rm model_name));
        match removed with
        | None => mret Restore_failed
        | Some _ =>
            answer ← call (QInputDialog_getItem restore_options);
            let choice := fst answer in
            let ok := snd answer in
            if negb ok || String.eqb choice restore_cancel then mret Restore_cancelled
            else if String.eqb choice restore_by_pull then mret Restore_pull
            else mret Restore_create_new
        end
    end.

End RestoreSpecific.

(** The [ollama] commands of a run, in order. *)
Definition commands (tr : list Event) : list Cmd := omap ev_cmd tr.

(** ** [OllamaAPI.get_modelfile_template] *)

(** The text of the template, a [str], as its UTF-8 octets. The two
    placeholders are ASCII, so replacing them in the octets is replacing them
    in the text. *)
Definition template_intro : list string :=
  [ "# Modelfile参数说明：";
    "# FROM - 基础模型，如llama2, mistral, gemma等";
    "# PARAMETER - 设置模型参数，如temperature, top_p等";
    "# SYSTEM - 系统提示，定义模型的行为和角色";
    "# TEMPLATE - 自定义提示模板格式";
    "# ADAPTER - 指定adapter文件(适用于LoRA等微调)";
    EmptyString ].

Definition template_settings : list string :=
  [ EmptyString;
    "# 控制生成的随机性 (0.0-1.0)";
    "PARAMETER temperature 0.7";
    EmptyString;
    "# 控制生成多样性 (0.0-1.0)";
    "PARAMETER top_p 0.9";
    EmptyString;
    "# 控制结束生成的标记";
    "# PARAMETER stop " +:+ Py.dquote +:+ "User:" +:+ Py.dquote;
    EmptyString;
    "# 系统提示，定义模型角色和行为" ].

(** The literal of the source, line by line; it ends with a newline.
    [ensure_utf8_encoding] returns a [str] as it is. *)
Definition get_modelfile_template : string :=
  Py.join_nl (template_intro ++ ["FROM {{base_model}}"] ++ template_settings
              ++ ["SYSTEM {{system_prompt}}"; EmptyString])%list.

(** [s.replace(old, new)] for a non-empty [old]: the occurrences of [old] are
    replaced from the left, none overlapping another. [skip] counts the
    characters of the occurrence just replaced that are still to pass. *)
Fixpoint replace_from (old new : string) (skip : nat) (s : string) : string :=
  match s with
  | EmptyString => EmptyString
  | String c s' =>
      match skip with
      | S k => replace_from old new k s'
      | O =>
          if Py.startswith s old
          then new +:+ replace_from old new (String.length old - 1) s'
          else String c (replace_from old new 0 s')
      end
  end.

Definition str_replace (s old new : string) : string := replace_from old new 0 s.

(** ** [ModelfileEditor] *)

Module ModelfileEditor.

(** The fields of the widget the methods below use: whether [self.api] is
    set, [self.original_content], and the text of [self.editor]. *)
Record t : Type := {
  api_set : bool;
  original_content : string;
  editor : string
}.

(** [self.editor.setText(text)] for a text the editor takes as plain text,
    which [toPlainText] then gives back as it is. [QTextEdit] decides by the
    first line of a text whether it is rich text; the one text set this way
    below is the filled template, whose first line is a comment without a
    tag. *)
Definition setText (ed : t) (text : string) : t :=
  {| api_set := api_set ed; original_content := original_content ed; editor := text |}.

(** [set_content], for any text. [shown content] is what [toPlainText] gives
    after [self.editor.setText(content)]: the text itself when the editor
    takes it as plain text, the text without its tags when it takes it as
    rich text. That is Qt's matter and stays a parameter. *)
Definition set_content (shown : string -> string) (ed : t) (content : string) : t :=
  {| api_set := api_set ed; original_content := content; editor := shown content |}.

(** [self.editor.toPlainText()] *)
Definition get_content (ed : t) : string := editor ed.

Definition reset (ed : t) : t := setText ed (original_content ed).

(** [insert_template]. [base] and [prompt] are what the two
    [QInputDialog.getText] dialogs return, the text and the [ok] flag. *)
Definition insert_template (ed : t) (base prompt : string * bool) : t :=
  let base_model := fst base in
  if negb (snd base) || negb (Py.truthy base_model) then ed
  else
    let system_prompt := fst prompt in
    if negb (snd prompt) then ed
    else
      let template := get_modelfile_template in
      let template := str_replace template "{{base_model}}" base_model in
      let template := str_replace template "{{system_prompt}}" system_prompt in
      setText ed template.

(** The loop of [select_base_model] over the lines: [new_content] and
    [from_added] after one more line. *)
Definition select_step (model_name : string) (state : list string * bool) (line : string)
  : list string * bool :=
  if Py.startswith (Py.strip line) "FROM "
  then ((fst state ++ ["FROM " +:+ model_name])%list, true)
  else ((fst state ++ [line])%list, snd state).

(** [new_content] after the loop and the test of [from_added]. *)
Definition select_lines (model_name : string) (lines : list string) : list string :=
  let state := fold_left (select_step model_name) lines ([], false) in
  if negb (snd state) then ("FROM " +:+ model_name) :: fst state else fst state.

(** [select_base_model]. [models] is what [self.api.list_models()] returns
    (the names), [answer] what [QInputDialog.getItem] returns. The warnings
    and the final note change nothing and are left out. *)
Definition select_base_model (shown : string -> string) (ed : t) (models : list string)
    (answer : string * bool) : t :=
  if negb (api_set ed) then ed
  else
    match models with
    | [] => ed
    | _ :: _ =>
        let model_name := fst answer in
        if negb (snd answer) || negb (Py.truthy model_name) then ed
        else
          let current_content := get_content ed in
          let lines := Py.split_nl (Py.strip current_content) in
          set_content shown ed (Py.join_nl (select_lines model_name lines))
    end.

End ModelfileEditor.

(** [lines], each closed by a newline, before [rest]. *)
Definition lines_before (lines : list string) (rest : string) : string :=
  fold_right (fun line acc => line +:+ Py.nl +:+ acc) rest lines.

(** A comment line or a blank one. *)
Definition passed_over (line : string) : bool :=
  Py.startswith (Py.strip line) "#" || negb (Py.truthy (Py.strip line)).

(** A machine on which the thread of an earlier creation still runs, and the
    window that started it, with the model foo selected and a definition in
    the editor. *)
Definition machine_busy : Machine :=
  with_threads machine_with_foo
    [{| thread_model_name := "bar"; thread_modelfile := "FROM mistral"; isRunning := true |}].

Definition gui_busy : Gui :=
  {| current_operation := None; create_thread := Some 0%nat; model_backups := ∅;
     current_item := Some "foo"; editor_content := "FROM llama2";
     security_mode_checkbox := false; statusBar := statusBar init_gui |}.

(** ** [_on_model_created] *)

(** The value of [self.current_operation] after the slot [_on_model_created]
    ran with [success]: it is cleared only after a success, and only when it
    was create or clone. The texts and dialogs of the slot are left out. *)
Definition operation_after_created (g : Gui) (success : bool) : option string :=
  if success then
    match current_operation g with
    | Some op =>
        if String.eqb op "create" || String.eqb op "clone" then None else Some op
    | None => None
    end
  else current_operation g.

(** ** The security mode on the reference machine *)

(** Both rules are in the firewall of the machine. *)
Definition both_rules (m : Machine) : bool :=
  rule_present m firewall_rule_name_out && rule_present m firewall_rule_name_in.



(** [check_firewall_rules] on the machine, the slot followed to [depth]. *)
Definition check_on (depth : nat) (home : string) (g : Gui) (m : Machine)
  : option Gui * Machine * list Event :=
  exec machine (check_firewall_rules (toggle_security_mode depth home) g) m.

(** A machine whose firewall holds both rules and on which Ollama cannot be
    located. *)
Definition machine_both_rules : Machine :=
  with_firewall empty_machine
    [{| DisplayName := firewall_rule_name_out; rule_direction := Outbound;
        rule_program := "ollama.exe" |};
     {| DisplayName := firewall_rule_name_in; rule_direction := Inbound;
        rule_program := "ollama.exe" |}].

(** ** Backup files on the reference machine *)







(** ** A daemon that fails silently *)

(** The reference machine, but with a daemon whose [ollama create] and
    [ollama cp] report return code 0 and store nothing. *)
Definition silent_daemon : Handler Machine := fun c =>
  match c as c0 return Machine -> reply c0 * Machine with
  | subprocess_run (ollama_create _ _) | subprocess_run (ollama_cp _ _) => fun m =>
      (Some {| returncode := 0; stdout := EmptyString |}, m)
  | os_system (ollama_create _ _) | os_system (ollama_cp _ _) => fun m => (0, m)
  | c0 => machine c0
  end.

(** A machine whose daemon lists the model foobar and no model foo. *)
Definition machine_with_foobar : Machine :=
  with_catalog empty_machine {[ "foobar" := "FROM llama2" ]}.

(** ** Names of models *)

(** One or more letters, digits, dots, underscores and hyphens. *)
Definition name_chars (s : string) : bool :=
  Py.truthy s && string_forall Re.name_char s.

(** What [re.match(r'^[a-zA-Z0-9._-]+$', name)] lets through: such a text,
    or such a text and one final newline, before which [$] matches too. *)
Definition passes_name_pattern (name : string) : Prop :=
  name_chars name = true \/
  exists core, name = core +:+ Py.nl /\ name_chars core = true.

(** * Properties *)

(** ** Strings *)

Lemma length_append (s1 s2 : string) :
  String.length (s1 +:+ s2) = (String.length s1 + String.length s2)%nat.
Proof.
  induction s1 as [| c s1 IH]; [reflexivity |].
  change (S (String.length (s1 +:+ s2)) = S (String.length s1 + String.length s2)).
  now rewrite IH.
Qed.

Lemma temp_model_name_fresh (N : string) (t : Z) :
  String.eqb (OllamaAPI.temp_model_name N t) N = false.
Proof.
  apply String.eqb_neq. intros H.
  apply (f_equal String.length) in H. unfold OllamaAPI.temp_model_name in H.
  rewrite !length_append in H. simpl in H. lia.
Qed.

Lemma startswith_hash_not_FROM (s : string) :
  Py.startswith s "#" = true -> Py.startswith s "FROM" = false.
Proof.
  destruct s as [| c s]; [discriminate |]. intros H.
  change (Ascii.eqb "#" c && Py.startswith s EmptyString = true) in H.
  apply andb_true_iff in H as [H _]. apply Ascii.eqb_eq in H. subst c. reflexivity.
Qed.

(** ** Runs *)

Lemma wp_sound {World A : Type} (h : Handler World) (p : Prog A)
    (Q : A -> list Event -> Prop) (w : World) :
  wp p Q -> Q (result (exec h p w)) (trace (exec h p w)).
Proof.
  revert Q w. induction p as [a | c k IH]; intros Q w H; simpl in *.
  - exact H.
  - apply (IH _ (fun a tr => Q a (Ev c (h c w).1 :: tr))). apply H.
Qed.

Lemma wp_mono {A : Type} (p : Prog A) (Q Q' : A -> list Event -> Prop) :
  (forall a tr, Q a tr -> Q' a tr) -> wp p Q -> wp p Q'.
Proof.
  revert Q Q'. induction p as [a | c k IH]; intros Q Q' HQ H; simpl in *.
  - auto.
  - intros r. eapply IH; [| apply H]. intros a tr. apply HQ.
Qed.

Lemma wp_bind {A B : Type} (p : Prog A) (f : A -> Prog B)
    (Q : B -> list Event -> Prop) :
  wp p (fun a tr => wp (f a) (fun b tr' => Q b (tr ++ tr')%list)) -> wp (bind p f) Q.
Proof.
  revert Q. induction p as [a | c k IH]; intros Q H; simpl in *.
  - exact H.
  - intros r. apply IH. apply H.
Qed.

Lemma exec_bind {World A B : Type} (h : Handler World) (p : Prog A) (f : A -> Prog B)
    (w : World) :
  exec h (bind p f) w
  = (result (exec h (f (result (exec h p w))) (world (exec h p w))),
     world (exec h (f (result (exec h p w))) (world (exec h p w))),
     (trace (exec h p w) ++ trace (exec h (f (result (exec h p w))) (world (exec h p w))))%list).
Proof.
  revert w. induction p as [a | c k IH]; intros w; simpl.
  - now destruct (exec h (f a) w) as [[? ?] ?].
  - rewrite IH. reflexivity.
Qed.

(** An observation of the world that no call of a run changes is the same
    after the run. *)
Lemma exec_frame {World A X : Type} (h : Handler World) (obs : World -> X)
    (p : Prog A) (w : World) :
  (forall e, In e (trace (exec h p w)) ->
             forall w0, obs (snd (h (ev_call e) w0)) = obs w0) ->
  obs (world (exec h p w)) = obs w.
Proof.
  revert w. induction p as [a | c k IH]; intros w H; simpl in *.
  - reflexivity.
  - rewrite IH.
    + apply (H (Ev c (h c w).1)). now left.
    + intros e He. apply H. now right.
Qed.

Create HintDb prog discriminated.
#[local] Hint Unfold OllamaAPI.create_model OllamaAPI.replace_win32 OllamaAPI.run
  OllamaAPI.finish OllamaAPI.except_handler mbind Prog_bind mret Prog_ret call : prog.

Ltac run_cases := repeat (simpl; match goal with
  | |- wp (if ?b then _ else _) _ => destruct b eqn:?
  | |- wp (match ?x with _ => _ end) _ => destruct x eqn:?
  | |- wp (bind (if ?b then _ else _) _) _ => destruct b eqn:?
  | |- wp (bind (match ?x with _ => _ end) _) _ => destruct x eqn:?
  | |- forall r, _ => intro
  end).

Ltac negb_hyp :=
  match goal with
  | H : negb ?x = false |- _ => apply negb_false_iff in H
  | H : negb ?x = true |- _ => apply negb_true_iff in H
  end.

(** ** [OllamaAPI.create_model] *)

(** C10. A definition whose stripped text does not begin with the characters
    FROM is refused by [create_model] at once: the result is [False], no call
    is made (no temporary file, no build, no delete) and the world is as it
    was. The condition covers the empty text and a text that opens with a
    comment line. *)
Theorem create_model_refuses_without_leading_FROM :
  forall (World : Type) (h : Handler World) (w : World)
         (platform model_name modelfile_content : string),
    Py.startswith (Py.strip modelfile_content) "FROM" = false ->
    exec h (OllamaAPI.create_model platform model_name modelfile_content) w
    = (false, w, []).
Proof.
  intros World h w platform N D H.
  unfold OllamaAPI.create_model. rewrite H.
  rewrite orb_true_r. reflexivity.
Qed.

(** A definition that opens with a comment and then names a valid base: the
    validator of the window accepts it, [create_model] refuses it. *)
Lemma create_model_refuses_comment_first :
  let D := "# my model" +:+ Py.nl +:+ "FROM llama2" in
  has_valid_from D = true /\
  exec machine (OllamaAPI.create_model "win32" "mymodel" D) empty_machine
  = (false, empty_machine, []).
Proof.
  split; [reflexivity |].
  apply (create_model_refuses_without_leading_FROM Machine machine empty_machine).
  reflexivity.
Defined.

(** C3. The final check of [create_model] looks for the name anywhere in the
    output of [ollama list | findstr], so a longer name in the listing passes
    for it. The daemon here reports return code 0 for every build and copy
    and stores nothing. With an empty catalog the check does its work: the
    build reports success, the last listing is empty and the result is
    [False]. With a model foobar in the catalog, creating foo ends with
    [True] although foo is not in the catalog afterwards and the listing the
    check read holds foobar only; so it is on win32, where the build goes
    through the temporary name. *)
Theorem create_model_accepts_longer_listed_name :
  let run platform m :=
    exec silent_daemon (OllamaAPI.create_model platform "foo" "FROM llama2") m in
  let caught := run "linux" empty_machine in
  let r := run "linux" machine_with_foobar in
  let r_win32 := run "win32" machine_with_foobar in
  (commands (trace caught)
   = [ollama_list_findstr "foo"; ollama_create "foo" "tmp1700000000.modelfile";
      ollama_list_findstr "foo"] /\
   final_listing (trace caught) = Some ("foo", EmptyString) /\
   result caught = false) /\
  (catalog (world r) !! "foo" = None /\
   commands (trace r)
   = [ollama_list_findstr "foo"; ollama_create "foo" "tmp1700000000.modelfile";
      ollama_list_findstr "foo"] /\
   no_exception (trace r) = true /\
   omap ev_returncode (trace r) = [0; 0; 0] /\
   final_listing (trace r) = Some ("foo", "foobar") /\
   result r = true) /\
  (catalog (world r_win32) !! "foo" = None /\
   commands (trace r_win32)
   = [ollama_list_findstr "foo";
      ollama_create "foo_temp_1700000000" "tmp1700000000.modelfile";
      ollama_rm "foo"; ollama_cp "foo_temp_1700000000" "foo";
      ollama_rm "foo_temp_1700000000"; ollama_list_findstr "foo"] /\
   final_listing (trace r_win32) = Some ("foo", "foobar") /\
   result r_win32 = true).
Proof. repeat split; vm_compute; reflexivity. Qed.

Ltac in_cases H :=
  simpl in H;
  repeat match type of H with
  | _ \/ _ => destruct H as [H | H]; [subst |]
  end; try contradiction.

Lemma temp_name_not_name (N : string) (t : Z) (p p' : string) :
  subprocess_run (ollama_create N p) <>
  subprocess_run (ollama_create (OllamaAPI.temp_model_name N t) p').
Proof.
  intros H. injection H as H _.
  pose proof (temp_model_name_fresh N t) as F. rewrite <- H in F.
  rewrite String.eqb_refl in F. discriminate.
Qed.

Lemma create_model_temp_build_failure_wp (platform N D : string) :
  wp (OllamaAPI.create_model platform N D)
     (fun a tr => temp_build_failed N tr ->
                  a = false /\ forall e, In e tr -> mutates N (ev_call e) = false).
Proof.
  repeat autounfold with prog. run_cases.
  all: match goal with H : temp_build_failed _ _ |- _ =>
         destruct H as (e & t & p & Hin & Hcall & Hfail) end.
  all: in_cases Hin; simpl in Hcall; try discriminate Hcall.
  all: try (exfalso; eapply temp_name_not_name; eassumption).
  all: cbv [ev_failed ev_cmd ev_returncode ev_call ev_reply] in Hfail; try congruence.
  all: split; [reflexivity |].
  all: intros e' Hin'; in_cases Hin'; simpl; try reflexivity.
  all: apply temp_model_name_fresh.
Qed.

(** C1. When the build under the temporary name fails, [create_model]
    returns [False]; no command of the run removes, creates or overwrites the
    model itself (in particular no [ollama rm] of it is issued); and with a
    daemon whose answer about the model changes only through such commands,
    fetching the model's definition afterwards gives what it gave before. *)
Theorem create_model_temp_build_failure :
  forall (World : Type) (h : Handler World) (w : World)
         (platform model_name modelfile_content : string),
    let r := exec h (OllamaAPI.create_model platform model_name modelfile_content) w in
    temp_build_failed model_name (trace r) ->
    result r = false /\
    (forall e, In e (trace r) -> ev_cmd e <> Some (ollama_rm model_name)) /\
    (forall e, In e (trace r) -> mutates model_name (ev_call e) = false) /\
    (frame h model_name -> fetch h model_name (world r) = fetch h model_name w).
Proof.
  intros World h w platform N D r Hfail.
  destruct (wp_sound h _ _ w (create_model_temp_build_failure_wp platform N D) Hfail)
    as [Hres Hmut].
  fold r in Hres, Hmut.
  split; [exact Hres |]. split; [| split; [exact Hmut |]].
  - intros e He Hcmd. specialize (Hmut e He).
    destruct e as [c rep]. unfold ev_cmd in Hcmd. simpl in *.
    destruct c; try discriminate; injection Hcmd as ->; simpl in Hmut;
      rewrite String.eqb_refl in Hmut; discriminate.
  - intros Hframe. unfold r. apply (exec_frame h (fetch h N)).
    intros e He w0. apply Hframe. apply Hmut. exact He.
Qed.

Lemma eqb_false_ne (a b : string) : String.eqb a b = false -> a <> b.
Proof. apply String.eqb_neq. Qed.

(** The reference machine is such a daemon, for every model name. *)
Lemma machine_frame (N : string) : frame machine N.
Proof.
  intros c m Hm. unfold fetch.
  destruct c as [text | c | c | | p | p | | n | n text | t | ? | ? | ? | ? | | p text | p | | c |];
    simpl in *; try reflexivity.
  - destruct (disk_ok m); reflexivity.
  - destruct c as [n | n p | n | s t]; simpl in *; try reflexivity.
    + destruct (build_ok m); [| reflexivity].
      destruct (files m !! p); [| reflexivity]. simpl.
      apply eqb_false_ne in Hm. now rewrite lookup_insert_ne.
    + destruct (catalog m !! n) eqn:E; [| reflexivity]. simpl.
      apply eqb_false_ne in Hm. now rewrite lookup_delete_ne.
    + destruct (catalog m !! s) eqn:E; [| reflexivity]. simpl.
      apply eqb_false_ne in Hm. now rewrite lookup_insert_ne.
  - destruct c as [n | n p | n | s t]; simpl in *; try reflexivity.
    + destruct (build_ok m); [| reflexivity].
      destruct (files m !! p); [| reflexivity]. simpl.
      apply eqb_false_ne in Hm. now rewrite lookup_insert_ne.
    + destruct (catalog m !! n) eqn:E; [| reflexivity]. simpl.
      apply eqb_false_ne in Hm. now rewrite lookup_delete_ne.
    + destruct (catalog m !! s) eqn:E; [| reflexivity]. simpl.
      apply eqb_false_ne in Hm. now rewrite lookup_insert_ne.
  - destruct (disk_ok m); reflexivity.
  - destruct c as [n | n d p | n]; simpl; try reflexivity.
    + destruct (elevated m); reflexivity.
    + destruct (elevated m); [| reflexivity]. destruct (rule_present m n); reflexivity.
Qed.

Lemma create_model_temp_build_failure_witness :
  let r := exec machine (OllamaAPI.create_model "win32" "foo" "FROM mistral")
             machine_build_fails in
  temp_build_failed "foo" (trace r) /\
  fetch machine "foo" machine_build_fails = Some "FROM llama2" /\
  result r = false /\
  fetch machine "foo" (world r) = Some "FROM llama2".
Proof.
  intros r.
  assert (Hfail : temp_build_failed "foo" (trace r)).
  { exists (Ev (subprocess_run (ollama_create "foo_temp_1700000000" "tmp1700000000.modelfile"))
               (Some {| returncode := 1; stdout := EmptyString |})),
           1700000000, "tmp1700000000.modelfile".
    split; [vm_compute; tauto | split; reflexivity]. }
  destruct (create_model_temp_build_failure Machine machine machine_build_fails
              "win32" "foo" "FROM mistral" Hfail) as (Hres & _ & _ & Hfetch).
  split; [exact Hfail |]. split; [reflexivity |]. split; [exact Hres |].
  fold r in Hfetch. rewrite (Hfetch (machine_frame "foo")). reflexivity.
Defined.
Lemma startswith_FROM_truthy (D : string) :
  Py.startswith (Py.strip D) "FROM" = true -> Py.truthy D = true.
Proof. destruct D; [discriminate | reflexivity]. Qed.

Lemma conj_flip (A B : Prop) : B -> A -> A /\ B.
Proof. tauto. Qed.

Lemma create_model_command_sequence_wp (platform N D : string) :
  Py.startswith (Py.strip D) "FROM" = true ->
  wp (OllamaAPI.create_model platform N D)
     (fun a tr =>
        exists f tr1,
          tr = Ev (NamedTemporaryFile D) f :: tr1 /\
          match f with
          | None => tr1 = [] /\ a = false
          | Some p =>
              exists listed rest,
                tr1 = Ev (subprocess_run (ollama_list_findstr N)) listed :: rest /\
                (no_exception rest = true -> replace_protocol platform N p listed rest a)
          end).
Proof.
  intros HD. unfold OllamaAPI.create_model.
  rewrite HD, (startswith_FROM_truthy D HD). simpl.
  repeat autounfold with prog. run_cases.
  all: do 2 eexists; split; [reflexivity |]; cbv beta iota.
  all: try (split; reflexivity).
  all: do 2 eexists; split; [reflexivity |].
  all: intros Hne; try discriminate Hne.
  all: unfold replace_protocol, existing_model.
  all: match goal with
       | H1 : match ?r with Some _ => _ | None => _ end = _,
         H2 : String.eqb _ "win32" = _ |- _ => rewrite H1, H2
       end; cbv beta iota; simpl andb; cbv iota.
  all: try reflexivity.
  all: repeat negb_hyp.
  all: do 2 eexists.
  all: try solve [ left; apply conj_flip;
              [split; reflexivity | apply Z.eqb_neq; assumption] ].
  all: right; apply conj_flip;
      [ do 4 eexists; split; [reflexivity |]; split; [reflexivity |];
        unfold listed_finally, final_listing; simpl;
        repeat match goal with H : ?x = _ |- context [?x] => rewrite H end;
        reflexivity
      | apply Z.eqb_eq; assumption ].
Qed.

(** C2, as amended. Once the temporary file [p] is written and the first
    listing has answered, and when no command raises: if the name occurs in
    that listing and the platform is win32, the run builds under the temporary
    name; a failed build ends the run there with [False]; after a successful
    build it removes the original, copies the temporary model to the name and
    removes the temporary model, in this order, and returns whether the copy
    ended with return code 0 and the final listing holds the name, whatever
    the two removals returned. On another platform, or when the name does not
    occur in the listing, the only such command is the build under the name
    itself. *)
Theorem create_model_command_sequence :
  forall (World : Type) (h : Handler World) (w : World)
         (platform model_name modelfile_content : string),
    Py.startswith (Py.strip modelfile_content) "FROM" = true ->
    let r := exec h (OllamaAPI.create_model platform model_name modelfile_content) w in
    exists f tr1,
      trace r = Ev (NamedTemporaryFile modelfile_content) f :: tr1 /\
      match f with
      | None => tr1 = [] /\ result r = false
      | Some p =>
          exists listed rest,
            tr1 = Ev (subprocess_run (ollama_list_findstr model_name)) listed :: rest /\
            (no_exception rest = true ->
             replace_protocol platform model_name p listed rest (result r))
      end.
Proof.
  intros World h w platform N D HD r.
  exact (wp_sound h _ _ w (create_model_command_sequence_wp platform N D HD)).
Qed.

Lemma create_model_command_sequence_witness :
  let r := exec machine (OllamaAPI.create_model "win32" "foo" "FROM mistral")
             machine_with_foo in
  mutations (trace r)
  = [ollama_create "foo_temp_1700000000" "tmp1700000000.modelfile";
     ollama_rm "foo";
     ollama_cp "foo_temp_1700000000" "foo";
     ollama_rm "foo_temp_1700000000"] /\
  exists f tr1,
    trace r = Ev (NamedTemporaryFile "FROM mistral") f :: tr1 /\
    match f with
    | None => tr1 = [] /\ result r = false
    | Some p =>
        exists listed rest,
          tr1 = Ev (subprocess_run (ollama_list_findstr "foo")) listed :: rest /\
          (no_exception rest = true ->
           replace_protocol "win32" "foo" p listed rest (result r))
    end.
Proof.
  split; [reflexivity |].
  apply (create_model_command_sequence Machine machine machine_with_foo
           "win32" "foo" "FROM mistral").
  reflexivity.
Defined.

(** C2, as stated, fails off win32: the model foo exists and is found in the
    listing, yet the run builds directly under the name, with no temporary
    model, no removal and no copy. *)
Lemma create_model_direct_build_off_win32 :
  let r := exec machine (OllamaAPI.create_model "linux" "foo" "FROM mistral")
             machine_with_foo in
  catalog machine_with_foo !! "foo" = Some "FROM llama2" /\
  mutations (trace r) = [ollama_create "foo" "tmp1700000000.modelfile"] /\
  ~ replace_sequence "foo" (mutations (trace r)).
Proof.
  split; [reflexivity |]. split; [reflexivity |].
  intros (t & p & H). vm_compute in H. discriminate H.
Qed.

(** ** The FROM directive *)

Lemma append_cons (c : ascii) (a b : string) : String c a +:+ b = String c (a +:+ b).
Proof. reflexivity. Qed.

Lemma append_nil (b : string) : EmptyString +:+ b = b.
Proof. reflexivity. Qed.

Lemma no_newline_append (a b : string) :
  no_newline (a +:+ b) = no_newline a && no_newline b.
Proof.
  induction a as [| c a IH]; [reflexivity |].
  rewrite append_cons. simpl. rewrite IH. now rewrite andb_assoc.
Qed.

Lemma split_nl_no_newline (s : string) : no_newline s = true -> Py.split_nl s = [s].
Proof.
  induction s as [| c s IH]; [reflexivity |].
  simpl. intros H. apply andb_true_iff in H as [Hc Hs].
  apply negb_true_iff in Hc. rewrite Hc, (IH Hs). reflexivity.
Qed.

Lemma split_nl_append (a b : string) :
  no_newline a = true -> Py.split_nl (a +:+ Py.nl +:+ b) = a :: Py.split_nl b.
Proof.
  induction a as [| c a IH]; intros H.
  - reflexivity.
  - simpl in H. apply andb_true_iff in H as [Hc Ha]. apply negb_true_iff in Hc.
    rewrite append_cons. simpl. rewrite Hc, (IH Ha). reflexivity.
Qed.

Lemma split_nl_lines (s : string) : Forall (fun l => no_newline l = true) (Py.split_nl s).
Proof.
  induction s as [| c s IH]; simpl.
  - repeat constructor.
  - destruct (Ascii.eqb c Py.newline) eqn:Hc.
    + constructor; [reflexivity | exact IH].
    + destruct (Py.split_nl s) as [| l ls].
      * repeat constructor. simpl. now rewrite Hc.
      * inversion IH; subst. constructor; [| assumption].
        simpl. rewrite Hc. assumption.
Qed.

Lemma split_nl_join_nl (ls : list string) :
  ls <> [] -> Forall (fun l => no_newline l = true) ls ->
  Py.split_nl (Py.join_nl ls) = ls.
Proof.
  induction ls as [| x ls IH]; [congruence |].
  intros _ H. inversion H as [| ? ? Hx Hls]; subst.
  destruct ls as [| y ls].
  - simpl. now apply split_nl_no_newline.
  - change (Py.join_nl (x :: y :: ls)) with (x +:+ Py.nl +:+ Py.join_nl (y :: ls)).
    rewrite split_nl_append by assumption. f_equal. apply IH; [congruence | assumption].
Qed.

(** The loop that fills [user_content] keeps the lines that do not start with
    the word FROM, in order. *)
Lemma user_content_filter (lines : list string) :
  user_content lines = List.filter keep_line lines.
Proof.
  unfold user_content.
  assert (G : forall acc,
             fold_left (fun acc line => if keep_line line then (acc ++ [line])%list else acc)
               lines acc = (acc ++ List.filter keep_line lines)%list).
  { induction lines as [| l ls IH]; intros acc; simpl.
    - now rewrite app_nil_r.
    - rewrite IH. destruct (keep_line l); [| reflexivity].
      now rewrite <- app_assoc. }
  apply (G []).
Qed.

Lemma filter_filter_implied {A : Type} (P Q : A -> bool) (l : list A) :
  (forall x, P x = true -> Q x = true) ->
  List.filter P (List.filter Q l) = List.filter P l.
Proof.
  intros H. induction l as [| x l IH]; [reflexivity |]. simpl.
  destruct (Q x) eqn:HQ; simpl.
  - now rewrite IH.
  - destruct (P x) eqn:HP; [| exact IH]. apply H in HP. congruence.
Qed.

Lemma startswith_first (s p q : string) (a b : ascii) :
  Py.startswith s (String a p) = true -> Py.startswith s (String b q) = true -> a = b.
Proof.
  destruct s as [| c s]; [discriminate |].
  intros H1 H2.
  change (Ascii.eqb a c && Py.startswith s p = true) in H1.
  change (Ascii.eqb b c && Py.startswith s q = true) in H2.
  apply andb_true_iff in H1 as [H1 _]. apply andb_true_iff in H2 as [H2 _].
  apply Ascii.eqb_eq in H1, H2. congruence.
Qed.

Lemma directive_line_kept (keyword line : string) :
  In keyword ["#"; "PARAMETER"; "SYSTEM"] ->
  directive_line keyword line = true -> keep_line line = true.
Proof.
  unfold directive_line, keep_line. intros Hk H.
  destruct (Py.startswith (Py.strip line) "FROM ") eqn:HF; [| reflexivity].
  exfalso. simpl in Hk.
  destruct Hk as [<- | [<- | [<- | []]]];
    pose proof (startswith_first _ _ _ _ _ H HF) as E; discriminate E.
Qed.

(** C5, as amended. When the content has no valid base directive, the daemon
    lists at least one model and the user picks [M], the method returns the
    rebuilt text; the lines of that text are the directive FROM [M] followed
    by the original lines that do not begin with the word FROM, in their
    order; so every comment, PARAMETER and SYSTEM line is kept. *)
Theorem ensure_valid_from_directive_rebuilds :
  forall (World : Type) (h : Handler World) (w w1 w2 : World)
         (D M : string) (models : list string),
    Py.truthy D = true ->
    has_valid_from D = false ->
    h api_list_models w = (models, w1) ->
    models <> [] ->
    h (QInputDialog_getItem (List.filter Py.truthy models)) w1 = ((M, true), w2) ->
    Py.truthy M = true ->
    no_newline M = true ->
    result (exec h (_ensure_valid_from_directive D false) w) = Some (rebuild D M) /\
    Py.split_nl (rebuild D M)
    = ("FROM " +:+ M) :: List.filter keep_line (lines_of D) /\
    (forall keyword, In keyword ["#"; "PARAMETER"; "SYSTEM"] ->
       List.filter (directive_line keyword) (List.filter keep_line (lines_of D))
       = List.filter (directive_line keyword) (lines_of D)).
Proof.
  intros World h w w1 w2 D M models HD Hinv Hlist Hne Hpick HM Hnl.
  unfold has_valid_from in Hinv. rewrite HD in Hinv. simpl in Hinv.
  split; [| split].
  - unfold _ensure_valid_from_directive. rewrite HD, Hinv. simpl.
    rewrite Hlist. simpl. destruct models as [| m ms]; [congruence |].
    simpl. simpl in Hpick. rewrite Hpick. simpl. rewrite HM. reflexivity.
  - unfold rebuild, new_content. rewrite user_content_filter.
    apply split_nl_join_nl; [congruence |].
    constructor.
    + rewrite no_newline_append, Hnl. reflexivity.
    + apply List.Forall_forall. intros l Hl. apply filter_In in Hl as [Hl _].
      revert l Hl. apply List.Forall_forall. apply split_nl_lines.
  - intros keyword Hk. apply filter_filter_implied.
    intros line. now apply directive_line_kept.
Qed.

(** Scenario A: the definition is one PARAMETER line, the models are llama2
    and mistral, the user picks mistral. *)
Lemma ensure_valid_from_directive_rebuilds_witness :
  result (exec machine (_ensure_valid_from_directive "PARAMETER temperature 0.7" false)
            machine_two_models)
  = Some ("FROM mistral" +:+ Py.nl +:+ "PARAMETER temperature 0.7") /\
  Py.split_nl (rebuild "PARAMETER temperature 0.7" "mistral")
  = ["FROM mistral"; "PARAMETER temperature 0.7"].
Proof.
  destruct (ensure_valid_from_directive_rebuilds Machine machine
              machine_two_models machine_two_models machine_two_models
              "PARAMETER temperature 0.7" "mistral" ["mistral"; "llama2"]) as (H1 & H2 & _);
    [reflexivity | reflexivity | reflexivity | discriminate
    | reflexivity | reflexivity | reflexivity |].
  split; [exact H1 | exact H2].
Defined.

(** C5, as stated, fails: rebuilding a definition that has no base directive
    drops a line of its system prompt that begins with the word FROM. Of the
    three original lines only the first and the third follow the new base
    directive, where the specification keeps all three. *)
Lemma rebuild_drops_prompt_line :
  has_valid_from definition_with_FROM_in_prompt = false /\
  lines_of definition_with_FROM_in_prompt = [prompt_line_1; prompt_line_2; parameter_line] /\
  result (exec machine (_ensure_valid_from_directive definition_with_FROM_in_prompt false)
            machine_two_models)
  = Some (Py.join_nl ["FROM mistral"; prompt_line_1; parameter_line]) /\
  spec_rebuild definition_with_FROM_in_prompt "mistral"
  = ["FROM mistral"; prompt_line_1; prompt_line_2; parameter_line] /\
  Py.split_nl (rebuild definition_with_FROM_in_prompt "mistral")
  <> spec_rebuild definition_with_FROM_in_prompt "mistral".
Proof. repeat split; try reflexivity. vm_compute. discriminate. Qed.

(** C4. The validator accepts a base directive whose argument is a path, when
    the path ends in the word FROM, white space and a name: [re.search] finds
    the pattern at the end of the line although the argument as a whole is no
    name with optional tag. The content is returned unchanged and no dialog
    is shown. *)
Theorem validator_accepts_path_argument :
  has_valid_from definition_with_path = true /\
  first_substantive_line (Py.split_nl definition_with_path) = Some definition_with_path /\
  directive_argument definition_with_path = "/models/FROM llama2" /\
  Re.fullmatch Re.NAME_TAG (directive_argument definition_with_path) = false /\
  spec_valid definition_with_path = false /\
  exec machine (_ensure_valid_from_directive definition_with_path false) machine_two_models
  = (Some definition_with_path, machine_two_models, []).
Proof. repeat split; reflexivity. Qed.

(** ** [_create_model_with_thread] *)

#[local] Hint Unfold _create_model_with_thread thread_is_running
  _ensure_valid_from_directive : prog.

Lemma create_model_with_thread_name_check_wp (g : Gui) (model_name content : string) :
  not_save g = true ->
  invalid_model_name model_name = true ->
  wp (_create_model_with_thread g model_name content)
     (fun g' tr =>
        g' = g /\ reached_daemon tr = false /\
        (tr = [Ev (QMessageBox_warning W_invalid_model_name) tt] \/
         exists t,
           create_thread g = Some t /\
           (tr = [Ev (QThread_isRunning t) false;
                  Ev (QMessageBox_warning W_invalid_model_name) tt] \/
            tr = [Ev (QThread_isRunning t) true;
                  Ev (QMessageBox_warning W_in_progress) tt]))).
Proof.
  intros Hop Hname. unfold invalid_model_name in Hname.
  unfold _create_model_with_thread, thread_is_running.
  rewrite Hop, Hname. simpl andb. cbv iota.
  destruct (create_thread g) as [t |]; repeat autounfold with prog; run_cases.
  all: match goal with u : unit |- _ => destruct u end.
  all: split; [reflexivity |]; split; [reflexivity |].
  all: eauto 7.
Qed.

Lemma create_model_with_thread_save_wp (g : Gui) (model_name content : string) :
  not_save g = false ->
  wp (_create_model_with_thread g model_name content)
     (fun g' tr =>
        (exists t, create_thread g = Some t /\ g' = g /\
                   tr = [Ev (QThread_isRunning t) true;
                         Ev (QMessageBox_warning W_in_progress) tt]) \/
        (exists th, last tr = Some (Ev (CreateModelThread_start model_name content) th) /\
                    g' = set_create_thread g th (S_creating model_name))).
Proof.
  intros Hop. unfold _create_model_with_thread, thread_is_running.
  rewrite Hop. simpl andb. cbv iota.
  destruct (create_thread g) as [t |]; repeat autounfold with prog; run_cases.
  all: try match goal with u : unit |- _ => destruct u end.
  all: eauto 7.
Qed.

(** C7, as amended. A name that is empty or has a character outside letters,
    digits, dot, underscore and hyphen is refused by
    [_create_model_with_thread] whenever the pending operation is not save:
    the window is unchanged, nothing reaches the daemon, and the only dialog
    is the warning about the name (or the warning that a creation is in
    progress, when the thread runs). When the pending operation is save the
    name is not checked: unless the thread runs, the thread is started with
    this very name and content. *)
Theorem create_model_with_thread_name_check :
  forall (World : Type) (h : Handler World) (w : World) (g : Gui)
         (model_name modelfile_content : string),
    invalid_model_name model_name = true ->
    let r := exec h (_create_model_with_thread g model_name modelfile_content) w in
    if not_save g then
      result r = g /\ reached_daemon (trace r) = false /\
      (trace r = [Ev (QMessageBox_warning W_invalid_model_name) tt] \/
       exists t,
         create_thread g = Some t /\
         (trace r = [Ev (QThread_isRunning t) false;
                     Ev (QMessageBox_warning W_invalid_model_name) tt] \/
          trace r = [Ev (QThread_isRunning t) true;
                     Ev (QMessageBox_warning W_in_progress) tt]))
    else
      (exists t, create_thread g = Some t /\ result r = g /\
                 trace r = [Ev (QThread_isRunning t) true;
                            Ev (QMessageBox_warning W_in_progress) tt]) \/
      (exists th,
         last (trace r)
         = Some (Ev (CreateModelThread_start model_name modelfile_content) th) /\
         result r = set_create_thread g th (S_creating model_name)).
Proof.
  intros World h w g N D Hname r.
  destruct (not_save g) eqn:Hop.
  - exact (wp_sound h _ _ w (create_model_with_thread_name_check_wp g N D Hop Hname)).
  - exact (wp_sound h _ _ w (create_model_with_thread_save_wp g N D Hop)).
Qed.

(** Scenario C: the name "bad name!" while no operation is pending. *)
Lemma create_model_with_thread_name_check_witness :
  let r := exec machine (_create_model_with_thread init_gui "bad name!" "FROM llama2")
             empty_machine in
  invalid_model_name "bad name!" = true /\
  result r = init_gui /\ reached_daemon (trace r) = false /\
  trace r = [Ev (QMessageBox_warning W_invalid_model_name) tt].
Proof.
  pose proof (create_model_with_thread_name_check Machine machine empty_machine
                init_gui "bad name!" "FROM llama2" eq_refl) as H.
  simpl in H. destruct H as (H1 & H2 & _).
  split; [reflexivity |]. split; [exact H1 |]. split; [exact H2 | reflexivity].
Defined.

(** C7, as stated, fails. While a save is pending the same name is not
    refused: the thread is started for it. And a restore is not exempt: with
    no save pending, restoring the backup of llama2:latest ends with the
    warning about the name, and no thread is started. *)
Lemma name_check_follows_pending_save :
  invalid_model_name "bad name!" = true /\
  trace (exec machine (_create_model_with_thread gui_saving "bad name!" "FROM llama2")
           empty_machine)
  = [Ev (CreateModelThread_start "bad name!" "FROM llama2") 0%nat] /\
  invalid_model_name "llama2:latest" = true /\
  trace (exec machine (_restore_from_backup gui_with_backup "llama2:latest")
           machine_with_backup_file)
  = [Ev (QMessageBox_question Q_confirm_restore) true;
     Ev (open_read "llama2:latest_backup.modelfile") (Some "FROM llama2");
     Ev (QMessageBox_warning W_invalid_model_name) tt].
Proof. repeat split; reflexivity. Qed.

(** ** The single create thread *)

Lemma wpw_sound {World A : Type} (h : Handler World) (p : Prog A) (w : World)
    (Q : A -> World -> Prop) :
  wpw h p w Q -> Q (result (exec h p w)) (world (exec h p w)).
Proof.
  revert w. induction p as [a | c k IH]; intros w H; simpl in *.
  - exact H.
  - apply IH. exact H.
Qed.

Ltac machine_cases := repeat (simpl; match goal with
  | |- wpw _ (if ?b then _ else _) _ _ => destruct b eqn:?
  | |- wpw _ (match ?x with _ => _ end) _ _ => destruct x eqn:?
  | |- wpw _ (bind (if ?b then _ else _) _) _ _ => destruct b eqn:?
  | |- wpw _ (bind (match ?x with _ => _ end) _) _ _ => destruct x eqn:?
  end).

(** What a request does to the threads of the machine: nothing, or, when the
    window's thread does not run, one new running thread that becomes the
    window's thread. *)
Lemma create_model_with_thread_threads (g : Gui) (m : Machine) (N D : string) :
  wpw machine (_create_model_with_thread g N D) m
    (fun g' m' =>
       (threads m' = threads m /\ create_thread g' = create_thread g) \/
       ((forall t th, create_thread g = Some t -> threads m !! t = Some th ->
                      isRunning th = false) /\
        exists th, isRunning th = true /\
                   threads m' = (threads m ++ [th])%list /\
                   create_thread g' = Some (length (threads m)))).
Proof.
  unfold _create_model_with_thread, thread_is_running.
  destruct (create_thread g) as [t |] eqn:Hct; repeat autounfold with prog; simpl.
  - destruct (threads m !! t) as [th0 |] eqn:Hth; simpl.
    + destruct (isRunning th0) eqn:Hrun; simpl; [now left |].
      machine_cases; try (left; split; [reflexivity | assumption]).
      all: right; split;
        [ intros t' th' [= <-] Hth'; congruence
        | eexists; split; [| split; reflexivity]; reflexivity ].
    + machine_cases; try (left; split; [reflexivity | assumption]).
      all: right; split;
        [ intros t' th' [= <-] Hth'; congruence
        | eexists; split; [| split; reflexivity]; reflexivity ].
  - machine_cases; try (left; split; [reflexivity | assumption]).
    all: right; split;
      [ intros t' th' [=]
      | eexists; split; [| split; reflexivity]; reflexivity ].
Qed.

Lemma filter_none (l : list Thread) :
  (forall j b, l !! j = Some b -> isRunning b = false) ->
  List.filter isRunning l = [].
Proof.
  induction l as [| x l IH]; intros H; [reflexivity |]. simpl.
  rewrite (H 0%nat x eq_refl). apply IH. intros j b Hj. exact (H (S j) b Hj).
Qed.

Lemma unique_running_count (l : list Thread) :
  (forall i j a b, l !! i = Some a -> l !! j = Some b ->
                   isRunning a = true -> isRunning b = true -> i = j) ->
  (length (List.filter isRunning l) <= 1)%nat.
Proof.
  induction l as [| x l IH]; intros H; simpl; [lia |].
  destruct (isRunning x) eqn:Hx.
  - rewrite filter_none; [simpl; lia |].
    intros j b Hj. destruct (isRunning b) eqn:Hb; [| reflexivity].
    pose proof (H 0%nat (S j) x b eq_refl Hj Hx Hb) as E. discriminate E.
  - apply IH. intros i j a b Hi Hj Ha Hb.
    pose proof (H (S i) (S j) a b Hi Hj Ha Hb) as E. now injection E.
Qed.

Lemma only_current_runs_count (g : Gui) (m : Machine) :
  only_current_runs (g, m) -> (running_threads m <= 1)%nat.
Proof.
  intros H. apply unique_running_count. intros i j a b Hi Hj Ha Hb.
  pose proof (H i a Hi Ha) as E1. pose proof (H j b Hj Hb) as E2.
  simpl in E1, E2. congruence.
Qed.

Lemma step_only_current_runs (s s' : Gui * Machine) :
  only_current_runs s -> step s s' -> only_current_runs s'.
Proof.
  intros Hinv Hstep. destruct Hstep as [g m N D | g m i th Hi | g g' m Hg | g m m' Hm].
  - pose proof (wpw_sound machine _ m _ (create_model_with_thread_threads g m N D)) as H.
    simpl in H. destruct H as [[Ht Hc] | (Hidle & th & Hrun & Ht & Hc)].
    + intros i thi Hi Hr. simpl in *. rewrite Ht in Hi. rewrite Hc.
      exact (Hinv i thi Hi Hr).
    + intros i thi Hi Hr. simpl in *. rewrite Ht in Hi. rewrite Hc.
      destruct (decide (i < length (threads m))%nat) as [Hlt | Hge].
      * rewrite lookup_app_l in Hi by exact Hlt.
        pose proof (Hinv i thi Hi Hr) as Hcur. simpl in Hcur.
        rewrite (Hidle i thi Hcur Hi) in Hr. discriminate Hr.
      * f_equal. apply lookup_lt_Some in Hi. rewrite length_app in Hi. simpl in Hi. lia.
  - intros j thj Hj Hr. simpl in *.
    destruct (decide (i = j)) as [-> | Hne].
    + rewrite list_lookup_insert_eq in Hj by (eapply lookup_lt_Some; exact Hi).
      injection Hj as <-. discriminate Hr.
    + rewrite list_lookup_insert_ne in Hj by exact Hne. exact (Hinv j thj Hj Hr).
  - intros i thi Hi Hr. simpl in *. rewrite Hg. exact (Hinv i thi Hi Hr).
  - intros i thi Hi Hr. simpl in *. rewrite Hm in Hi. exact (Hinv i thi Hi Hr).
Qed.

Lemma reachable_only_current_runs (s : Gui * Machine) :
  reachable s -> only_current_runs s.
Proof.
  induction 1 as [m Hm | s s' _ IH Hstep].
  - intros i th Hi _. simpl in Hi. rewrite Hm in Hi. discriminate Hi.
  - exact (step_only_current_runs s s' IH Hstep).
Qed.

(** C9. In every state the system can reach at most one create thread runs.
    A request that arrives while the window's thread runs ends at once with
    the warning that a creation is in progress: the window is as it was (the
    request is not kept), the two calls made are the question whether the
    thread runs and the warning, and nothing reaches the daemon. *)
Theorem single_running_operation :
  (forall s : Gui * Machine, reachable s -> (running_threads (snd s) <= 1)%nat) /\
  (forall (World : Type) (h : Handler World) (w w1 : World) (g : Gui) (t : nat)
          (model_name modelfile_content : string),
     create_thread g = Some t ->
     h (QThread_isRunning t) w = (true, w1) ->
     let r := exec h (_create_model_with_thread g model_name modelfile_content) w in
     result r = g /\
     trace r = [Ev (QThread_isRunning t) true; Ev (QMessageBox_warning W_in_progress) tt] /\
     reached_daemon (trace r) = false).
Proof.
  split.
  - intros [g m] Hs. apply (only_current_runs_count g m).
    exact (reachable_only_current_runs (g, m) Hs).
  - intros World h w w1 g t N D Hct Hrun.
    unfold _create_model_with_thread, thread_is_running. rewrite Hct.
    simpl. rewrite Hrun. simpl.
    destruct (h (QMessageBox_warning W_in_progress) w1) as [[] w2]. simpl.
    repeat split; reflexivity.
Qed.

(** ** Backups *)

#[local] Hint Unfold backup_original _restore_from_backup : prog.

(** A request changes neither the backups of the window nor the files. *)
Lemma create_model_with_thread_keeps_backups (g : Gui) (m : Machine) (N D : string) :
  wpw machine (_create_model_with_thread g N D) m
    (fun g' m' => model_backups g' = model_backups g /\ files m' = files m).
Proof.
  unfold _create_model_with_thread, thread_is_running.
  destruct (create_thread g) as [t |]; repeat autounfold with prog; machine_cases.
  all: split; reflexivity.
Qed.










(** ** Security mode *)







(** *** The slot of the box *)
















(** With both rules there and Ollama nowhere to be found, the check at
    start-up sets the box checked, the slot warns twice and the box ends
    unchecked, while the status bar says that the security mode is on. *)
Lemma both_rules_unlocated :
  let r := check_on 2 "C:\Users\me" init_gui machine_both_rules in
  both_rules machine_both_rules = true /\
  omap (fun e => match ev_call e with QMessageBox_warning w => Some w | _ => None end)
    (trace r)
  = [W_ollama_not_found; W_ollama_not_found] /\
  exists g', result r = Some g' /\
             reported_state g' = off /\ statusBar g' = S_security_on.
Proof.
  split; [reflexivity |]. split; [reflexivity |].
  eexists. split; [reflexivity |]. split; reflexivity.
Qed.

(** ** Patterns: matching by derivatives decides the language *)

Lemma append_empty_r (s : string) : s +:+ EmptyString = s.
Proof.
  induction s as [| c s IH]; [reflexivity |]. rewrite append_cons. now rewrite IH.
Qed.

Lemma append_assoc (a b c : string) : (a +:+ b) +:+ c = a +:+ (b +:+ c).
Proof.
  induction a as [| x a IH]; [reflexivity |]. rewrite !append_cons. now rewrite IH.
Qed.

Lemma append_eq_cons (s1 s2 : string) (c : ascii) (s : string) :
  s1 +:+ s2 = String c s ->
  (s1 = EmptyString /\ s2 = String c s) \/
  (exists s1', s1 = String c s1' /\ s = s1' +:+ s2).
Proof.
  destruct s1 as [| x s1]; intros H.
  - left. split; [reflexivity | exact H].
  - right. rewrite append_cons in H. injection H as -> <-. eauto.
Qed.

Lemma append_eq_empty (s1 s2 : string) :
  s1 +:+ s2 = EmptyString -> s1 = EmptyString /\ s2 = EmptyString.
Proof.
  destruct s1 as [| x s1]; intros H; [split; [reflexivity | exact H] |].
  rewrite append_cons in H. discriminate H.
Qed.

Lemma Matches_nullable (r : Re.regex) (s : string) :
  Matches r s -> s = EmptyString -> Re.nullable r = true.
Proof.
  induction 1 as [| p c Hp | r1 r2 s1 s2 _ IH1 _ IH2 | r1 r2 s _ IH | r1 r2 s _ IH
                 | r | r s1 s2 _ _ _ _]; intros E; simpl; try reflexivity.
  - discriminate E.
  - apply append_eq_empty in E as [E1 E2]. now rewrite IH1, IH2.
  - now rewrite IH.
  - rewrite IH by exact E. apply orb_true_r.
Qed.

Lemma nullable_Matches (r : Re.regex) :
  Re.nullable r = true -> Matches r EmptyString.
Proof.
  induction r as [| | p | r1 IH1 r2 IH2 | r1 IH1 r2 IH2 | r IH]; simpl; intros H;
    try discriminate.
  - constructor.
  - apply andb_true_iff in H as [H1 H2].
    change EmptyString with (EmptyString +:+ EmptyString). constructor; auto.
  - apply orb_true_iff in H as [H | H]; [apply M_alt_l | apply M_alt_r]; auto.
  - constructor.
Qed.

Lemma Matches_deriv (r : Re.regex) (s' : string) :
  Matches r s' -> forall c s, s' = String c s -> Matches (Re.deriv c r) s.
Proof.
  induction 1 as [| p x Hp | r1 r2 s1 s2 H1 IH1 H2 IH2 | r1 r2 s0 _ IH | r1 r2 s0 _ IH
                 | r | r s1 s2 H1 IH1 H2 IH2]; intros c s E; simpl.
  - discriminate E.
  - injection E as -> <-. rewrite Hp. constructor.
  - apply append_eq_cons in E as [[-> ->] | (s1' & -> & ->)].
    + rewrite (Matches_nullable r1 _ H1 eq_refl). apply M_alt_r. now apply IH2.
    + destruct (Re.nullable r1).
      * apply M_alt_l. constructor; [now apply IH1 | exact H2].
      * constructor; [now apply IH1 | exact H2].
  - apply M_alt_l. now apply IH.
  - apply M_alt_r. now apply IH.
  - discriminate E.
  - apply append_eq_cons in E as [[-> ->] | (s1' & -> & ->)].
    + now apply IH2.
    + constructor; [now apply IH1 | exact H2].
Qed.

Lemma deriv_Matches (r : Re.regex) (c : ascii) (s : string) :
  Matches (Re.deriv c r) s -> Matches r (String c s).
Proof.
  revert s. induction r as [| | p | r1 IH1 r2 IH2 | r1 IH1 r2 IH2 | r IH];
    simpl; intros s H.
  - inversion H.
  - inversion H.
  - destruct (p c) eqn:Hp; inversion H; subst. now constructor.
  - destruct (Re.nullable r1) eqn:Hn.
    + inversion H as [| | | ? ? ? Hl | ? ? ? Hr | |]; subst.
      * inversion Hl as [| | ? ? s1 s2 Ha Hb | | | |]; subst.
        change (String c (s1 +:+ s2)) with (String c s1 +:+ s2).
        constructor; [now apply IH1 | exact Hb].
      * change (String c s) with (EmptyString +:+ String c s).
        constructor; [now apply nullable_Matches | now apply IH2].
    + inversion H as [| | ? ? s1 s2 Ha Hb | | | |]; subst.
      change (String c (s1 +:+ s2)) with (String c s1 +:+ s2).
      constructor; [now apply IH1 | exact Hb].
  - inversion H; subst; [apply M_alt_l; now apply IH1 | apply M_alt_r; now apply IH2].
  - inversion H as [| | ? ? s1 s2 Ha Hb | | | |]; subst.
    change (String c (s1 +:+ s2)) with (String c s1 +:+ s2).
    constructor; [now apply IH | exact Hb].
Qed.

Lemma fullmatch_Matches (r : Re.regex) (s : string) :
  Re.fullmatch r s = true <-> Matches r s.
Proof.
  revert r. induction s as [| c s IH]; intros r; simpl.
  - split; [apply nullable_Matches | intros H; now apply (Matches_nullable r _ H)].
  - rewrite IH. split; [apply deriv_Matches | intros H; now apply (Matches_deriv r _ H)].
Qed.

Lemma Matches_Lit (s : string) : Matches (Re.Lit s) s.
Proof.
  induction s as [| c s IH]; simpl; [constructor |].
  change (String c s) with (String c EmptyString +:+ s).
  constructor; [| exact IH]. constructor. apply Ascii.eqb_refl.
Qed.

(** *** White space *)

(** [str.strip] and [\s] take the white space outside ASCII, and leave a
    letter that shares an octet with it. *)
Lemma strip_white_space_outside_ascii :
  Py.strip (no_break_space +:+ ideographic_space +:+ "FROM llama2"
            +:+ ideographic_space +:+ Py.nl +:+ no_break_space)
  = "FROM llama2" /\
  Py.strip (a_grave +:+ " ") = a_grave /\
  has_valid_from (no_break_space +:+ "FROM " +:+ ideographic_space +:+ "llama2") = true /\
  has_valid_from ("FROM " +:+ a_grave) = false.
Proof. repeat split; vm_compute; reflexivity. Qed.

Lemma string_length_ind (P : string -> Prop) :
  (forall s, (forall r, (String.length r < String.length s)%nat -> P r) -> P s) ->
  forall s, P s.
Proof.
  intros H s.
  assert (G : forall n r, (String.length r < n)%nat -> P r).
  { induction n as [| n IH]; intros r Hr; [lia |].
    apply H. intros r' Hr'. apply IH. lia. }
  apply (G (S (String.length s))). lia.
Qed.

Lemma nat_eqb_ascii (c : ascii) (n : nat) :
  (nat_of_ascii c =? n)%nat = true -> c = ascii_of_nat n.
Proof.
  intros H. apply Nat.eqb_eq in H. subst n. symmetry. apply ascii_nat_embedding.
Qed.

(** [lstrip] leaves the text as it is, or passes one white-space character
    and goes on. *)
Lemma lstrip_cases (s : string) :
  Py.lstrip s = s \/
  exists w r, s = w +:+ r /\ Py.space_char w = true /\ Py.lstrip s = Py.lstrip r.
Proof.
  destruct s as [| c s1]; [now left |].
  destruct (Py.isspace c) eqn:Hc.
  { right. exists (String c EmptyString), s1. simpl. now rewrite Hc. }
  destruct s1 as [| d s2]; [left; simpl; now rewrite Hc |].
  destruct (Py.isspace2 c d) eqn:Hd.
  { right. exists (String c (String d EmptyString)), s2. simpl. now rewrite Hc, Hd. }
  destruct s2 as [| e s3]; [left; simpl; now rewrite Hc, Hd |].
  destruct (Py.isspace3 c d e) eqn:He.
  { right. exists (String c (String d (String e EmptyString))), s3.
    simpl. now rewrite Hc, Hd, He. }
  left. simpl. now rewrite Hc, Hd, He.
Qed.

Lemma space_char_length (w : string) :
  Py.space_char w = true -> (0 < String.length w)%nat.
Proof. destruct w; [discriminate | simpl; lia]. Qed.

Lemma space_char_SPACE (w : string) : Py.space_char w = true -> Matches Re.SPACE w.
Proof.
  intros H. apply fullmatch_Matches.
  destruct w as [| c [| d [| e [| x w]]]]; try discriminate H; simpl in H.
  - simpl. rewrite H. reflexivity.
  - unfold Py.isspace2 in H. apply andb_true_iff in H as [Hc Hd].
    apply nat_eqb_ascii in Hc. subst c.
    apply orb_true_iff in Hd as [Hd | Hd]; apply nat_eqb_ascii in Hd; subst d;
      vm_compute; reflexivity.
  - unfold Py.isspace3 in H.
    repeat match type of H with
           | _ || _ = true => apply orb_true_iff in H as [H | H]
           end.
    all: repeat match goal with
                | H : _ && _ = true |- _ => apply andb_true_iff in H as [? ?]
                | H : (nat_of_ascii ?c =? _)%nat = true |- _ => apply nat_eqb_ascii in H; subst c
                end.
    all: try (vm_compute; reflexivity).
    match goal with H : Py.general_punctuation_space e = true |- _ => rename H into He end.
    apply fullmatch_Matches. unfold Re.SPACE.
    apply M_alt_r, M_alt_r, M_alt_r, M_alt_l.
    apply (M_seq _ _ (String (ascii_of_nat 226) EmptyString)
             (String (ascii_of_nat 128) (String e EmptyString)));
      [constructor; apply Ascii.eqb_refl |].
    apply (M_seq _ _ (String (ascii_of_nat 128) EmptyString) (String e EmptyString));
      [constructor; apply Ascii.eqb_refl | now constructor].
Qed.

Lemma lstrip_split (s : string) :
  exists w, s = w +:+ Py.lstrip s /\ Matches (Re.Star Re.SPACE) w.
Proof.
  induction s as [s IH] using string_length_ind.
  destruct (lstrip_cases s) as [E | (w & r & Es & Hw & E)].
  - exists EmptyString. rewrite E. split; [reflexivity | constructor].
  - destruct (IH r) as (w' & Er & Hw').
    { subst s. rewrite length_append. apply space_char_length in Hw. lia. }
    exists (w +:+ w'). rewrite E. split.
    + rewrite append_assoc, <- Er. exact Es.
    + constructor; [now apply space_char_SPACE | exact Hw'].
Qed.

Lemma startswith_append (s p : string) :
  Py.startswith s p = true -> exists rest, s = p +:+ rest.
Proof.
  revert s. induction p as [| a p IH]; intros s H.
  - exists s. reflexivity.
  - destruct s as [| b s]; [discriminate |].
    change (Ascii.eqb a b && Py.startswith s p = true) in H.
    apply andb_true_iff in H as [Hab Hs]. apply Ascii.eqb_eq in Hab. subst b.
    destruct (IH s Hs) as (rest & ->). exists rest. reflexivity.
Qed.

Lemma substring_all (s : string) : String.substring 0 (String.length s) s = s.
Proof. induction s as [| c s IH]; simpl; [reflexivity | now rewrite IH]. Qed.

(** A base directive in the specification's sense is found by the search of
    the code. *)
Lemma spec_base_directive_found (line : string) :
  spec_base_directive line = true -> Re.re_search Re.FROM_DIRECTIVE line = true.
Proof.
  unfold spec_base_directive. intros H. apply andb_true_iff in H as [Hp Harg].
  destruct (startswith_append line "FROM " Hp) as (rest & ->).
  assert (Earg : directive_argument ("FROM " +:+ rest) = Py.lstrip rest).
  { unfold directive_argument.
    change ("FROM " +:+ rest) with (String "F" (String "R" (String "O" (String "M"
                                      (String " " rest))))).
    simpl String.length. simpl Nat.sub. simpl String.substring.
    replace (String.length rest - 0)%nat with (String.length rest) by lia.
    rewrite substring_all. reflexivity. }
  rewrite Earg in Harg. apply fullmatch_Matches in Harg.
  destruct (lstrip_split rest) as (w & Erest & Hw).
  assert (HM : Matches Re.FROM_DIRECTIVE ("FROM " +:+ rest)).
  { rewrite Erest.
    change ("FROM " +:+ w +:+ Py.lstrip rest)
      with ("FROM" +:+ ((String " " EmptyString +:+ w) +:+ Py.lstrip rest)).
    unfold Re.FROM_DIRECTIVE. constructor; [apply Matches_Lit |].
    constructor; [| exact Harg].
    unfold Re.Plus. constructor; [| exact Hw].
    apply (space_char_SPACE (String " " EmptyString)). reflexivity. }
  apply fullmatch_Matches in HM.
  unfold Re.re_search. destruct ("FROM " +:+ rest) as [| c s] eqn:E; simpl.
  - unfold Re.match_to_end. simpl in HM |- *. now rewrite HM.
  - unfold Re.match_to_end at 1. rewrite HM. reflexivity.
Qed.

(** The scanning loop decides on the first line that is neither blank nor a
    comment. *)
Lemma scan_from_first (lines : list string) :
  scan_from lines
  = match first_substantive_line lines with
    | Some line => Py.startswith line "FROM " && Re.re_search Re.FROM_DIRECTIVE line
    | None => false
    end.
Proof.
  induction lines as [| line rest IH]; [reflexivity |]. simpl.
  destruct (Py.startswith (Py.strip line) "#") eqn:Hc.
  - rewrite orb_true_r. exact IH.
  - rewrite orb_false_r.
    destruct (Py.startswith (Py.strip line) "FROM ") eqn:Hf.
    + assert (Ht : Py.truthy (Py.strip line) = true).
      { destruct (Py.strip line); [discriminate Hf | reflexivity]. }
      rewrite Ht. simpl. rewrite Hf. reflexivity.
    + destruct (Py.truthy (Py.strip line)) eqn:Ht; simpl.
      * rewrite Hf. reflexivity.
      * exact IH.
Qed.

(** X1. The validator accepts every definition whose first line that is neither
    blank nor a comment is a base directive with a name and optional tag as
    its whole argument. *)
Theorem validator_accepts_base_directive :
  forall D line : string,
    first_substantive_line (lines_of D) = Some line ->
    spec_base_directive line = true ->
    has_valid_from D = true.
Proof.
  intros D line E H. unfold has_valid_from.
  destruct D as [| c D]; [discriminate E |].
  simpl Py.truthy. rewrite andb_true_l. rewrite scan_from_first, E.
  rewrite (spec_base_directive_found line H).
  unfold spec_base_directive in H. apply andb_true_iff in H as [-> _]. reflexivity.
Qed.

Lemma validator_accepts_base_directive_witness :
  let D := "# base" +:+ Py.nl +:+ "  FROM   llama2:7b" +:+ Py.nl +:+ "PARAMETER top_p 0.9" in
  first_substantive_line (lines_of D) = Some "FROM   llama2:7b" /\
  has_valid_from D = true.
Proof.
  split; [reflexivity |].
  apply (validator_accepts_base_directive _ "FROM   llama2:7b"); reflexivity.
Defined.

(** X2. What the validator accepts: the definitions whose first line that is
    neither blank nor a comment starts with the word FROM and a space and
    ends in the word FROM, white space and a name with an optional tag. *)
Theorem validator_characterised :
  forall D : string,
    has_valid_from D = true <->
    exists line,
      first_substantive_line (lines_of D) = Some line /\
      Py.startswith line "FROM " = true /\
      Re.re_search Re.FROM_DIRECTIVE line = true.
Proof.
  intros D. unfold has_valid_from. rewrite scan_from_first. split.
  - intros H. apply andb_true_iff in H as [_ H].
    destruct (first_substantive_line (lines_of D)) as [line |]; [| discriminate H].
    apply andb_true_iff in H as [H1 H2]. eauto.
  - intros (line & E & H1 & H2). rewrite E, H1, H2.
    destruct D; [discriminate E | reflexivity].
Qed.

(** ** Further properties of the modelled methods *)

Lemma create_model_keeps_temp_file_wp (platform N D : string) :
  wp (OllamaAPI.create_model platform N D)
     (fun a tr => temp_build_returned_failure N tr -> removed_a_file tr = false).
Proof.
  repeat autounfold with prog. run_cases.
  all: match goal with H : temp_build_returned_failure _ _ |- _ =>
         destruct H as (e & t & p & rc & Hin & Hcall & Hrc & Hne) end.
  all: in_cases Hin; simpl in Hcall; try discriminate Hcall.
  all: try (exfalso; eapply temp_name_not_name; eassumption).
  all: cbv [ev_returncode ev_call ev_reply] in Hrc; try discriminate Hrc.
  all: try reflexivity.
  all: injection Hrc as <-; repeat negb_hyp;
       match goal with H : (_ =? 0) = true |- _ => apply Z.eqb_eq in H; contradiction end.
Qed.

(** X3. When the build under the temporary name ends with a return code other
    than 0, [create_model] returns before the lines that remove the temporary
    Modelfile: no file is removed in such a run. *)
Theorem create_model_keeps_temp_file_on_failed_build :
  forall (World : Type) (h : Handler World) (w : World)
         (platform model_name modelfile_content : string),
    let r := exec h (OllamaAPI.create_model platform model_name modelfile_content) w in
    temp_build_returned_failure model_name (trace r) ->
    removed_a_file (trace r) = false.
Proof.
  intros World h w platform N D r.
  exact (wp_sound h _ _ w (create_model_keeps_temp_file_wp platform N D)).
Qed.

Lemma create_model_keeps_temp_file_on_failed_build_witness :
  let r := exec machine (OllamaAPI.create_model "win32" "foo" "FROM mistral")
             machine_build_fails in
  removed_a_file (trace r) = false /\
  files (world r) !! "tmp1700000000.modelfile" = Some "FROM mistral".
Proof.
  split; [| reflexivity].
  apply (create_model_keeps_temp_file_on_failed_build Machine machine machine_build_fails
           "win32" "foo" "FROM mistral").
  exists (Ev (subprocess_run (ollama_create "foo_temp_1700000000" "tmp1700000000.modelfile"))
             (Some {| returncode := 1; stdout := EmptyString |})),
         1700000000, "tmp1700000000.modelfile", 1.
  split; [vm_compute; tauto |]. split; [reflexivity |]. split; [reflexivity | lia].
Defined.

#[local] Hint Unfold save_modelfile : prog.

Lemma save_modelfile_fetches_before_busy_wp (tempdir : string) (g : Gui) :
  wp (save_modelfile tempdir g)
     (fun g' tr =>
        warned W_in_progress tr ->
        exists N, current_item g = Some N /\ fetched N tr = true).
Proof.
  unfold save_modelfile. destruct (current_item g) as [N |] eqn:Hitem.
  - unfold _create_model_with_thread, thread_is_running, set_current_operation, not_save.
    simpl. destruct (create_thread g) as [t |]; repeat autounfold with prog; run_cases.
    all: match goal with H : warned _ _ |- _ => destruct H as (e & Hin & Hcall) end.
    all: in_cases Hin; simpl in Hcall; try discriminate Hcall.
    all: exists N; split; [reflexivity |]; unfold fetched; simpl;
         rewrite String.eqb_refl; rewrite ?orb_true_r; reflexivity.
  - repeat autounfold with prog. run_cases.
    match goal with H : warned _ _ |- _ => destruct H as (e & Hin & Hcall) end.
    in_cases Hin; simpl in Hcall; discriminate Hcall.
Qed.

(** X4. A save that ends with the warning that a creation is in progress has by
    then asked the daemon for the selected model's Modelfile: the backup is
    taken before [_create_model_with_thread] looks at the thread. *)
Theorem save_modelfile_fetches_before_busy :
  forall (World : Type) (h : Handler World) (w : World) (tempdir : string) (g : Gui),
    let r := exec h (save_modelfile tempdir g) w in
    warned W_in_progress (trace r) ->
    exists N, current_item g = Some N /\ fetched N (trace r) = true.
Proof.
  intros World h w tempdir g r.
  exact (wp_sound h _ _ w (save_modelfile_fetches_before_busy_wp tempdir g)).
Qed.

(** ** [CreateModelThread.run] *)

(** The loop of the thread decides on the first line that is neither blank
    nor a comment. *)
Lemma has_from_loop_first (lines : list string) :
  has_from_loop lines
  = match first_substantive_line lines with
    | Some line => Py.startswith line "FROM "
    | None => false
    end.
Proof.
  induction lines as [| line rest IH]; [reflexivity |]. simpl.
  destruct (Py.startswith (Py.strip line) "#") eqn:Hc.
  - rewrite orb_true_r. exact IH.
  - rewrite orb_false_r.
    destruct (Py.startswith (Py.strip line) "FROM ") eqn:Hf.
    + assert (Ht : Py.truthy (Py.strip line) = true).
      { destruct (Py.strip line); [discriminate Hf | reflexivity]. }
      rewrite Ht. simpl. now rewrite Hf.
    + destruct (Py.truthy (Py.strip line)) eqn:Ht; simpl; [now rewrite Hf | exact IH].
Qed.

(** X5. Content the validator of the window accepted passes the check of the
    thread, and the thread then makes exactly the calls of [create_model] and
    reports its result. *)
Theorem thread_runs_create_model_on_valid_content :
  forall (World : Type) (h : Handler World) (w : World)
         (platform model_name modelfile_content : string),
    has_valid_from modelfile_content = true ->
    let r := exec h (CreateModelThread_run platform model_name modelfile_content) w in
    let r' := exec h (OllamaAPI.create_model platform model_name modelfile_content) w in
    has_from modelfile_content = true /\
    trace r = trace r' /\ world r = world r' /\
    result r = (result r', model_name,
                if result r' then M_none else M_create_failed).
Proof.
  intros World h w platform N D Hvalid r r'.
  assert (Hfrom : has_from D = true).
  { unfold has_valid_from in Hvalid. apply andb_true_iff in Hvalid as [_ Hscan].
    rewrite scan_from_first in Hscan.
    unfold has_from. rewrite has_from_loop_first.
    destruct (first_substantive_line (lines_of D)); [| discriminate Hscan].
    now apply andb_true_iff in Hscan as [Hs _]. }
  split; [exact Hfrom |].
  unfold r, CreateModelThread_run. rewrite Hfrom. simpl negb. cbv iota.
  unfold mbind, Prog_bind. rewrite exec_bind. fold r'.
  destruct (result r'); simpl; rewrite app_nil_r; repeat split; reflexivity.
Qed.

Lemma thread_runs_create_model_on_valid_content_witness :
  let r := exec machine (CreateModelThread_run "win32" "bar" "FROM mistral")
             machine_with_foo in
  result r = (true, "bar", M_none) /\
  catalog (world r) !! "bar" = Some "FROM mistral".
Proof.
  destruct (thread_runs_create_model_on_valid_content Machine machine machine_with_foo
              "win32" "bar" "FROM mistral" eq_refl) as (_ & _ & Hw & Hr).
  split; [rewrite Hr; reflexivity | rewrite Hw; reflexivity].
Defined.

(** X6. A definition that opens with a comment fails in the thread without one
    call: either the check of the thread refuses it, or [create_model] does,
    which wants the stripped text to begin with the word FROM. *)
Theorem thread_fails_on_leading_comment :
  forall (World : Type) (h : Handler World) (w : World)
         (platform model_name modelfile_content : string),
    Py.startswith (Py.strip modelfile_content) "#" = true ->
    let r := exec h (CreateModelThread_run platform model_name modelfile_content) w in
    trace r = [] /\ world r = w /\
    (result r = (false, model_name, M_invalid_modelfile) \/
     result r = (false, model_name, M_create_failed)).
Proof.
  intros World h w platform N D Hc r. unfold r, CreateModelThread_run.
  destruct (has_from D); simpl.
  - unfold mbind, Prog_bind. rewrite exec_bind.
    unfold OllamaAPI.create_model.
    rewrite (startswith_hash_not_FROM _ Hc), orb_true_r. simpl. auto.
  - auto.
Qed.

Lemma thread_fails_on_leading_comment_witness :
  let D := "# my model" +:+ Py.nl +:+ "FROM llama2" in
  let r := exec machine (CreateModelThread_run "win32" "mymodel" D) machine_with_foo in
  has_valid_from D = true /\ has_from D = true /\
  trace r = [] /\ result r = (false, "mymodel", M_create_failed).
Proof.
  destruct (thread_fails_on_leading_comment Machine machine machine_with_foo
              "win32" "mymodel" ("# my model" +:+ Py.nl +:+ "FROM llama2") eq_refl)
    as (Ht & _ & _).
  split; [reflexivity |]. split; [reflexivity |]. split; [exact Ht | reflexivity].
Defined.

(** ** [ensure_utf8_encoding] *)

Lemma latin1_refuses_wide (s : list N) :
  existsb (fun c => (65535 <? c)%N) s = true ->
  forallb (fun c => (c <=? 255)%N) s = false.
Proof.
  induction s as [| c s IH]; simpl; [discriminate |].
  intros H. apply orb_true_iff in H as [H | H].
  - apply N.ltb_lt in H. apply andb_false_iff. left. apply N.leb_gt. lia.
  - apply andb_false_iff. right. now apply IH.
Qed.

(** X7. [ensure_utf8_encoding] never changes a [str]: the repair is tried only
    when a code point lies above 0xFFFF, and then encoding to latin1 raises.
    So the function is the identity on text, it is idempotent on every value,
    and only [None] gives [None]. *)
Theorem ensure_utf8_encoding_keeps_str :
  forall (decode_utf8 : list N -> option (list N)) (str_of_bytes : list N -> list N),
    (forall s, ensure_utf8_encoding decode_utf8 str_of_bytes (PyStr s) = PyStr s) /\
    (forall v, ensure_utf8_encoding decode_utf8 str_of_bytes
                 (ensure_utf8_encoding decode_utf8 str_of_bytes v)
               = ensure_utf8_encoding decode_utf8 str_of_bytes v) /\
    (forall v, ensure_utf8_encoding decode_utf8 str_of_bytes v = PyNone <-> v = PyNone) /\
    (forall v, v <> PyNone ->
               exists s, ensure_utf8_encoding decode_utf8 str_of_bytes v = PyStr s).
Proof.
  intros decode_utf8 str_of_bytes.
  assert (Hstr : forall s, ensure_utf8_encoding decode_utf8 str_of_bytes (PyStr s) = PyStr s).
  { intros s. simpl. destruct (existsb _ s) eqn:Hw; [| reflexivity].
    unfold latin1_as_utf8, encode_latin1. now rewrite (latin1_refuses_wide s Hw). }
  assert (Hsome : forall v, v <> PyNone ->
            exists s, ensure_utf8_encoding decode_utf8 str_of_bytes v = PyStr s).
  { intros [| s | b | s] Hv; [congruence | | |].
    - exists s. apply Hstr.
    - simpl. destruct (decode_utf8 b); eauto.
    - simpl. eauto. }
  split; [exact Hstr |]. split; [| split; [| exact Hsome]].
  - intros v. destruct v as [| s | b | s]; [reflexivity | | |].
    + now rewrite !Hstr.
    + destruct (Hsome (PyBytes b)) as (s & ->); [discriminate | apply Hstr].
    + simpl (ensure_utf8_encoding _ _ (PyOther s)). apply Hstr.
  - intros v. split; [| intros ->; reflexivity].
    intros H. destruct v as [| s | b | s]; [reflexivity | exfalso | exfalso | exfalso].
    + destruct (Hsome (PyStr s)) as (s' & E); [discriminate |]. congruence.
    + destruct (Hsome (PyBytes b)) as (s' & E); [discriminate |]. congruence.
    + destruct (Hsome (PyOther s)) as (s' & E); [discriminate |]. congruence.
Qed.

(** ** What [_ensure_valid_from_directive] returns *)

Lemma space_lead_isspace2 (c d : ascii) :
  space_lead c = false -> Py.isspace2 c d = false.
Proof.
  unfold space_lead, Py.isspace2. intros H.
  destruct (nat_of_ascii c =? 194)%nat; [discriminate H | reflexivity].
Qed.

Lemma space_lead_isspace3 (c d e : ascii) :
  space_lead c = false -> Py.isspace3 c d e = false.
Proof.
  unfold space_lead, Py.isspace3. intros H.
  destruct (nat_of_ascii c =? 194)%nat; [discriminate H |].
  destruct (nat_of_ascii c =? 225)%nat; [discriminate H |].
  destruct (nat_of_ascii c =? 226)%nat; [discriminate H |].
  destruct (nat_of_ascii c =? 227)%nat; [discriminate H | reflexivity].
Qed.

Lemma space_char_cons_plain (c : ascii) (r : string) :
  Py.isspace c = false -> space_lead c = false -> Py.space_char (String c r) = false.
Proof.
  intros Hc Hl. destruct r as [| d [| e [| x r]]]; simpl.
  - exact Hc.
  - now apply space_lead_isspace2.
  - now apply space_lead_isspace3.
  - reflexivity.
Qed.

Lemma rstrip_cons_eq (c : ascii) (s : string) :
  Py.rstrip (String c s)
  = if Py.space_char (String c (Py.rstrip s)) then EmptyString
    else String c (Py.rstrip s).
Proof. reflexivity. Qed.

Lemma rstrip_cons_nonspace (c : ascii) (s : string) :
  Py.isspace c = false -> space_lead c = false ->
  Py.rstrip (String c s) = String c (Py.rstrip s).
Proof.
  intros Hc Hl. rewrite rstrip_cons_eq. now rewrite space_char_cons_plain.
Qed.

Lemma lstrip_cons_nonspace (c : ascii) (s : string) :
  Py.isspace c = false -> space_lead c = false -> Py.lstrip (String c s) = String c s.
Proof.
  intros Hc Hl. destruct s as [| d [| e s]]; simpl; rewrite Hc; try reflexivity.
  - now rewrite (space_lead_isspace2 c d Hl).
  - now rewrite (space_lead_isspace2 c d Hl), (space_lead_isspace3 c d e Hl).
Qed.

Lemma ascii_octet_isspace2 (x c : ascii) : ascii_octet c = true -> Py.isspace2 x c = false.
Proof.
  unfold ascii_octet, Py.isspace2. intros H. apply Nat.ltb_lt in H.
  destruct (nat_of_ascii c =? 133)%nat eqn:E1; [apply Nat.eqb_eq in E1; lia |].
  destruct (nat_of_ascii c =? 160)%nat eqn:E2; [apply Nat.eqb_eq in E2; lia |].
  now rewrite andb_false_r.
Qed.

Lemma ascii_octet_isspace3_second (x c e : ascii) :
  ascii_octet c = true -> Py.isspace3 x c e = false.
Proof.
  unfold ascii_octet, Py.isspace3. intros H. apply Nat.ltb_lt in H.
  destruct (nat_of_ascii c =? 154)%nat eqn:E1; [apply Nat.eqb_eq in E1; lia |].
  destruct (nat_of_ascii c =? 128)%nat eqn:E2; [apply Nat.eqb_eq in E2; lia |].
  destruct (nat_of_ascii c =? 129)%nat eqn:E3; [apply Nat.eqb_eq in E3; lia |].
  now rewrite !andb_false_r.
Qed.

Lemma ascii_octet_isspace3_third (x y c : ascii) :
  ascii_octet c = true -> Py.isspace3 x y c = false.
Proof.
  unfold ascii_octet, Py.isspace3, Py.general_punctuation_space.
  intros H. apply Nat.ltb_lt in H.
  destruct (nat_of_ascii c =? 128)%nat eqn:E1; [apply Nat.eqb_eq in E1; lia |].
  destruct (nat_of_ascii c =? 159)%nat eqn:E2; [apply Nat.eqb_eq in E2; lia |].
  destruct (nat_of_ascii c =? 168)%nat eqn:E3; [apply Nat.eqb_eq in E3; lia |].
  destruct (nat_of_ascii c =? 169)%nat eqn:E4; [apply Nat.eqb_eq in E4; lia |].
  destruct (nat_of_ascii c =? 175)%nat eqn:E5; [apply Nat.eqb_eq in E5; lia |].
  destruct (128 <=? nat_of_ascii c)%nat eqn:E6; [apply Nat.leb_le in E6; lia |].
  now rewrite !andb_false_r.
Qed.

(** A white-space character of several octets has none of the ASCII range
    after its first. *)
Lemma space_char_ascii_inside (x c : ascii) (a z : string) :
  ascii_octet c = true -> Py.space_char (String x (a +:+ String c z)) = false.
Proof.
  intros H. destruct a as [| y [| y' a]].
  - change (Py.space_char (String x (String c z)) = false).
    destruct z as [| e [| e' z]]; simpl.
    + now apply ascii_octet_isspace2.
    + now apply ascii_octet_isspace3_second.
    + reflexivity.
  - change (Py.space_char (String x (String y (String c z))) = false).
    destruct z as [| e z]; simpl; [now apply ascii_octet_isspace3_third | reflexivity].
  - rewrite !append_cons. now destruct a.
Qed.

Lemma strip_FROM_prefix (rest : string) :
  exists rest', Py.strip ("FROM" +:+ rest) = "FROM" +:+ rest'.
Proof.
  unfold Py.strip.
  change ("FROM" +:+ rest) with (String "F" (String "R" (String "O" (String "M" rest)))).
  rewrite !rstrip_cons_nonspace by reflexivity.
  exists (Py.rstrip rest). reflexivity.
Qed.

Lemma join_nl_cons (x : string) (ls : list string) :
  exists rest, Py.join_nl (x :: ls) = x +:+ rest.
Proof.
  destruct ls as [| y ls].
  - exists EmptyString. simpl. now rewrite append_empty_r.
  - eexists. reflexivity.
Qed.

Lemma rebuild_starts_with_FROM (D M : string) :
  Py.startswith (Py.strip (rebuild D M)) "FROM" = true.
Proof.
  unfold rebuild, new_content.
  destruct (join_nl_cons ("FROM " +:+ M) (user_content (lines_of D))) as (rest & ->).
  rewrite append_assoc.
  change (("FROM " +:+ M +:+ rest)) with ("FROM" +:+ (" " +:+ M +:+ rest)).
  destruct (strip_FROM_prefix (" " +:+ M +:+ rest)) as (rest' & ->).
  destruct rest'; reflexivity.
Qed.

#[local] Hint Unfold _ensure_valid_from_directive : prog.

Lemma ensure_valid_from_directive_result_wp (D : string) (check_only : bool) :
  wp (_ensure_valid_from_directive D check_only)
     (fun res tr =>
        (check_only = true -> reached_daemon tr = false) /\
        match res with
        | None => True
        | Some D' =>
            (D' = D /\ has_valid_from D = true /\ tr = []) \/
            (check_only = false /\ has_valid_from D = false /\
             exists M, D' = rebuild D M /\
                       Py.startswith (Py.strip D') "FROM" = true)
        end).
Proof.
  unfold _ensure_valid_from_directive, has_valid_from.
  destruct (Py.truthy D) eqn:HD; simpl; [| auto].
  destruct (scan_from (lines_of D)) eqn:Hscan; simpl; [auto |].
  destruct check_only; repeat autounfold with prog; run_cases.
  all: split; [intros; try reflexivity; discriminate |]; auto.
  right. split; [reflexivity |]. split; [reflexivity |].
  eexists. split; [reflexivity |]. apply rebuild_starts_with_FROM.
Qed.

(** X8. Whatever the daemon and the user answer, [_ensure_valid_from_directive]
    returns [None], or the content itself (then the content is valid and no
    dialog was shown), or, outside check-only mode, a rebuilt text, which
    always begins with the word FROM and so passes the test of [create_model].
    In check-only mode nothing reaches the daemon. *)
Theorem ensure_valid_from_directive_result :
  forall (World : Type) (h : Handler World) (w : World) (D : string) (check_only : bool),
    let r := exec h (_ensure_valid_from_directive D check_only) w in
    (check_only = true -> reached_daemon (trace r) = false) /\
    match result r with
    | None => True
    | Some D' =>
        (D' = D /\ has_valid_from D = true /\ trace r = []) \/
        (check_only = false /\ has_valid_from D = false /\
         exists M, D' = rebuild D M /\
                   Py.startswith (Py.strip D') "FROM" = true)
    end.
Proof.
  intros World h w D check_only r.
  exact (wp_sound h _ _ w (ensure_valid_from_directive_result_wp D check_only)).
Qed.

(** ** A rebuilt definition is valid *)

Lemma string_forall_append (P : ascii -> bool) (a b : string) :
  string_forall P (a +:+ b) = string_forall P a && string_forall P b.
Proof.
  induction a as [| c a IH]; [reflexivity |].
  rewrite append_cons. simpl. rewrite IH. now rewrite andb_assoc.
Qed.

Lemma Matches_within (P : ascii -> bool) (r : Re.regex) (s : string) :
  Matches r s -> classes_within P r -> string_forall P s = true.
Proof.
  induction 1 as [| p c Hp | r1 r2 s1 s2 _ IH1 _ IH2 | r1 r2 s _ IH | r1 r2 s _ IH
                 | r | r s1 s2 _ IH1 _ IH2]; simpl; intros Hr.
  - reflexivity.
  - now rewrite (Hr c Hp).
  - destruct Hr as [Hr1 Hr2]. rewrite string_forall_append, IH1, IH2; auto.
  - apply IH, Hr.
  - apply IH, Hr.
  - reflexivity.
  - rewrite string_forall_append, IH1, IH2; auto.
Qed.

Lemma name_char_plain (c : ascii) : Re.name_char c = true -> plain_char c = true.
Proof.
  destruct c as [b0 b1 b2 b3 b4 b5 b6 b7].
  destruct b0, b1, b2, b3, b4, b5, b6, b7; vm_compute; congruence.
Qed.

Lemma NAME_TAG_plain : classes_within plain_char Re.NAME_TAG.
Proof.
  unfold Re.NAME_TAG, Re.Plus, Re.Opt, Re.Chr. cbn [classes_within].
  repeat split; try exact name_char_plain.
  intros c Hc. apply Ascii.eqb_eq in Hc. subst c. reflexivity.
Qed.

Lemma plain_char_parts (c : ascii) :
  plain_char c = true ->
  Py.isspace c = false /\ space_lead c = false /\ Ascii.eqb c Py.newline = false.
Proof.
  unfold plain_char. intros H.
  apply andb_true_iff in H as [H H3]. apply andb_true_iff in H as [H1 H2].
  now rewrite <- !negb_true_iff.
Qed.

Lemma plain_rstrip (s : string) : string_forall plain_char s = true -> Py.rstrip s = s.
Proof.
  induction s as [| c s IH]; [reflexivity |]. simpl string_forall.
  intros H. apply andb_true_iff in H as [Hc Hs].
  apply plain_char_parts in Hc as (Hc & Hl & _).
  rewrite rstrip_cons_nonspace by assumption. now rewrite IH.
Qed.

Lemma plain_lstrip (s : string) : string_forall plain_char s = true -> Py.lstrip s = s.
Proof.
  destruct s as [| c s]; [reflexivity |]. simpl string_forall.
  intros H. apply andb_true_iff in H as [Hc _].
  apply plain_char_parts in Hc as (Hc & Hl & _).
  now apply lstrip_cons_nonspace.
Qed.

Lemma plain_no_newline (s : string) : string_forall plain_char s = true -> no_newline s = true.
Proof.
  induction s as [| c s IH]; [reflexivity |]. simpl.
  intros H. apply andb_true_iff in H as [Hc Hs].
  apply plain_char_parts in Hc as (_ & _ & Hc).
  rewrite Hc. simpl. now apply IH.
Qed.

Lemma rstrip_newline (R : string) :
  Py.rstrip (String Py.newline R)
  = match Py.rstrip R with
    | EmptyString => EmptyString
    | String y z => String Py.newline (String y z)
    end.
Proof.
  rewrite rstrip_cons_eq. destruct (Py.rstrip R) as [| y [| e [| x z]]]; reflexivity.
Qed.

(** The text begins with a character of the ASCII range, or is empty. *)
Lemma rstrip_append (a b : string) :
  match b with EmptyString => True | String c _ => ascii_octet c = true end ->
  Py.rstrip (a +:+ b)
  = match Py.rstrip b with
    | EmptyString => Py.rstrip a
    | String _ _ => a +:+ Py.rstrip b
    end.
Proof.
  intros Hb. induction a as [| x a IH].
  - rewrite append_nil. now destruct (Py.rstrip b).
  - rewrite append_cons, rstrip_cons_eq, IH.
    destruct (Py.rstrip b) as [| y rb] eqn:E; [now rewrite <- rstrip_cons_eq |].
    destruct b as [| c b']; [discriminate E |].
    rewrite rstrip_cons_eq in E.
    destruct (Py.space_char (String c (Py.rstrip b'))); [discriminate E |].
    injection E as <- <-.
    rewrite space_char_ascii_inside by exact Hb. reflexivity.
Qed.

Lemma join_nl_cons_shape (x : string) (ls : list string) :
  Py.join_nl (x :: ls) = x \/ exists R, Py.join_nl (x :: ls) = x +:+ Py.nl +:+ R.
Proof. destruct ls as [| y ls]; [now left | right; eexists; reflexivity]. Qed.

Lemma directive_argument_FROM (rest : string) :
  directive_argument ("FROM " +:+ rest) = Py.lstrip rest.
Proof.
  unfold directive_argument.
  change ("FROM " +:+ rest) with (String "F" (String "R" (String "O" (String "M"
                                    (String " " rest))))).
  simpl String.length. simpl Nat.sub. simpl String.substring.
  replace (String.length rest - 0)%nat with (String.length rest) by lia.
  rewrite substring_all. reflexivity.
Qed.

Lemma startswith_refl_append (p rest : string) : Py.startswith (p +:+ rest) p = true.
Proof.
  induction p as [| c p IH]; [now destruct rest |].
  rewrite append_cons.
  change (Ascii.eqb c c && Py.startswith (p +:+ rest) p = true).
  now rewrite Ascii.eqb_refl, IH.
Qed.

Lemma rstrip_space_cons (s : string) :
  Py.rstrip s = s -> s <> EmptyString -> Py.rstrip (String " " s) = String " " s.
Proof.
  intros E Hne. rewrite rstrip_cons_eq, E.
  destruct s as [| d [| e [| x s]]]; [congruence | reflexivity ..].
Qed.

Section FromLine.

Variable M : string.
Hypothesis M_name : Re.fullmatch Re.NAME_TAG M = true.

Let a : string := "FROM " +:+ M.

Lemma name_plain : string_forall plain_char M = true.
Proof.
  apply (Matches_within plain_char Re.NAME_TAG); [| exact NAME_TAG_plain].
  now apply fullmatch_Matches.
Qed.

Lemma name_not_empty : M <> EmptyString.
Proof. intros E. rewrite E in M_name. discriminate M_name. Qed.

Lemma from_line_rstrip : Py.rstrip a = a.
Proof.
  unfold a.
  change ("FROM " +:+ M) with (String "F" (String "R" (String "O" (String "M"
                                 (String " " M))))).
  rewrite !rstrip_cons_nonspace by reflexivity.
  now rewrite (rstrip_space_cons M (plain_rstrip M name_plain) name_not_empty).
Qed.

Lemma from_line_lstrip (x : string) : Py.lstrip (a +:+ x) = a +:+ x.
Proof. reflexivity. Qed.

Lemma from_line_strip : Py.strip a = a.
Proof.
  unfold Py.strip. rewrite from_line_rstrip.
  rewrite <- (append_empty_r a). apply from_line_lstrip.
Qed.

Lemma from_line_no_newline : no_newline a = true.
Proof.
  unfold a. rewrite no_newline_append. simpl. apply plain_no_newline, name_plain.
Qed.

Lemma from_line_directive : spec_base_directive a = true.
Proof.
  unfold spec_base_directive, a.
  rewrite startswith_refl_append, directive_argument_FROM.
  rewrite (plain_lstrip M name_plain). exact M_name.
Qed.

Lemma from_line_scan (tl : list string) : scan_from (a :: tl) = true.
Proof.
  simpl. rewrite from_line_strip.
  assert (Hc : Py.startswith a "#" = false) by reflexivity.
  assert (Hf : Py.startswith a "FROM " = true) by apply startswith_refl_append.
  rewrite Hc, Hf. apply spec_base_directive_found, from_line_directive.
Qed.

Lemma from_line_first (ls : list string) :
  exists tl, lines_of (Py.join_nl (a :: ls)) = a :: tl.
Proof.
  unfold lines_of, Py.strip.
  destruct (join_nl_cons_shape a ls) as [-> | (R & ->)].
  - exists []. fold (Py.strip a). rewrite from_line_strip.
    apply split_nl_no_newline, from_line_no_newline.
  - rewrite rstrip_append by reflexivity.
    change (Py.nl +:+ R) with (String Py.newline R).
    assert (Hnl : Py.rstrip (String Py.newline R)
                  = match Py.rstrip R with
                    | EmptyString => EmptyString
                    | String y z => String Py.newline (String y z)
                    end).
    { apply rstrip_newline. }
    rewrite Hnl. destruct (Py.rstrip R) as [| y z].
    + exists []. fold (Py.strip a). rewrite from_line_strip.
      apply split_nl_no_newline, from_line_no_newline.
    + exists (Py.split_nl (String y z)). rewrite from_line_lstrip.
      change (String Py.newline (String y z)) with (Py.nl +:+ String y z).
      apply split_nl_append, from_line_no_newline.
Qed.

End FromLine.

(** X9. A definition rebuilt around a base model whose name is a name with an
    optional tag is valid: applied to its own result, the method returns it
    unchanged and shows no dialog. *)
Theorem rebuilt_definition_is_valid :
  forall (World : Type) (h : Handler World) (w : World) (D M : string),
    Re.fullmatch Re.NAME_TAG M = true ->
    has_valid_from (rebuild D M) = true /\
    exec h (_ensure_valid_from_directive (rebuild D M) false) w
    = (Some (rebuild D M), w, []).
Proof.
  intros World h w D M HM.
  assert (Hvalid : has_valid_from (rebuild D M) = true).
  { unfold has_valid_from, rebuild, new_content.
    destruct (from_line_first M HM (user_content (lines_of D))) as (tl & ->).
    rewrite (from_line_scan M HM tl), andb_true_r.
    destruct (join_nl_cons ("FROM " +:+ M) (user_content (lines_of D))) as (rest & ->).
    reflexivity. }
  split; [exact Hvalid |].
  unfold has_valid_from in Hvalid. apply andb_true_iff in Hvalid as [Ht Hs].
  unfold _ensure_valid_from_directive. rewrite Ht, Hs. reflexivity.
Qed.

Lemma rebuilt_definition_is_valid_witness :
  has_valid_from (rebuild "PARAMETER temperature 0.7" "llama2:7b") = true /\
  exec machine (_ensure_valid_from_directive
                  (rebuild "PARAMETER temperature 0.7" "llama2:7b") false)
    machine_two_models
  = (Some (rebuild "PARAMETER temperature 0.7" "llama2:7b"), machine_two_models, []).
Proof.
  apply (rebuilt_definition_is_valid Machine machine machine_two_models
           "PARAMETER temperature 0.7" "llama2:7b").
  reflexivity.
Defined.

(** ** Restoring, naming and saving *)

Lemma restore_from_backup_edges_wp (g : Gui) (N : string) :
  wp (_restore_from_backup g N)
     (fun g' tr =>
        match model_backups g !! N with
        | None => g' = g /\ tr = [Ev (QMessageBox_warning W_no_backup) tt]
        | Some b =>
            (answered Q_confirm_restore false tr ->
             g' = g /\ tr = [Ev (QMessageBox_question Q_confirm_restore) false]) /\
            (forall p, In p (files_read tr) -> p = path b) /\
            (forall n text, In (n, text) (started tr) -> n = N)
        end).
Proof.
  unfold _restore_from_backup. destruct (model_backups g !! N) as [b |].
  - unfold _create_model_with_thread, thread_is_running.
    destruct (create_thread g) as [t |]; repeat autounfold with prog; run_cases.
    all: try match goal with u : unit |- _ => destruct u end.
    all: repeat negb_hyp; subst.
    all: split; [| split].
    all: try (intros (e & Hin & Ha); in_cases Hin; simpl in Ha; try discriminate Ha;
              auto; fail).
    all: try (intros p Hp; simpl in Hp; intuition congruence).
    all: try (intros n text Hs; simpl in Hs; intuition congruence).
  - repeat autounfold with prog. run_cases.
    match goal with u : unit |- _ => destruct u end. auto.
Qed.

(** X10. [_restore_from_backup] with no backup under the name shows the warning
    and does nothing else. With a backup, a declined confirmation ends the
    method at once with the window unchanged; the only file ever read is the
    one the backup records; and a thread, if one is started, is started for
    this name. *)
Theorem restore_from_backup_edges :
  forall (World : Type) (h : Handler World) (w : World) (g : Gui) (model_name : string),
    let r := exec h (_restore_from_backup g model_name) w in
    match model_backups g !! model_name with
    | None => result r = g /\ trace r = [Ev (QMessageBox_warning W_no_backup) tt]
    | Some b =>
        (answered Q_confirm_restore false (trace r) ->
         result r = g /\
         trace r = [Ev (QMessageBox_question Q_confirm_restore) false]) /\
        (forall p, In p (files_read (trace r)) -> p = path b) /\
        (forall n text, In (n, text) (started (trace r)) -> n = model_name)
    end.
Proof.
  intros World h w g N r.
  exact (wp_sound h _ _ w (restore_from_backup_edges_wp g N)).
Qed.

#[local] Hint Unfold _ask_model_name_and_create : prog.

Lemma ask_model_name_checks_name_wp (g : Gui) :
  wp (_ask_model_name_and_create g)
     (fun g' tr =>
        forall n text, In (n, text) (started tr) -> invalid_model_name n = false).
Proof.
  unfold _ask_model_name_and_create.
  unfold _create_model_with_thread, thread_is_running, set_content.
  destruct (create_thread g) as [t |]; repeat autounfold with prog; simpl; run_cases.
  all: try contradiction.
  all: match goal with Hs : _ \/ False |- _ =>
         destruct Hs as [Hs | []]; injection Hs as <- <- end.
  all: repeat negb_hyp.
  all: repeat match goal with
              | H : _ && _ = true |- _ => apply andb_true_iff in H as [? ?]
              end.
  all: unfold invalid_model_name.
  all: match goal with
       | H1 : Py.truthy ?x = true, H2 : Re.re_match Re.MODEL_NAME ?x = true
         |- negb (Py.truthy ?x) || negb (Re.re_match Re.MODEL_NAME ?x) = false =>
           rewrite H1, H2; reflexivity
       end.
Qed.

Lemma chop_final_newline_append (s s' : string) :
  Py.chop_final_newline s = Some s' -> s = s' +:+ Py.nl.
Proof.
  revert s'. induction s as [| c s IH]; intros s' H; [discriminate H |].
  destruct s as [| d s].
  - simpl in H. destruct (Ascii.eqb c Py.newline) eqn:E; [| discriminate H].
    injection H as <-. apply Ascii.eqb_eq in E. now subst c.
  - change (option_map (String c) (Py.chop_final_newline (String d s)) = Some s') in H.
    destruct (Py.chop_final_newline (String d s)) as [r |]; [| discriminate H].
    injection H as <-. rewrite append_cons. f_equal. now apply IH.
Qed.

Lemma fullmatch_MODEL_NAME (s : string) :
  Re.fullmatch Re.MODEL_NAME s = true -> name_chars s = true.
Proof.
  intros H. unfold name_chars. apply andb_true_iff. split.
  - destruct s; [discriminate H | reflexivity].
  - apply (Matches_within Re.name_char Re.MODEL_NAME); [now apply fullmatch_Matches |].
    unfold Re.MODEL_NAME, Re.Plus. cbn [classes_within]. auto.
Qed.

(** What the test of a name lets through. *)
Lemma valid_name_shape (name : string) :
  invalid_model_name name = false -> passes_name_pattern name.
Proof.
  unfold invalid_model_name. intros H. apply orb_false_iff in H as [_ H].
  apply negb_false_iff in H. unfold Re.re_match, Re.match_to_end in H.
  apply orb_true_iff in H as [H | H].
  - left. now apply fullmatch_MODEL_NAME.
  - destruct (Py.chop_final_newline name) as [core |] eqn:E; [| discriminate H].
    right. exists core. split; [now apply chop_final_newline_append |].
    now apply fullmatch_MODEL_NAME.
Qed.

(** X11. Every thread that [_ask_model_name_and_create] starts carries a name
    of one or more letters, digits, dots, underscores and hyphens, after
    which there can be one final newline (the [$] of the pattern matches
    before it): a name the user typed that is empty or has another character
    never reaches the thread, whatever the pending operation is. *)
Theorem ask_model_name_checks_name :
  forall (World : Type) (h : Handler World) (w : World) (g : Gui),
    let r := exec h (_ask_model_name_and_create g) w in
    forall n text, In (n, text) (started (trace r)) -> passes_name_pattern n.
Proof.
  intros World h w g r n text Hin. apply valid_name_shape.
  exact (wp_sound h _ _ w (ask_model_name_checks_name_wp g) n text Hin).
Qed.

Lemma ask_model_name_checks_name_witness :
  let g := set_content init_gui "FROM llama2" in
  let r := exec machine (_ask_model_name_and_create g) machine_typing_name in
  started (trace r) = [("newmodel", "FROM llama2")] /\
  passes_name_pattern "newmodel".
Proof.
  split; [reflexivity |].
  apply (ask_model_name_checks_name Machine machine machine_typing_name
           (set_content init_gui "FROM llama2") "newmodel" "FROM llama2").
  left. reflexivity.
Defined.

Lemma save_modelfile_declined_wp (tempdir : string) (g : Gui) :
  wp (save_modelfile tempdir g)
     (fun g' tr =>
        (current_item g = None ->
         g' = g /\ tr = [Ev (QMessageBox_warning W_select_model_first) tt]) /\
        (answered Q_confirm_rebuild false tr ->
         started tr = [] /\
         current_operation g' = current_operation g /\
         create_thread g' = create_thread g /\
         exists N, current_item g = Some N /\ fetched N tr = true)).
Proof.
  unfold save_modelfile. destruct (current_item g) as [N |] eqn:Hitem.
  - unfold _create_model_with_thread, thread_is_running, set_current_operation, not_save,
      set_content, set_backup.
    simpl. destruct (create_thread g) as [t |] eqn:Hct;
      repeat autounfold with prog; run_cases.
    all: repeat negb_hyp; subst.
    all: split; [discriminate |].
    all: intros (e & Hin & Ha); in_cases Hin; simpl in Ha; try discriminate Ha.
    all: split; [reflexivity |]; split; [reflexivity |]; split; [simpl; auto |].
    all: exists N; split; [reflexivity |]; unfold fetched; simpl;
         rewrite String.eqb_refl; rewrite ?orb_true_r; reflexivity.
  - repeat autounfold with prog. run_cases.
    match goal with u : unit |- _ => destruct u end.
    split; [auto |].
    intros (e & Hin & Ha); in_cases Hin; simpl in Ha; discriminate Ha.
Qed.

(** X12. [save_modelfile] with no model selected shows a warning and does nothing
    else. When the user declines the last confirmation, no thread is started
    and the pending operation is as before, but the daemon has already been
    asked for the old Modelfile: the backup is taken before the question. *)
Theorem save_modelfile_declined :
  forall (World : Type) (h : Handler World) (w : World) (tempdir : string) (g : Gui),
    let r := exec h (save_modelfile tempdir g) w in
    (current_item g = None ->
     result r = g /\ trace r = [Ev (QMessageBox_warning W_select_model_first) tt]) /\
    (answered Q_confirm_rebuild false (trace r) ->
     started (trace r) = [] /\
     current_operation (result r) = current_operation g /\
     create_thread (result r) = create_thread g /\
     exists N, current_item g = Some N /\ fetched N (trace r) = true).
Proof.
  intros World h w tempdir g r.
  exact (wp_sound h _ _ w (save_modelfile_declined_wp tempdir g)).
Qed.

(** ** Security mode: order of the commands *)

#[local] Hint Unfold enable_security_mode disable_security_mode run_checked
  check_firewall_rules : prog.

Ltac rc_cases :=
  repeat match goal with
         | H : (?rc =? 0) = true |- _ => apply Z.eqb_eq in H; subst rc
         | H : (?rc =? 0) = false |- _ => apply Z.eqb_neq in H
         end.

Lemma enable_security_mode_order_wp (g : Gui) (ollama_path : string) :
  wp (enable_security_mode g ollama_path)
     (fun res tr =>
        let out := New_NetFirewallRule firewall_rule_name_out Outbound ollama_path in
        let inb := New_NetFirewallRule firewall_rule_name_in Inbound ollama_path in
        (exists r1, ps_commands tr = [(out, r1)] /\ r1 <> Some 0 /\ res = None) \/
        (exists r2, ps_commands tr = [(out, Some 0); (inb, r2)] /\
                    (r2 <> Some 0 -> res = None) /\
                    (r2 = Some 0 ->
                     res = Some (set_security g (security_mode_checkbox g) S_security_on)))).
Proof.
  repeat autounfold with prog. run_cases.
  all: rc_cases.
  all: try (left; eexists; split; [reflexivity |]; split; [congruence | reflexivity]).
  all: right; eexists; split; [reflexivity |]; split; congruence.
Qed.

Lemma disable_security_mode_order_wp (g : Gui) :
  wp (disable_security_mode g)
     (fun res tr =>
        let out := Remove_NetFirewallRule firewall_rule_name_out in
        let inb := Remove_NetFirewallRule firewall_rule_name_in in
        (exists r1, ps_commands tr = [(out, r1)] /\ r1 <> Some 0 /\ res = None) \/
        (exists r2, ps_commands tr = [(out, Some 0); (inb, r2)] /\
                    (r2 <> Some 0 -> res = None) /\
                    (r2 = Some 0 ->
                     res = Some (set_security g (security_mode_checkbox g) S_security_off)))).
Proof.
  repeat autounfold with prog. run_cases.
  all: rc_cases.
  all: try (left; eexists; split; [reflexivity |]; split; [congruence | reflexivity]).
  all: right; eexists; split; [reflexivity |]; split; congruence.
Qed.

(** X13. Both security methods stop at the first command that fails. Enabling
    creates the outbound rule, and the inbound rule only after that returned
    0; when the inbound rule fails the method raises and the outbound rule is
    left in place (no removal is ever issued). Disabling removes the outbound
    rule, and the inbound rule only after that returned 0: a failed first
    removal leaves the inbound rule untouched. Each method returns normally
    exactly when both commands returned 0. *)
Theorem security_mode_stops_at_first_failure :
  forall (World : Type) (h : Handler World) (w : World) (g : Gui) (ollama_path : string),
    (let r := exec h (enable_security_mode g ollama_path) w in
     let out := New_NetFirewallRule firewall_rule_name_out Outbound ollama_path in
     let inb := New_NetFirewallRule firewall_rule_name_in Inbound ollama_path in
     (exists r1, ps_commands (trace r) = [(out, r1)] /\ r1 <> Some 0 /\ result r = None) \/
     (exists r2, ps_commands (trace r) = [(out, Some 0); (inb, r2)] /\
                 (r2 <> Some 0 -> result r = None) /\
                 (r2 = Some 0 ->
                  result r
                  = Some (set_security g (security_mode_checkbox g) S_security_on)))) /\
    (let r := exec h (disable_security_mode g) w in
     let out := Remove_NetFirewallRule firewall_rule_name_out in
     let inb := Remove_NetFirewallRule firewall_rule_name_in in
     (exists r1, ps_commands (trace r) = [(out, r1)] /\ r1 <> Some 0 /\ result r = None) \/
     (exists r2, ps_commands (trace r) = [(out, Some 0); (inb, r2)] /\
                 (r2 <> Some 0 -> result r = None) /\
                 (r2 = Some 0 ->
                  result r
                  = Some (set_security g (security_mode_checkbox g) S_security_off)))).
Proof.
  intros World h w g ollama_path. split.
  - exact (wp_sound h _ _ w (enable_security_mode_order_wp g ollama_path)).
  - exact (wp_sound h _ _ w (disable_security_mode_order_wp g)).
Qed.

(** ** [find_ollama_path] and [toggle_security_mode] *)



(** ** [_restore_specific_model] *)

#[local] Hint Unfold _restore_specific_model : prog.

(** [run_cases], also under a second bind. *)
Ltac run_nested := repeat (simpl; match goal with
  | |- wp (if ?b then _ else _) _ => destruct b eqn:?
  | |- wp (match ?x with _ => _ end) _ => destruct x eqn:?
  | |- wp (bind (if ?b then _ else _) _) _ => destruct b eqn:?
  | |- wp (bind (match ?x with _ => _ end) _) _ => destruct x eqn:?
  | |- wp (bind (bind (if ?b then _ else _) _) _) _ => destruct b eqn:?
  | |- wp (bind (bind (match ?x with _ => _ end) _) _) _ => destruct x eqn:?
  | |- forall r, _ => intro
  end).

Lemma restore_specific_model_removes_wp (tempdir : string) (g : Gui) (N : string)
    (confirm use_backup : bool) :
  wp (_restore_specific_model tempdir g N confirm use_backup)
     (fun out tr =>
        match out with
        | Restore_declined => confirm = false /\ tr = []
        | Restore_from_backup _ =>
            confirm = true /\ use_backup = true /\ commands tr = [] /\
            files_read tr = [backup_path tempdir N]
        | Restore_failed =>
            confirm = true /\ commands tr = [ollama_rm N] /\ started tr = []
        | Restore_cancelled | Restore_pull | Restore_create_new =>
            confirm = true /\ commands tr = [ollama_rm N] /\ started tr = [] /\
            exists answer,
              last tr = Some (Ev (QInputDialog_getItem restore_options) answer)
        end).
Proof.
  unfold _restore_specific_model.
  destruct confirm; simpl; [| auto].
  unfold _create_model_with_thread, thread_is_running.
  destruct (create_thread g) as [t |]; repeat autounfold with prog; run_nested.
  all: repeat match goal with
              | H : match ?x with Some _ => _ | None => None end = Some _ |- _ =>
                  destruct x; [| discriminate H]
              | H : Some _ = Some _ |- _ => injection H as <-
              | H : Some _ = None |- _ => discriminate H
              | H : None = Some _ |- _ => discriminate H
              | H : (if ?b then Some _ else None) = Some _ |- _ =>
                  destruct b eqn:?; [injection H as <- | discriminate H]
              | H : _ && _ = true |- _ => apply andb_true_iff in H as [? ?]
              end.
  all: subst.
  all: repeat split; try reflexivity; eauto.
Qed.

(** X16. Once the user has confirmed, [_restore_specific_model] either hands
    the backup to [_create_model_with_thread] (only when the user agreed to
    use it) or removes the model with [ollama rm] before it asks how to
    restore: when the choice of a way returns, cancelled or not, the removal
    is the one command issued so far and no thread has been started. *)
Theorem restore_specific_model_removes :
  forall (World : Type) (h : Handler World) (w : World) (tempdir : string) (g : Gui)
         (model_name : string) (confirm use_backup : bool),
    let r := exec h (_restore_specific_model tempdir g model_name confirm use_backup) w in
    match result r with
    | Restore_declined => confirm = false /\ trace r = []
    | Restore_from_backup _ =>
        confirm = true /\ use_backup = true /\ commands (trace r) = [] /\
        files_read (trace r) = [backup_path tempdir model_name]
    | Restore_failed =>
        confirm = true /\ commands (trace r) = [ollama_rm model_name] /\
        started (trace r) = []
    | Restore_cancelled | Restore_pull | Restore_create_new =>
        confirm = true /\ commands (trace r) = [ollama_rm model_name] /\
        started (trace r) = [] /\
        exists answer,
          last (trace r) = Some (Ev (QInputDialog_getItem restore_options) answer)
    end.
Proof.
  intros World h w tempdir g N confirm use_backup r.
  exact (wp_sound h _ _ w (restore_specific_model_removes_wp tempdir g N confirm use_backup)).
Qed.

(** ** The template of [insert_template] *)

Section Replace.

Variables (c0 : ascii) (old' new : string).

Let old : string := String c0 old'.

Lemma replace_from_skip (t R : string) :
  replace_from old new (String.length t) (t +:+ R) = replace_from old new 0 R.
Proof.
  induction t as [| c t IH]; [now destruct R |].
  rewrite append_cons. simpl. exact IH.
Qed.

Lemma replace_from_hit (R : string) :
  replace_from old new 0 (old +:+ R) = new +:+ replace_from old new 0 R.
Proof.
  unfold old at 2. rewrite append_cons.
  change (replace_from old new 0 (String c0 (old' +:+ R)))
    with (if Py.startswith (String c0 (old' +:+ R)) old
          then new +:+ replace_from old new (String.length old - 1) (old' +:+ R)
          else String c0 (replace_from old new 0 (old' +:+ R))).
  change (String c0 (old' +:+ R)) with (old +:+ R).
  rewrite startswith_refl_append.
  replace (String.length old - 1)%nat with (String.length old') by (simpl; lia).
  now rewrite replace_from_skip.
Qed.

Lemma replace_from_clean (X R : string) :
  string_forall (fun c => negb (Ascii.eqb c0 c)) X = true ->
  replace_from old new 0 (X +:+ R) = X +:+ replace_from old new 0 R.
Proof.
  induction X as [| c X IH]; [reflexivity |].
  simpl string_forall. intros H. apply andb_true_iff in H as [Hc HX].
  rewrite !append_cons.
  change (replace_from old new 0 (String c (X +:+ R)))
    with (if Py.startswith (String c (X +:+ R)) old
          then new +:+ replace_from old new (String.length old - 1) (X +:+ R)
          else String c (replace_from old new 0 (X +:+ R))).
  assert (Hs : Py.startswith (String c (X +:+ R)) old = false).
  { change (Ascii.eqb c0 c && Py.startswith (X +:+ R) old' = false).
    apply negb_true_iff in Hc. now rewrite Hc. }
  rewrite Hs. now rewrite IH.
Qed.

Lemma replace_from_none (X : string) :
  string_forall (fun c => negb (Ascii.eqb c0 c)) X = true ->
  replace_from old new 0 X = X.
Proof.
  intros H. rewrite <- (append_empty_r X) at 1.
  rewrite (replace_from_clean X EmptyString H). simpl. apply append_empty_r.
Qed.

End Replace.

Lemma lines_before_append (L : list string) (X Y : string) :
  lines_before L X +:+ Y = lines_before L (X +:+ Y).
Proof.
  induction L as [| l L IH]; [reflexivity |]. simpl.
  now rewrite !append_assoc, IH.
Qed.

Lemma split_nl_lines_before (L : list string) (X : string) :
  forallb no_newline L = true ->
  Py.split_nl (lines_before L X) = (L ++ Py.split_nl X)%list.
Proof.
  induction L as [| l L IH]; [reflexivity |]. simpl.
  intros H. apply andb_true_iff in H as [Hl HL].
  rewrite (split_nl_append _ _ Hl). now rewrite IH.
Qed.

Lemma rstrip_nonempty_append (a b : string) :
  match b with EmptyString => True | String c _ => ascii_octet c = true end ->
  Py.rstrip b <> EmptyString -> Py.rstrip (a +:+ b) = a +:+ Py.rstrip b.
Proof.
  intros Hb H. rewrite rstrip_append by exact Hb.
  destruct (Py.rstrip b); [congruence | reflexivity].
Qed.

Lemma rstrip_lines_before (L : list string) (X : string) :
  Py.rstrip X <> EmptyString ->
  Py.rstrip (lines_before L X) = lines_before L (Py.rstrip X).
Proof.
  intros H. induction L as [| l L IH]; [reflexivity |]. simpl.
  assert (Hne : lines_before L (Py.rstrip X) <> EmptyString).
  { destruct L as [| l' L']; [exact H |]. simpl.
    intros E. apply append_eq_empty in E as [_ E]. discriminate E. }
  assert (Hnl : Py.rstrip (Py.nl +:+ lines_before L X)
                = Py.nl +:+ lines_before L (Py.rstrip X)).
  { change (Py.nl +:+ lines_before L X) with (String Py.newline (lines_before L X)).
    rewrite rstrip_newline, IH.
    destruct (lines_before L (Py.rstrip X)); [congruence | reflexivity]. }
  rewrite rstrip_nonempty_append; rewrite ?Hnl; [reflexivity | reflexivity | discriminate].
Qed.

Lemma scan_from_passed_over (L rest : list string) :
  forallb passed_over L = true -> scan_from (L ++ rest) = scan_from rest.
Proof.
  induction L as [| l L IH]; [reflexivity |]. simpl.
  intros H. apply andb_true_iff in H as [Hl HL]. unfold passed_over in Hl.
  destruct (Py.startswith (Py.strip l) "#") eqn:Hc; [now apply IH |].
  simpl in Hl. apply negb_true_iff in Hl.
  destruct (Py.strip l); [| discriminate Hl]. simpl. now apply IH.
Qed.

Lemma has_from_loop_passed_over (L rest : list string) :
  forallb passed_over L = true -> has_from_loop (L ++ rest) = has_from_loop rest.
Proof.
  induction L as [| l L IH]; [reflexivity |]. simpl.
  intros H. apply andb_true_iff in H as [Hl HL]. unfold passed_over in Hl.
  destruct (Py.startswith (Py.strip l) "#") eqn:Hc; [now apply IH |].
  simpl in Hl. apply negb_true_iff in Hl.
  destruct (Py.strip l); [| discriminate Hl]. simpl. now apply IH.
Qed.

Lemma replace_from_first (c0 c : ascii) (old' new s : string) :
  Ascii.eqb c0 c = false ->
  replace_from (String c0 old') new 0 (String c s)
  = String c (replace_from (String c0 old') new 0 s).
Proof.
  intros H.
  change (replace_from (String c0 old') new 0 (String c s))
    with (if Ascii.eqb c0 c && Py.startswith s old'
          then new +:+ replace_from (String c0 old') new
                         (String.length (String c0 old') - 1) s
          else String c (replace_from (String c0 old') new 0 s)).
  now rewrite H.
Qed.

(** The text [insert_template] puts into the editor. *)
Lemma insert_template_text (ed : ModelfileEditor.t) (base_model system_prompt : string) :
  Py.truthy base_model = true ->
  ModelfileEditor.get_content
    (ModelfileEditor.insert_template ed (base_model, true) (system_prompt, true))
  = str_replace (str_replace get_modelfile_template "{{base_model}}" base_model)
      "{{system_prompt}}" system_prompt.
Proof.
  intros H. unfold ModelfileEditor.insert_template. simpl. now rewrite H.
Qed.

Lemma template_opens_with_comment (base_model system_prompt : string) :
  exists X,
    str_replace (str_replace get_modelfile_template "{{base_model}}" base_model)
      "{{system_prompt}}" system_prompt
    = String "#" X.
Proof.
  assert (E : exists T, get_modelfile_template = String "#" T)
    by (eexists; vm_compute; reflexivity).
  destruct E as (T & ->). unfold str_replace.
  rewrite (replace_from_first "{" "#") by reflexivity.
  rewrite (replace_from_first "{" "#") by reflexivity.
  eexists. reflexivity.
Qed.

Lemma strip_opens_with_comment (X : string) :
  Py.startswith (Py.strip (String "#" X)) "#" = true.
Proof.
  unfold Py.strip. rewrite rstrip_cons_nonspace, lstrip_cons_nonspace by reflexivity.
  destruct (Py.rstrip X); reflexivity.
Qed.

(** A text that opens with a comment: [create_model] refuses it, hence the
    thread reports a failure without one call. *)
Lemma create_model_refuses_comment {World : Type} (h : Handler World) (w : World)
    (platform N D : string) :
  Py.startswith (Py.strip D) "#" = true ->
  exec h (OllamaAPI.create_model platform N D) w = (false, w, []).
Proof.
  intros Hc. unfold OllamaAPI.create_model.
  rewrite (startswith_hash_not_FROM _ Hc), orb_true_r. reflexivity.
Qed.

(** X17. Whatever the two dialogs gave, the definition [insert_template] puts into
    the editor opens with the comment lines of the template, so
    [create_model] refuses it and the creating thread reports a failure; no
    call is made. *)
Theorem insert_template_definition_is_refused :
  forall (World : Type) (h : Handler World) (w : World) (ed : ModelfileEditor.t)
         (base_model system_prompt platform model_name : string),
    Py.truthy base_model = true ->
    let D := ModelfileEditor.get_content
               (ModelfileEditor.insert_template ed (base_model, true) (system_prompt, true)) in
    let r := exec h (CreateModelThread_run platform model_name D) w in
    exec h (OllamaAPI.create_model platform model_name D) w = (false, w, []) /\
    trace r = [] /\ world r = w /\
    (result r = (false, model_name, M_invalid_modelfile) \/
     result r = (false, model_name, M_create_failed)).
Proof.
  intros World h w ed M P platform N HM D r.
  assert (Hc : Py.startswith (Py.strip D) "#" = true).
  { unfold D. rewrite (insert_template_text ed M P HM).
    destruct (template_opens_with_comment M P) as (X & ->).
    apply strip_opens_with_comment. }
  split; [now apply create_model_refuses_comment |].
  unfold r, CreateModelThread_run.
  destruct (has_from D); simpl; [| auto].
  unfold mbind, Prog_bind. rewrite exec_bind.
  rewrite (create_model_refuses_comment h w platform N D Hc). simpl. auto.
Qed.

Lemma insert_template_definition_is_refused_witness :
  let D := ModelfileEditor.get_content
             (ModelfileEditor.insert_template
                {| ModelfileEditor.api_set := true;
                   ModelfileEditor.original_content := EmptyString;
                   ModelfileEditor.editor := EmptyString |}
                ("llama2", true) ("You are a helpful assistant.", true)) in
  let r := exec machine (CreateModelThread_run "win32" "helper" D) machine_two_models in
  exec machine (OllamaAPI.create_model "win32" "helper" D) machine_two_models
  = (false, machine_two_models, []) /\
  trace r = [] /\ world r = machine_two_models /\
  (result r = (false, "helper", M_invalid_modelfile) \/
   result r = (false, "helper", M_create_failed)).
Proof.
  apply (insert_template_definition_is_refused Machine machine machine_two_models
           {| ModelfileEditor.api_set := true;
              ModelfileEditor.original_content := EmptyString;
              ModelfileEditor.editor := EmptyString |}
           "llama2" "You are a helpful assistant." "win32" "helper").
  reflexivity.
Defined.

(** The lines between the base directive of the template and the text of the
    system prompt. *)
Lemma template_shape :
  get_modelfile_template
  = lines_before template_intro "FROM " +:+ "{{base_model}}"
    +:+ (Py.nl +:+ lines_before template_settings "SYSTEM ")
    +:+ "{{system_prompt}}" +:+ Py.nl.
Proof. vm_compute. reflexivity. Qed.

Lemma name_char_no_brace (c : ascii) :
  Re.name_char c = true -> negb (Ascii.eqb "{" c) = true.
Proof.
  destruct c as [b0 b1 b2 b3 b4 b5 b6 b7].
  destruct b0, b1, b2, b3, b4, b5, b6, b7; vm_compute; congruence.
Qed.

Lemma NAME_TAG_no_brace : classes_within (fun c => negb (Ascii.eqb "{" c)) Re.NAME_TAG.
Proof.
  unfold Re.NAME_TAG, Re.Plus, Re.Opt, Re.Chr. cbn [classes_within].
  repeat split; try exact name_char_no_brace.
  intros c Hc. apply Ascii.eqb_eq in Hc. subst c. reflexivity.
Qed.

Section TemplateName.

Variable M : string.
Hypothesis M_name : Re.fullmatch Re.NAME_TAG M = true.
Variable P : string.

Let a : string := "FROM " +:+ M.
Let D : string :=
  str_replace (str_replace get_modelfile_template "{{base_model}}" M) "{{system_prompt}}" P.

Lemma name_no_brace : string_forall (fun c => negb (Ascii.eqb "{" c)) M = true.
Proof.
  apply (Matches_within _ Re.NAME_TAG); [| exact NAME_TAG_no_brace].
  now apply fullmatch_Matches.
Qed.

Lemma template_filled :
  D = lines_before template_intro
        (a +:+ (Py.nl +:+ lines_before template_settings "SYSTEM " +:+ P +:+ Py.nl)).
Proof.
  unfold D, str_replace. rewrite template_shape.
  rewrite (replace_from_clean "{" "{base_model}}" M (lines_before template_intro "FROM "))
    by (vm_compute; reflexivity).
  rewrite (replace_from_hit "{" "{base_model}}" M).
  rewrite (replace_from_clean "{" "{base_model}}" M
             (Py.nl +:+ lines_before template_settings "SYSTEM "))
    by (vm_compute; reflexivity).
  assert (Hrest : replace_from "{{base_model}}" M 0 ("{{system_prompt}}" +:+ Py.nl)
                  = "{{system_prompt}}" +:+ Py.nl) by (vm_compute; reflexivity).
  rewrite Hrest.
  rewrite (replace_from_clean "{" "{system_prompt}}" P (lines_before template_intro "FROM ")).
  2: vm_compute; reflexivity.
  rewrite (replace_from_clean "{" "{system_prompt}}" P M _ name_no_brace).
  rewrite (replace_from_clean "{" "{system_prompt}}" P
             (Py.nl +:+ lines_before template_settings "SYSTEM "))
    by (vm_compute; reflexivity).
  rewrite (replace_from_hit "{" "{system_prompt}}" P).
  rewrite (replace_from_none "{" "{system_prompt}}" P Py.nl) by reflexivity.
  rewrite lines_before_append. unfold a. now rewrite !append_assoc.
Qed.

Lemma template_lines_of : exists tl, lines_of D = (template_intro ++ a :: tl)%list.
Proof.
  rewrite template_filled. unfold lines_of, Py.strip.
  set (Z := Py.nl +:+ lines_before template_settings "SYSTEM " +:+ P +:+ Py.nl).
  assert (HZ : exists Z2, Py.rstrip (a +:+ Z) = a +:+ Z2 /\
                          exists tl, Py.split_nl (a +:+ Z2) = a :: tl).
  { rewrite rstrip_append by reflexivity.
    destruct (Py.rstrip Z) as [| y z] eqn:E.
    - exists EmptyString. split; [unfold a; now rewrite from_line_rstrip, append_empty_r |].
      exists []. rewrite append_empty_r.
      apply split_nl_no_newline, from_line_no_newline, M_name.
    - exists (String y z). split; [reflexivity |].
      unfold Z in E.
      change (Py.nl +:+ ?x) with (String Py.newline x) in E.
      rewrite rstrip_newline in E.
      match type of E with
      | match ?r with _ => _ end = _ => destruct r as [| y' z'] eqn:Er
      end; [discriminate E |].
      injection E as <- <-.
      exists (Py.split_nl (String y' z')).
      change (String Py.newline (String y' z')) with (Py.nl +:+ String y' z').
      apply split_nl_append, from_line_no_newline, M_name. }
  destruct HZ as (Z2 & HZ & tl & Hs).
  assert (Hne : Py.rstrip (a +:+ Z) <> EmptyString).
  { rewrite HZ. unfold a. discriminate. }
  rewrite (rstrip_lines_before template_intro _ Hne), HZ.
  exists tl.
  assert (Hl : Py.lstrip (lines_before template_intro (a +:+ Z2))
               = lines_before template_intro (a +:+ Z2)) by reflexivity.
  rewrite Hl, split_nl_lines_before by reflexivity. now rewrite Hs.
Qed.

Lemma template_valid : has_valid_from D = true /\ has_from D = true.
Proof.
  unfold has_valid_from, has_from.
  destruct template_lines_of as (tl & ->).
  rewrite scan_from_passed_over, has_from_loop_passed_over by (vm_compute; reflexivity).
  fold a. unfold a. rewrite (from_line_scan M M_name tl).
  split.
  - destruct (template_opens_with_comment M P) as (X & E). fold D in E. now rewrite E.
  - simpl. rewrite (from_line_strip M M_name).
    now rewrite (startswith_refl_append "FROM " M).
Qed.

End TemplateName.

(** X18. With a base model whose name is a name with an optional tag, the
    definition [insert_template] puts into the editor passes the validator of
    the window unchanged and passes the check of the thread, and then fails in
    [create_model]: the thread reports that creating the model failed, and no
    call has been made. *)
Theorem insert_template_definition_passes_validator :
  forall (World : Type) (h : Handler World) (w : World) (ed : ModelfileEditor.t)
         (base_model system_prompt platform model_name : string),
    Re.fullmatch Re.NAME_TAG base_model = true ->
    let D := ModelfileEditor.get_content
               (ModelfileEditor.insert_template ed (base_model, true) (system_prompt, true)) in
    has_valid_from D = true /\
    exec h (_ensure_valid_from_directive D false) w = (Some D, w, []) /\
    exec h (CreateModelThread_run platform model_name D) w
    = ((false, model_name, M_create_failed), w, []).
Proof.
  intros World h w ed M P platform N HM D.
  assert (Ht : Py.truthy M = true).
  { pose proof (name_not_empty M HM). now destruct M. }
  assert (ED : D = str_replace (str_replace get_modelfile_template "{{base_model}}" M)
                     "{{system_prompt}}" P)
    by apply (insert_template_text ed M P Ht).
  destruct (template_valid M HM P) as [Hv Hf]. rewrite <- ED in Hv, Hf.
  assert (Hc : Py.startswith (Py.strip D) "#" = true).
  { rewrite ED. destruct (template_opens_with_comment M P) as (X & ->).
    apply strip_opens_with_comment. }
  split; [exact Hv |]. split.
  - unfold has_valid_from in Hv. apply andb_true_iff in Hv as [Hv1 Hv2].
    unfold _ensure_valid_from_directive. rewrite Hv1, Hv2. reflexivity.
  - unfold CreateModelThread_run. rewrite Hf. simpl.
    unfold mbind, Prog_bind. rewrite exec_bind.
    rewrite (create_model_refuses_comment h w platform N D Hc). reflexivity.
Qed.

Lemma insert_template_definition_passes_validator_witness :
  let D := ModelfileEditor.get_content
             (ModelfileEditor.insert_template
                {| ModelfileEditor.api_set := true;
                   ModelfileEditor.original_content := EmptyString;
                   ModelfileEditor.editor := EmptyString |}
                ("llama2:7b", true) ("You are a helpful assistant.", true)) in
  has_valid_from D = true /\
  exec machine (_ensure_valid_from_directive D false) machine_two_models
  = (Some D, machine_two_models, []) /\
  exec machine (CreateModelThread_run "win32" "helper" D) machine_two_models
  = ((false, "helper", M_create_failed), machine_two_models, []).
Proof.
  apply (insert_template_definition_passes_validator Machine machine machine_two_models
           {| ModelfileEditor.api_set := true;
              ModelfileEditor.original_content := EmptyString;
              ModelfileEditor.editor := EmptyString |}
           "llama2:7b" "You are a helpful assistant." "win32" "helper").
  reflexivity.
Defined.

(** ** [ModelfileEditor.select_base_model] *)

(** The validator sees a line only through its stripped text. *)
Lemma scan_from_cons_congr (p p' : string) (T T' : list string) :
  Py.strip p = Py.strip p' -> scan_from T = scan_from T' ->
  scan_from (p :: T) = scan_from (p' :: T').
Proof. intros Hp HT. simpl. now rewrite Hp, HT. Qed.

Lemma scan_from_blank (p : string) (T : list string) :
  Py.strip p = EmptyString -> scan_from (p :: T) = scan_from T.
Proof. intros Hp. simpl. now rewrite Hp. Qed.

Lemma split_nl_nonempty (s : string) : Py.split_nl s <> [].
Proof.
  destruct s as [| c s]; simpl; [discriminate |].
  destruct (Ascii.eqb c Py.newline); [discriminate |].
  destruct (Py.split_nl s); discriminate.
Qed.

Lemma isspace_not_lead (c : ascii) : Py.isspace c = true -> space_lead c = false.
Proof.
  destruct c as [b0 b1 b2 b3 b4 b5 b6 b7].
  destruct b0, b1, b2, b3, b4, b5, b6, b7; vm_compute; congruence.
Qed.

Lemma general_punctuation_space_inner (e : ascii) :
  Py.general_punctuation_space e = true -> Py.isspace e = false /\ space_lead e = false.
Proof.
  destruct e as [b0 b1 b2 b3 b4 b5 b6 b7].
  destruct b0, b1, b2, b3, b4, b5, b6, b7; vm_compute; intuition congruence.
Qed.

(** The shapes of a white-space character: its octets after the first are
    no white space and begin none. *)
Lemma space_char_shape (w : string) :
  Py.space_char w = true ->
  (exists c, w = String c EmptyString /\ Py.isspace c = true) \/
  (exists c d, w = String c (String d EmptyString) /\ Py.isspace2 c d = true /\
               Py.isspace c = false /\ Py.isspace d = false /\ space_lead d = false) \/
  (exists c d e, w = String c (String d (String e EmptyString)) /\
                 Py.isspace3 c d e = true /\ Py.isspace c = false /\
                 (forall x, Py.isspace2 c x = false) /\
                 Py.isspace d = false /\ space_lead d = false /\
                 Py.isspace e = false /\ space_lead e = false).
Proof.
  intros H. destruct w as [| c [| d [| e [| x w]]]]; try discriminate H; simpl in H.
  - left. eauto.
  - right. left. exists c, d. split; [reflexivity |]. split; [exact H |].
    unfold Py.isspace2 in H. apply andb_true_iff in H as [Hc Hd].
    apply nat_eqb_ascii in Hc. subst c.
    apply orb_true_iff in Hd as [Hd | Hd]; apply nat_eqb_ascii in Hd; subst d;
      repeat split; reflexivity.
  - right. right. exists c, d, e. split; [reflexivity |]. split; [exact H |].
    unfold Py.isspace3 in H.
    repeat match type of H with
           | _ || _ = true => apply orb_true_iff in H as [H | H]
           end.
    all: repeat match goal with
                | H : _ && _ = true |- _ => apply andb_true_iff in H as [? ?]
                | H : (nat_of_ascii ?c =? _)%nat = true |- _ =>
                    apply nat_eqb_ascii in H; subst c
                end.
    all: try (repeat split; reflexivity).
    match goal with
    | H : Py.general_punctuation_space e = true |- _ =>
        destruct (general_punctuation_space_inner e H) as [He1 He2]
    end.
    repeat split; try reflexivity; assumption.
Qed.

Lemma lstrip_space_prefix (w r : string) :
  Py.space_char w = true -> Py.lstrip (w +:+ r) = Py.lstrip r.
Proof.
  intros H.
  destruct (space_char_shape w H)
    as [(c & -> & Hc) | [(c & d & -> & H2 & Hc & _) | (c & d & e & -> & H3 & Hc & H2 & _)]].
  - rewrite append_cons, append_nil. simpl. now rewrite Hc.
  - rewrite !append_cons, append_nil. simpl. now rewrite Hc, H2.
  - rewrite !append_cons, append_nil. simpl. now rewrite Hc, H2, H3.
Qed.

Lemma rstrip_space_prefix (w l : string) :
  Py.space_char w = true ->
  Py.rstrip (w +:+ l)
  = match Py.rstrip l with
    | EmptyString => EmptyString
    | String y z => w +:+ String y z
    end.
Proof.
  intros H.
  destruct (space_char_shape w H)
    as [(c & -> & Hc) | [(c & d & -> & H2 & Hc & Hd & Hld)
                        | (c & d & e & -> & H3 & Hc & H2 & Hd & Hld & He & Hle)]].
  - rewrite append_cons, append_nil, rstrip_cons_eq.
    destruct (Py.rstrip l) as [| y z]; [simpl; now rewrite Hc |].
    pose proof (isspace_not_lead c Hc) as Hl.
    destruct z as [| e [| x z]]; simpl.
    + now rewrite (space_lead_isspace2 c y Hl).
    + now rewrite (space_lead_isspace3 c y e Hl).
    + reflexivity.
  - rewrite !append_cons, append_nil.
    rewrite rstrip_cons_eq, (rstrip_cons_nonspace d l Hd Hld).
    destruct (Py.rstrip l) as [| y z]; [simpl; now rewrite H2 |].
    destruct z as [| x z]; simpl; [| reflexivity].
    unfold Py.isspace2 in H2. apply andb_true_iff in H2 as [H2 _].
    apply nat_eqb_ascii in H2. subst c. reflexivity.
  - rewrite !append_cons, append_nil.
    rewrite rstrip_cons_eq, (rstrip_cons_nonspace d _ Hd Hld),
      (rstrip_cons_nonspace e l He Hle).
    destruct (Py.rstrip l) as [| y z]; [simpl; now rewrite H3 |]. reflexivity.
Qed.

Lemma strip_space_prefix (w l : string) :
  Py.space_char w = true -> Py.strip (w +:+ l) = Py.strip l.
Proof.
  intros H. unfold Py.strip. rewrite (rstrip_space_prefix w l H).
  destruct (Py.rstrip l) as [| y z]; [reflexivity |].
  now apply lstrip_space_prefix.
Qed.

Lemma space_char_newline (w : string) :
  Py.space_char w = true -> w = Py.nl \/ no_newline w = true.
Proof.
  intros H.
  destruct (space_char_shape w H)
    as [(c & -> & Hc) | [(c & d & -> & H2 & Hc & Hd & Hld)
                        | (c & d & e & -> & H3 & Hc & H2 & Hd & Hld & He & Hle)]].
  - destruct (Ascii.eqb c Py.newline) eqn:E.
    + left. apply Ascii.eqb_eq in E. now subst c.
    + right. simpl. now rewrite E.
  - right. simpl.
    destruct (Ascii.eqb c Py.newline) eqn:E1;
      [apply Ascii.eqb_eq in E1; subst c; discriminate Hc |].
    destruct (Ascii.eqb d Py.newline) eqn:E2;
      [apply Ascii.eqb_eq in E2; subst d; discriminate Hd |]. reflexivity.
  - right. simpl.
    destruct (Ascii.eqb c Py.newline) eqn:E1;
      [apply Ascii.eqb_eq in E1; subst c; discriminate Hc |].
    destruct (Ascii.eqb d Py.newline) eqn:E2;
      [apply Ascii.eqb_eq in E2; subst d; discriminate Hd |].
    destruct (Ascii.eqb e Py.newline) eqn:E3;
      [apply Ascii.eqb_eq in E3; subst e; discriminate He |]. reflexivity.
Qed.

Lemma split_nl_prefix (w r : string) :
  no_newline w = true ->
  exists l ls, Py.split_nl r = l :: ls /\ Py.split_nl (w +:+ r) = (w +:+ l) :: ls.
Proof.
  induction w as [| c w IH]; intros H.
  - destruct (Py.split_nl r) as [| l ls] eqn:E; [now apply split_nl_nonempty in E |].
    exists l, ls. split; [reflexivity | exact E].
  - simpl in H. apply andb_true_iff in H as [Hc Hw]. apply negb_true_iff in Hc.
    destruct (IH Hw) as (l & ls & E1 & E2). exists l, ls. split; [exact E1 |].
    rewrite append_cons. simpl. now rewrite Hc, E2.
Qed.

Lemma scan_from_lstrip (S : string) :
  scan_from (Py.split_nl (Py.lstrip S)) = scan_from (Py.split_nl S).
Proof.
  induction S as [S IH] using string_length_ind.
  destruct (lstrip_cases S) as [E | (w & r & ES & Hw & E)]; [now rewrite E |].
  rewrite E, IH by (subst S; rewrite length_append; apply space_char_length in Hw; lia).
  subst S. destruct (space_char_newline w Hw) as [-> | Hn].
  - change (Py.nl +:+ r) with (String Py.newline r). reflexivity.
  - destruct (split_nl_prefix w r Hn) as (l & ls & -> & ->).
    apply scan_from_cons_congr; [| reflexivity].
    symmetry. now apply strip_space_prefix.
Qed.

Lemma rstrip_idem (s : string) : Py.rstrip (Py.rstrip s) = Py.rstrip s.
Proof.
  induction s as [| c s IH]; [reflexivity |]. rewrite rstrip_cons_eq.
  destruct (Py.space_char (String c (Py.rstrip s))) eqn:E; [reflexivity |].
  now rewrite rstrip_cons_eq, IH, E.
Qed.

Lemma strip_rstrip (s : string) : Py.strip (Py.rstrip s) = Py.strip s.
Proof. unfold Py.strip. now rewrite rstrip_idem. Qed.

Lemma no_newline_rstrip (s : string) : no_newline s = true -> no_newline (Py.rstrip s) = true.
Proof.
  induction s as [| c s IH]; [reflexivity |]. rewrite rstrip_cons_eq.
  intros H. simpl in H. apply andb_true_iff in H as [Hc Hs]. specialize (IH Hs).
  destruct (Py.space_char (String c (Py.rstrip s))); [reflexivity |].
  simpl. now rewrite Hc, IH.
Qed.

Lemma append_cons_r (p : string) (c : ascii) (S : string) :
  p +:+ String c S = (p +:+ String c EmptyString) +:+ S.
Proof. now rewrite append_assoc. Qed.

Lemma scan_from_rstrip_after (S p : string) :
  no_newline p = true ->
  scan_from (Py.split_nl (Py.rstrip (p +:+ S))) = scan_from (Py.split_nl (p +:+ S)).
Proof.
  revert p. induction S as [| c S IH]; intros p Hp.
  - rewrite append_empty_r.
    rewrite !split_nl_no_newline by (try apply no_newline_rstrip; exact Hp).
    apply scan_from_cons_congr; [apply strip_rstrip | reflexivity].
  - destruct (Ascii.eqb c Py.newline) eqn:Hc.
    + apply Ascii.eqb_eq in Hc. subst c.
      change (p +:+ String Py.newline S) with (p +:+ Py.nl +:+ S).
      rewrite (split_nl_append p S Hp).
      pose proof (IH EmptyString eq_refl) as IH0. rewrite !append_nil in IH0.
      rewrite rstrip_append by reflexivity.
      change (Py.nl +:+ S) with (String Py.newline S).
      assert (Hnl : Py.rstrip (String Py.newline S)
                    = match Py.rstrip S with
                      | EmptyString => EmptyString
                      | String y z => String Py.newline (String y z)
                      end).
      { apply rstrip_newline. }
      rewrite Hnl. destruct (Py.rstrip S) as [| y z].
      * rewrite split_nl_no_newline by now apply no_newline_rstrip.
        apply scan_from_cons_congr; [apply strip_rstrip |].
        rewrite <- IH0. reflexivity.
      * change (p +:+ String Py.newline (String y z)) with (p +:+ Py.nl +:+ String y z).
        rewrite (split_nl_append p _ Hp).
        apply scan_from_cons_congr; [reflexivity | exact IH0].
    + rewrite (append_cons_r p c S). apply IH.
      rewrite no_newline_append, Hp. simpl. now rewrite Hc.
Qed.

(** Joined by newlines and read back by the validator, a list of lines is
    judged as it stands. *)
Lemma has_valid_from_join (X : list string) :
  Forall (fun l => no_newline l = true) X ->
  has_valid_from (Py.join_nl X) = scan_from X.
Proof.
  intros HX. unfold has_valid_from, lines_of, Py.strip.
  rewrite scan_from_lstrip.
  pose proof (scan_from_rstrip_after (Py.join_nl X) EmptyString eq_refl) as H.
  rewrite !append_nil in H. rewrite H.
  destruct X as [| x X]; [reflexivity |].
  rewrite split_nl_join_nl by (try discriminate; exact HX).
  destruct (Py.join_nl (x :: X)) eqn:E; [| reflexivity].
  destruct X as [| y X].
  - simpl in E. subst x. reflexivity.
  - change (x +:+ Py.nl +:+ Py.join_nl (y :: X) = EmptyString) in E.
    apply append_eq_empty in E as [_ E]. discriminate E.
Qed.

Lemma map_keep_all (x : string) (lines : list string) :
  forallb keep_line lines = true ->
  map (fun line => if keep_line line then line else x) lines = lines.
Proof.
  induction lines as [| l ls IH]; [reflexivity |]. simpl.
  intros E. apply andb_true_iff in E as [El Els]. rewrite El. now rewrite IH.
Qed.

Lemma filter_keep_all (lines : list string) :
  forallb keep_line lines = true -> List.filter keep_line lines = lines.
Proof.
  induction lines as [| l ls IH]; [reflexivity |]. simpl.
  intros E. apply andb_true_iff in E as [El Els]. rewrite El. now rewrite IH.
Qed.

(** The loop of [select_base_model] replaces every line that starts with
    FROM and keeps the others where they are. *)
Lemma select_lines_map (M : string) (lines : list string) :
  ModelfileEditor.select_lines M lines
  = if forallb keep_line lines then ("FROM " +:+ M) :: lines
    else map (fun line => if keep_line line then line else "FROM " +:+ M) lines.
Proof.
  unfold ModelfileEditor.select_lines.
  assert (G : forall acc b,
             fold_left (ModelfileEditor.select_step M) lines (acc, b)
             = ((acc ++ map (fun line => if keep_line line then line else "FROM " +:+ M)
                          lines)%list,
                b || negb (forallb keep_line lines))).
  { induction lines as [| l ls IH]; intros acc b.
    - simpl. now rewrite app_nil_r, orb_false_r.
    - cbn [fold_left map forallb].
      destruct (Py.startswith (Py.strip l) "FROM ") eqn:Hf.
      + assert (Hs : ModelfileEditor.select_step M (acc, b) l
                     = ((acc ++ ["FROM " +:+ M])%list, true))
          by (unfold ModelfileEditor.select_step; rewrite Hf; reflexivity).
        assert (Hk : keep_line l = false) by (unfold keep_line; rewrite Hf; reflexivity).
        rewrite Hs, IH, Hk, <- app_assoc. simpl. now rewrite orb_true_r.
      + assert (Hs : ModelfileEditor.select_step M (acc, b) l = ((acc ++ [l])%list, b))
          by (unfold ModelfileEditor.select_step; rewrite Hf; reflexivity).
        assert (Hk : keep_line l = true) by (unfold keep_line; rewrite Hf; reflexivity).
        rewrite Hs, IH, Hk, <- app_assoc. reflexivity. }
  rewrite G. simpl.
  destruct (forallb keep_line lines) eqn:E; simpl; [| reflexivity].
  f_equal. now apply map_keep_all.
Qed.

Lemma select_base_model_text (shown : string -> string) (ed : ModelfileEditor.t)
    (models : list string) (M : string) :
  ModelfileEditor.api_set ed = true -> models <> [] -> Py.truthy M = true ->
  ModelfileEditor.select_base_model shown ed models (M, true)
  = ModelfileEditor.set_content shown ed
      (Py.join_nl (ModelfileEditor.select_lines M
                     (lines_of (ModelfileEditor.get_content ed)))).
Proof.
  intros Ha Hm Ht. unfold ModelfileEditor.select_base_model.
  rewrite Ha. destruct models; [congruence |]. simpl. now rewrite Ht.
Qed.

(** X19. The text [select_base_model] hands to the editor, and keeps as the
    original content, is the definition with every line that starts with FROM
    replaced by the chosen directive, the others staying where they are;
    when there is no such line the directive is put first, and the text is
    then the one [_ensure_valid_from_directive] builds for the same choice.
    What the editor shows afterwards is what Qt makes of that text. *)
Theorem select_base_model_replaces_each_FROM_line :
  forall (shown : string -> string) (ed : ModelfileEditor.t) (models : list string)
         (model_name : string),
    ModelfileEditor.api_set ed = true -> models <> [] -> Py.truthy model_name = true ->
    let D := ModelfileEditor.get_content ed in
    let ed' := ModelfileEditor.select_base_model shown ed models (model_name, true) in
    ModelfileEditor.get_content ed' = shown (ModelfileEditor.original_content ed') /\
    (forallb keep_line (lines_of D) = true ->
       ModelfileEditor.original_content ed' = rebuild D model_name) /\
    (forallb keep_line (lines_of D) = false ->
       ModelfileEditor.original_content ed'
       = Py.join_nl (map (fun line => if keep_line line then line
                                      else "FROM " +:+ model_name)
                       (lines_of D))).
Proof.
  intros shown ed models M Ha Hm Ht D ed'. unfold ed'.
  rewrite (select_base_model_text shown ed models M Ha Hm Ht). simpl.
  split; [reflexivity |]. fold D. rewrite select_lines_map.
  split; intros E; rewrite E; [| reflexivity].
  unfold rebuild, new_content. rewrite user_content_filter.
  now rewrite (filter_keep_all _ E).
Qed.

Lemma select_base_model_replaces_each_FROM_line_witness :
  let ed := {| ModelfileEditor.api_set := true;
               ModelfileEditor.original_content := EmptyString;
               ModelfileEditor.editor :=
                 "FROM llama2" +:+ Py.nl +:+ "SYSTEM " +:+ triple_quote +:+ "Reply" +:+ Py.nl
                 +:+ "FROM memory." +:+ triple_quote |} in
  ModelfileEditor.original_content
    (ModelfileEditor.select_base_model (fun text => text) ed
       ["llama2"; "mistral"] ("mistral", true))
  = "FROM mistral" +:+ Py.nl +:+ "SYSTEM " +:+ triple_quote +:+ "Reply" +:+ Py.nl
    +:+ "FROM mistral".
Proof.
  pose (ed := {| ModelfileEditor.api_set := true;
                 ModelfileEditor.original_content := EmptyString;
                 ModelfileEditor.editor :=
                   "FROM llama2" +:+ Py.nl +:+ "SYSTEM " +:+ triple_quote +:+ "Reply" +:+ Py.nl
                   +:+ "FROM memory." +:+ triple_quote |}).
  destruct (select_base_model_replaces_each_FROM_line (fun text => text) ed
              ["llama2"; "mistral"] "mistral"
              eq_refl ltac:(discriminate) eq_refl) as (_ & _ & H).
  etransitivity; [exact (H eq_refl) | reflexivity].
Defined.

Lemma startswith_FROM_not_hash (s : string) :
  Py.startswith s "FROM " = true -> Py.startswith s "#" = false.
Proof.
  destruct s as [| c s]; [discriminate |]. intros H.
  change (Ascii.eqb "F" c && Py.startswith s "ROM " = true) in H.
  apply andb_true_iff in H as [H _]. apply Ascii.eqb_eq in H. subst c.
  destruct s; reflexivity.
Qed.

Lemma scan_from_replaced (M : string) (lines : list string) :
  Re.fullmatch Re.NAME_TAG M = true ->
  scan_from (map (fun line => if keep_line line then line else "FROM " +:+ M) lines)
  = has_from_loop lines.
Proof.
  intros HM. induction lines as [| l ls IH]; [reflexivity |].
  cbn [map]. unfold keep_line at 1.
  destruct (Py.startswith (Py.strip l) "FROM ") eqn:Hf; cbn [negb].
  - rewrite (from_line_scan M HM). simpl. rewrite Hf.
    now rewrite (startswith_FROM_not_hash _ Hf).
  - simpl. rewrite Hf, IH.
    destruct (Py.startswith (Py.strip l) "#") eqn:Hc; [reflexivity |].
    now rewrite andb_true_r.
Qed.

Lemma has_from_loop_some (lines : list string) :
  has_from_loop lines = true -> forallb keep_line lines = false.
Proof.
  induction lines as [| l ls IH]; [discriminate |]. simpl. unfold keep_line at 1.
  destruct (Py.startswith (Py.strip l) "FROM "); [reflexivity |]. simpl.
  destruct (Py.startswith (Py.strip l) "#"); [exact IH |].
  destruct (Py.truthy (Py.strip l)); [discriminate | exact IH].
Qed.

(** X20. The text [select_base_model] hands to the editor for a name that is
    a name with an optional tag is accepted by the validator of the window
    exactly when the definition before had no line starting with FROM, or had
    such a line as its first line that is neither blank nor a comment: a base
    directive that stands after another directive is replaced where it
    stands, and the definition stays invalid. The same holds of what the
    editor shows when it shows the text as it is. *)
Theorem select_base_model_validity :
  forall (shown : string -> string) (ed : ModelfileEditor.t) (models : list string)
         (model_name : string),
    ModelfileEditor.api_set ed = true -> models <> [] ->
    Re.fullmatch Re.NAME_TAG model_name = true ->
    let D := ModelfileEditor.get_content ed in
    let ed' := ModelfileEditor.select_base_model shown ed models (model_name, true) in
    let T := ModelfileEditor.original_content ed' in
    has_valid_from T = forallb keep_line (lines_of D) || has_from D /\
    (shown T = T ->
     has_valid_from (ModelfileEditor.get_content ed')
     = forallb keep_line (lines_of D) || has_from D).
Proof.
  intros shown ed models M Ha Hm HM D ed' T.
  assert (Ht : Py.truthy M = true).
  { pose proof (name_not_empty M HM). now destruct M. }
  assert (ET : T = Py.join_nl (ModelfileEditor.select_lines M (lines_of D))).
  { unfold T, ed'. now rewrite (select_base_model_text shown ed models M Ha Hm Ht). }
  assert (Eshown : ModelfileEditor.get_content ed' = shown T).
  { unfold T, ed'. now rewrite (select_base_model_text shown ed models M Ha Hm Ht). }
  assert (HL : Forall (fun l => no_newline l = true) (lines_of D))
    by apply split_nl_lines.
  assert (HT : has_valid_from T = forallb keep_line (lines_of D) || has_from D).
  { rewrite ET. unfold has_from. rewrite has_valid_from_join.
    - rewrite select_lines_map.
      destruct (forallb keep_line (lines_of D)) eqn:E; simpl.
      + apply (from_line_scan M HM).
      + apply (scan_from_replaced M _ HM).
    - rewrite select_lines_map.
      destruct (forallb keep_line (lines_of D)).
      + constructor; [apply (from_line_no_newline M HM) | exact HL].
      + apply List.Forall_forall. intros x Hx.
        apply in_map_iff in Hx as (l & <- & Hl).
        destruct (keep_line l); [| apply (from_line_no_newline M HM)].
        revert l Hl. now apply List.Forall_forall. }
  split; [exact HT |]. intros E. now rewrite Eshown, E.
Qed.

Lemma select_base_model_validity_witness :
  let ed := {| ModelfileEditor.api_set := true;
               ModelfileEditor.original_content := EmptyString;
               ModelfileEditor.editor :=
                 "PARAMETER temperature 0.7" +:+ Py.nl +:+ "FROM llama2" |} in
  let ed' := ModelfileEditor.select_base_model (fun text => text) ed
               ["llama2"; "mistral"] ("mistral", true) in
  ModelfileEditor.original_content ed'
  = "PARAMETER temperature 0.7" +:+ Py.nl +:+ "FROM mistral" /\
  has_valid_from (ModelfileEditor.original_content ed') = false.
Proof.
  split; [reflexivity |].
  destruct (select_base_model_validity (fun text => text)
              {| ModelfileEditor.api_set := true;
                 ModelfileEditor.original_content := EmptyString;
                 ModelfileEditor.editor :=
                   "PARAMETER temperature 0.7" +:+ Py.nl +:+ "FROM llama2" |}
              ["llama2"; "mistral"] "mistral" eq_refl ltac:(discriminate) eq_refl)
    as [H _].
  etransitivity; [exact H | reflexivity].
Defined.

(** ** A save while a creation runs *)

Lemma save_modelfile_fetches_before_busy_witness :
  let r := exec machine (save_modelfile "/tmp/" gui_busy) machine_busy in
  warned W_in_progress (trace r) /\
  exists N, current_item gui_busy = Some N /\ fetched N (trace r) = true.
Proof.
  assert (Hw : warned W_in_progress
                 (trace (exec machine (save_modelfile "/tmp/" gui_busy) machine_busy))).
  { exists (Ev (QMessageBox_warning W_in_progress) tt).
    split; [vm_compute; tauto | reflexivity]. }
  split; [exact Hw |].
  exact (save_modelfile_fetches_before_busy Machine machine machine_busy "/tmp/" gui_busy Hw).
Defined.

(** ** A confirmed save stays pending *)

Lemma confirmed_save_stays_pending_wp (tempdir : string) (g : Gui) :
  wp (save_modelfile tempdir g)
     (fun g' tr =>
        answered Q_confirm_rebuild true tr -> current_operation g' = Some "save").
Proof.
  unfold save_modelfile. destruct (current_item g) as [N |] eqn:Hitem.
  - unfold _create_model_with_thread, thread_is_running, set_current_operation, not_save,
      set_content, set_backup.
    simpl. destruct (create_thread g) as [t |] eqn:Hct;
      repeat autounfold with prog; run_cases.
    all: repeat negb_hyp; subst.
    all: try reflexivity.
    all: match goal with
         | H : answered _ _ _ |- _ => destruct H as (e & Hin & Ha)
         end; in_cases Hin; simpl in Ha; discriminate Ha.
  - repeat autounfold with prog. run_cases.
    match goal with
    | H : answered _ _ _ |- _ => destruct H as (e & Hin & Ha)
    end; in_cases Hin; simpl in Ha; discriminate Ha.
Qed.

(** X21. Once the user has confirmed the rebuild, [save_modelfile] leaves the
    pending operation at save, whether a thread was started or not, and
    [_on_model_created] does not clear it, on success or on failure: the
    window stays in the state in which [_create_model_with_thread] skips the
    check of the name and the validation of the content. *)
Theorem confirmed_save_stays_pending :
  forall (World : Type) (h : Handler World) (w : World) (tempdir : string) (g : Gui),
    let r := exec h (save_modelfile tempdir g) w in
    answered Q_confirm_rebuild true (trace r) ->
    current_operation (result r) = Some "save" /\
    not_save (result r) = false /\
    forall success, operation_after_created (result r) success = Some "save".
Proof.
  intros World h w tempdir g r Ha.
  assert (H : current_operation (result r) = Some "save")
    by exact (wp_sound h _ _ w (confirmed_save_stays_pending_wp tempdir g) Ha).
  split; [exact H |]. split.
  - unfold not_save. now rewrite H.
  - intros success. unfold operation_after_created. rewrite H. now destruct success.
Qed.

Lemma confirmed_save_stays_pending_witness :
  let r := exec machine (save_modelfile "/tmp/" gui_busy) machine_busy in
  answered Q_confirm_rebuild true (trace r) /\
  started (trace r) = [] /\
  current_operation (result r) = Some "save" /\
  not_save (result r) = false /\
  forall success, operation_after_created (result r) success = Some "save".
Proof.
  assert (Ha : answered Q_confirm_rebuild true
                 (trace (exec machine (save_modelfile "/tmp/" gui_busy) machine_busy))).
  { exists (Ev (QMessageBox_question Q_confirm_rebuild) true).
    split; [vm_compute; tauto | reflexivity]. }
  split; [exact Ha |]. split; [reflexivity |].
  exact (confirmed_save_stays_pending Machine machine machine_busy "/tmp/" gui_busy Ha).
Defined.
